(** * asyncwiki: search orchestration, query normalisation and cache write-back

    A shallow embedding of the Python package [asyncwiki]
    ([types.py], [main.py], [searchers/db_searcher.py],
    [searchers/web_searcher/*.py], [database/engine.py]) together with the
    properties of its natural-language specification.

    Conventions of the embedding.
    - A Python [str] is a [string]: the UTF-8 bytes of the text.  Every
      separator the code splits on or replaces ("//", "/", ".", "|", " ",
      "_") is ASCII, so splitting and joining bytes agrees with splitting
      and joining code points.  [str.lower] is not ASCII-only and is kept as
      a function of the environment ([str_lower]).
    - Coroutines are run to completion one after the other; the code awaits
      every call it makes, and no claim below depends on interleavings.
    - Exceptions and mutable objects are explicit: a computation is a
      function from the program state to an outcome (a value or a raised
      exception) and a new state. *)

From Stdlib Require Import ZArith Ascii.
From stdpp Require Import base option list strings gmap.

Local Open Scope Z_scope.

(* ================================================================== *)
(** * Python strings *)
(* ================================================================== *)

Module PyStr.

(** [split_go sep skip s] scans [s] from the left.  [skip] counts the
    characters of a separator occurrence that are still to be consumed.
    The result is the chunk under construction and the chunks after it. *)
Fixpoint split_go (sep : string) (skip : nat) (s : string)
  : string * list string :=
  match s with
  | EmptyString => (EmptyString, [])
  | String c s' =>
      match skip with
      | S k => split_go sep k s'
      | O =>
          if String.prefix sep s
          then let '(cur, rest) := split_go sep (pred (String.length sep)) s' in
               (EmptyString, cur :: rest)
          else let '(cur, rest) := split_go sep O s' in
               (String c cur, rest)
      end
  end.

(** [s.split(sep)] for a non-empty separator: never the empty list. *)
Definition split (sep s : string) : list string :=
  let '(cur, rest) := split_go sep O s in cur :: rest.

(** [sep.join(parts)] for a list of [str]. *)
Definition join (sep : string) (parts : list string) : string :=
  String.concat sep parts.

(** [s.replace(old, new)] for a non-empty [old]: the pieces between the
    occurrences of [old], glued with [new]. *)
Definition replace (old new s : string) : string :=
  join new (split old s).

(** [s.find(pat)]: index of the first occurrence, or -1. *)
Fixpoint find_from (pat : string) (i : Z) (s : string) : Z :=
  if String.prefix pat s then i
  else match s with
       | EmptyString => -1
       | String _ s' => find_from pat (i + 1) s'
       end.

Definition find (pat s : string) : Z := find_from pat 0 s.

(** [s[n:]] for [n >= 0]. *)
Fixpoint drop (n : nat) (s : string) : string :=
  match n, s with
  | O, _ => s
  | S k, EmptyString => EmptyString
  | S k, String _ s' => drop k s'
  end.

(** Whether a character occurs in a string. *)
Fixpoint has_char (c : ascii) (s : string) : bool :=
  match s with
  | EmptyString => false
  | String x s' => Ascii.eqb c x || has_char c s'
  end.

(** ASCII lower-casing: what [str.lower] does on ASCII text. *)
Definition ascii_lower (c : ascii) : ascii :=
  let n := nat_of_ascii c in
  if andb (Nat.leb 65 n) (Nat.leb n 90) then ascii_of_nat (n + 32) else c.

Fixpoint lower_ascii (s : string) : string :=
  match s with
  | EmptyString => EmptyString
  | String c s' => String (ascii_lower c) (lower_ascii s')
  end.

(** A whitespace tokenizer: maximal runs of characters other than the
    space, empty runs dropped. *)
Definition words (s : string) : list string :=
  filter (fun w => w ≠ EmptyString) (split " " s).

End PyStr.

(* ================================================================== *)
(** * Exceptions *)
(* ================================================================== *)

(** Modelled from the spec: the module [exc.py] is not part of the sources.
    The scraper exceptions ([WikiResNotReceived], [WikiNoneSearchResults],
    [WikiContentNotFound], [WikiParagraphNotFound], [WikiSummaryNotFound],
    [WikiShortSummary]) all derive from [WikiScraperExc] (spec 4.2: "all
    surfaced as a single scrape-failed condition"); the database exceptions
    derive from [WikiDBExc]. *)
Inductive ScraperFailure :=
| WikiResNotReceived
| WikiNoneSearchResults
| WikiContentNotFound
| WikiParagraphNotFound
| WikiSummaryNotFound
| WikiShortSummary.

Inductive Exc :=
| WikiScraperExc (why : ScraperFailure)
| WikiDBExc (what : string)
| AssertionError (msg : string)
| DBAPIError (msg : string)
| IndexError
| TypeError
| ValueError (msg : string)
| AttributeError.

Inductive Outcome (A : Type) :=
| Ok (a : A)
| Raise (e : Exc).
Arguments Ok {A} a.
Arguments Raise {A} e.

(* ================================================================== *)
(** * Search parameters *)
(* ================================================================== *)

(** Modelled from the spec: the module [params.py] is not part of the
    sources; the options and their values are those of the spec's
    SearchConfiguration, under the names the code uses. *)
Inductive WPSearchModes := mode_fast | mode_default.
Inductive WPSearchPriority := priority_title | priority_content.
Inductive WPQueryTreatments := treatment_with | treatment_without.
Inductive WPDBSearch := db_search_yes | db_search_no.
Inductive WPDBSearchByURL := db_search_by_url_yes | db_search_by_url_no.

Record WikiSearchParams := {
  mode : WPSearchModes;
  priority : WPSearchPriority;
  number_of_results : Z;
  query_treatment : WPQueryTreatments;
  db_search : WPDBSearch;
  db_search_by_url : WPDBSearchByURL;
}.

Definition set_db_search (v : WPDBSearch) (p : WikiSearchParams) : WikiSearchParams :=
  {| mode := mode p;
     priority := priority p;
     number_of_results := number_of_results p;
     query_treatment := query_treatment p;
     db_search := v;
     db_search_by_url := db_search_by_url p |}.

#[global] Instance WPSearchModes_eq_dec : EqDecision WPSearchModes.
Proof. solve_decision. Defined.
#[global] Instance WPSearchPriority_eq_dec : EqDecision WPSearchPriority.
Proof. solve_decision. Defined.
#[global] Instance WPQueryTreatments_eq_dec : EqDecision WPQueryTreatments.
Proof. solve_decision. Defined.
#[global] Instance WPDBSearch_eq_dec : EqDecision WPDBSearch.
Proof. solve_decision. Defined.
#[global] Instance WPDBSearchByURL_eq_dec : EqDecision WPDBSearchByURL.
Proof. solve_decision. Defined.

(** A parameters object is shared by reference: the program state maps
    object locations to their current contents. *)
Definition loc := nat.

#[global] Instance WikiSearchParams_inhabited : Inhabited WikiSearchParams :=
  populate {| mode := mode_default;
              priority := priority_title;
              number_of_results := 5;
              query_treatment := treatment_with;
              db_search := db_search_yes;
              db_search_by_url := db_search_by_url_yes |}.

(* ================================================================== *)
(** * Results ([types.py]) *)
(* ================================================================== *)

(** [wiki_page_url.format(lang, key)] of [config.py]. *)
Definition wiki_page_url (lang key : string) : string :=
  "https://" +:+ lang +:+ ".wikipedia.org/wiki/" +:+ key.

(** [wiki_search_url.format(lang, endpoint)] of [config.py]. *)
Definition wiki_search_url (lang endpoint : string) : string :=
  "https://api.wikimedia.org/core/v1/wikipedia/" +:+ lang +:+ "/search/" +:+ endpoint.

(** [query_clean_list] of [config.py]. *)
Definition query_clean_list : list string :=
  [ "what"; "where"; "who"; "why"; "when"; "that"; "this"; "how";
    "что"; "такое"; "где"; "кто"; "зачем"; "куда"; "когда"; "такие";
    "такой"; "такого"; "как"; "какой"; "такая" ].

Definition wiki_folder : string := "/wiki/".

(** [WikiSimpleResult].  The class defines no [__eq__], so [list.remove]
    compares entries by object identity: [sr_oid] is that identity. *)
Record WikiSimpleResult := {
  sr_oid : nat;
  sr_title : string;
  sr_lang : string;
  sr_raw_link : string;
  sr_link : string;
}.

(** [WikiSimpleResult.__init__] with the [raw_link] setter. *)
Definition WikiSimpleResult_init (oid : nat) (title raw_link lang : string)
  : WikiSimpleResult :=
  let wiki := PyStr.find wiki_folder raw_link in
  let raw_link' :=
    if bool_decide (wiki ≠ -1)
    then PyStr.drop (Z.to_nat (wiki + Z.of_nat (String.length wiki_folder))) raw_link
    else raw_link in
  {| sr_oid := oid;
     sr_title := title;
     sr_lang := lang;
     sr_raw_link := raw_link';
     sr_link := wiki_page_url lang raw_link' |}.

Section Results.

(** [str.lower] *)
Variable lower : string -> string.

Definition same_title (own : string) (r : WikiSimpleResult) : bool :=
  bool_decide (lower (sr_title r) = lower own).

(** [simple_results.remove(result)]: drops the first entry that is the
    object [result]. *)
Fixpoint list_remove (oid : nat) (l : list WikiSimpleResult)
  : list WikiSimpleResult :=
  match l with
  | [] => []
  | r :: l' => if bool_decide (sr_oid r = oid) then l' else r :: list_remove oid l'
  end.

(** The [for result in simple_results] loop of the setter.  A list
    iterator keeps an index [idx]; each round reads [simple_results[idx]]
    from the list as it is then, advances the index, and runs the body,
    which may remove from that same list.  The list never grows, so
    [length simple_results] rounds of [fuel] are enough. *)
Fixpoint remove_loop (fuel : nat) (own : string) (idx : nat)
  (l : list WikiSimpleResult) : list WikiSimpleResult :=
  match fuel with
  | O => l
  | S fuel' =>
      match l !! idx with
      | None => l
      | Some result =>
          if same_title own result
          then remove_loop fuel' own (S idx) (list_remove (sr_oid result) l)
          else remove_loop fuel' own (S idx) l
      end
  end.

(** The [simple_results] setter of [WikiResult]: the value stored in
    [__simple_results]. *)
Definition simple_results_setter (own : string)
  (simple_results : option (list WikiSimpleResult))
  : option (list WikiSimpleResult) :=
  match simple_results with
  | Some l =>
      let l' := remove_loop (length l) own 0 l in
      match l' with
      | [] => None
      | _ => Some (take 5 l')
      end
  | None => None
  end.

End Results.

Record WikiResult := {
  res_key : string;
  res_title : string;
  res_lang : string;
  res_url : string;
  res_summary : string;
  res_simple_results : option (list WikiSimpleResult);
}.

(** [WikiResult.__init__] *)
Definition WikiResult_init (lower : string -> string)
  (key title lang summary : string)
  (simple_results : option (list WikiSimpleResult)) : WikiResult :=
  {| res_key := key;
     res_title := title;
     res_lang := lang;
     res_url := wiki_page_url lang key;
     res_summary := summary;
     res_simple_results := simple_results_setter lower title simple_results |}.

(** Truth value of [result.simple_results] in a condition. *)
Definition simple_results_truthy (r : WikiResult) : bool :=
  match res_simple_results r with
  | Some (_ :: _) => true
  | _ => false
  end.

(* ================================================================== *)
(** * The cache store *)
(* ================================================================== *)

(** Modelled from the spec: [database/tables.py] is not part of the
    sources.  A CachedPage has a key, title, language, summary, up to five
    stored related-result strings and an identity; a CachedQueryMapping is
    a (query text, language, page identity) triple. *)
Record WikiDBPages := {
  page_id : Z;
  page_key : string;
  page_title : string;
  page_lang : string;
  page_summary : string;
  simple_result1 : option string;
  simple_result2 : option string;
  simple_result3 : option string;
  simple_result4 : option string;
  simple_result5 : option string;
}.

Record WikiDBQueries := {
  query_id : Z;
  query_text : string;
  query_lang : string;
  query_page_id : Z;
}.

(** The operations [db_searcher.py] and [engine.py] use of the ORM session
    ([database/orm.py], not part of the sources) and of the schema.  A
    select reads the store; an insert may change it; each may fail. *)
Class WikiDBOrm (DB : Type) := {
  select_page_by_key : string -> string -> DB -> Outcome (option WikiDBPages);
  select_page_by_query : string -> string -> DB -> Outcome (option WikiDBPages);
  select_page_id_by_key : string -> string -> DB -> Outcome (option Z);
  select_query_id : string -> string -> Z -> DB -> Outcome (option Z);
  add_page : WikiResult -> DB -> Outcome WikiDBPages * DB;
  add_query : string -> string -> Z -> DB -> Outcome unit * DB;
  create_all : DB -> DB;
  drop_all : DB -> DB;
}.

(** [WikiDB] of [engine.py]: the engine with its two private flags. *)
Record WikiDB (DB : Type) := {
  db_store : DB;
  db_configured : bool;
  db_drop_param : bool;
}.
Arguments db_store {DB} _.
Arguments db_configured {DB} _.
Arguments db_drop_param {DB} _.

(* ================================================================== *)
(** * Program state, observable events and the computation monad *)
(* ================================================================== *)

Inductive Logger := log_wiki | log_db | log_scraper | log_fast_scraper | log_api_scraper.
Inductive Level := INFO | WARNING | ERROR | CRITICAL.

(** A log message; [Timed] stands for the f-strings that embed a
    [LogTimer] reading, [About] for those that embed an exception or a
    value. *)
Inductive Message :=
| Text (s : string)
| Timed (s : string)
| About (s : string) (detail : string).

Inductive DbOp :=
| OpSelectPageByKey (key lang : string)
| OpSelectPageByQuery (query lang : string)
| OpSelectPageIdByKey (key lang : string)
| OpSelectQueryId (query lang : string) (page : Z)
| OpAddPage (key lang : string)
| OpAddQuery (query lang : string) (page : Z)
| OpCreateAll
| OpDropAll.

(** An HTTP GET: the URL and, for the search API, the query parameters
    [q] and [limit]. *)
Record Request := {
  req_url : string;
  req_params : option (string * Z);
}.

Inductive Event :=
| ELog (lg : Logger) (lvl : Level) (m : Message)
| EHttp (r : Request)
| EDb (op : DbOp).

(** The state a search call can read or change: the parameter objects
    and the database searcher of the [WikiSearcher] ([None] when no
    database is configured). *)
Record State (DB : Type) := {
  heap : gmap loc WikiSearchParams;
  db_searcher : option (WikiDB DB);
}.
Arguments heap {DB} _.
Arguments db_searcher {DB} _.

(** One run of a computation: how it ended, the state it left and the
    events it produced, oldest first. *)
Record Run (DB A : Type) := {
  outcome : Outcome A;
  final : State DB;
  trace : list Event;
}.
Arguments outcome {DB A} _.
Arguments final {DB A} _.
Arguments trace {DB A} _.

Definition M (DB A : Type) : Type := State DB -> Run DB A.

Definition ret {DB A} (a : A) : M DB A :=
  fun σ => {| outcome := Ok a; final := σ; trace := [] |}.

Definition raise {DB A} (e : Exc) : M DB A :=
  fun σ => {| outcome := Raise e; final := σ; trace := [] |}.

(** A run that comes after the events [t]. *)
Definition extend {DB A} (t : list Event) (r : Run DB A) : Run DB A :=
  {| outcome := outcome r; final := final r; trace := t ++ trace r |}.

Definition bind {DB A B} (m : M DB A) (k : A -> M DB B) : M DB B :=
  fun σ =>
    let r := m σ in
    match outcome r with
    | Ok a => extend (trace r) (k a (final r))
    | Raise e => {| outcome := Raise e; final := final r; trace := trace r |}
    end.

(** [try: m  except <classes>: h]: an exception of [m] that [catches]
    accepts runs the handler, in the state [m] left; an exception raised
    by the handler itself is not caught again. *)
Definition try_except {DB A} (m : M DB A) (catches : Exc -> bool)
  (h : Exc -> M DB A) : M DB A :=
  fun σ =>
    let r := m σ in
    match outcome r with
    | Ok a => r
    | Raise e => if catches e then extend (trace r) (h e (final r)) else r
    end.

Declare Scope py_scope.
Delimit Scope py_scope with py.
Notation "'let!' x ':=' m 'in' k" := (bind m (fun x => k))
  (at level 10, x name, m at level 100, k at level 200) : py_scope.
Notation "'let!' ' p ':=' m 'in' k" := (bind m (fun x => match x with p => k end))
  (at level 10, p pattern, m at level 100, k at level 200) : py_scope.
Notation "'do!' m 'in' k" := (bind m (fun _ => k))
  (at level 10, m at level 100, k at level 200) : py_scope.
Local Open Scope py_scope.

Definition emit {DB} (e : Event) : M DB unit :=
  fun σ => {| outcome := Ok tt; final := σ; trace := [e] |}.

Definition log {DB} (lg : Logger) (lvl : Level) (m : Message) : M DB unit :=
  emit (ELog lg lvl m).

Definition lift {DB A} (o : Outcome A) : M DB A :=
  fun σ => {| outcome := o; final := σ; trace := [] |}.

(** [assert cond, msg] *)
Definition py_assert {DB} (cond : bool) (msg : string) : M DB unit :=
  if cond then ret tt else raise (AssertionError msg).

(** [l[i]] for [i >= 0] *)
Definition py_index {DB A} (l : list A) (i : nat) : M DB A :=
  match l !! i with
  | Some x => ret x
  | None => raise IndexError
  end.

(** [l[-1]] *)
Definition py_last {DB A} (l : list A) : M DB A :=
  match last l with
  | Some x => ret x
  | None => raise IndexError
  end.

(** Attribute reads and writes on a parameters object. *)
Definition read_params {DB} (p : loc) : M DB WikiSearchParams :=
  fun σ => {| outcome := Ok (heap σ !!! p); final := σ; trace := [] |}.

Definition write_params {DB} (p : loc) (v : WikiSearchParams) : M DB unit :=
  fun σ => {| outcome := Ok tt;
              final := {| heap := <[p := v]> (heap σ); db_searcher := db_searcher σ |};
              trace := [] |}.

(** The HTTP requests and the database operations among some events. *)
Definition requests_of (evs : list Event) : list Request :=
  omap (fun e => match e with EHttp r => Some r | _ => None end) evs.

Definition db_ops_of (evs : list Event) : list DbOp :=
  omap (fun e => match e with EDb op => Some op | _ => None end) evs.

Definition is_insert (op : DbOp) : bool :=
  match op with
  | OpAddPage _ _ | OpAddQuery _ _ _ => true
  | _ => false
  end.

(* ================================================================== *)
(** * The environment *)
(* ================================================================== *)

(** One entry of the [pages] field of a search API response. *)
Record ApiPage := {
  api_title : string;
  api_key : string;
}.

(** An HTTP response: its status, its text and, for the search API, the
    decoded [pages] of its JSON body. *)
Record Response := {
  status : Z;
  body_text : string;
  body_pages : list ApiPage;
}.

(** What the package calls and does not define: [str.lower], the
    tokenizer of the spell checker ([SpellChecker(language).split_words],
    whose construction fails for a language without a dictionary), the
    remote site behind [session.get], and the page parser with its two
    modes ([WikipediaParser.parse(page)] and [parse(page, summary_only=True)],
    an external collaborator in the spec). *)
Record Externals := {
  str_lower : string -> string;
  split_words : string -> string -> Outcome (list string);
  http_get : Request -> Response;
  parse_page : string -> Outcome (string * string * string);
  parse_summary : string -> Outcome string;
}.

(* ================================================================== *)
(** * [WikiQuery] ([types.py]) *)
(* ================================================================== *)

Record WikiQuery := {
  q_raw_query : string;
  q_lang : string;
  q_search_params : loc;
  q_is_link : option bool;
  q_query : string;
}.

(** Truth value of [is_link], which is [True], [False] or [None]. *)
Definition truthy (b : option bool) : bool :=
  match b with
  | Some true => true
  | _ => false
  end.

(** An element of [words_list]: a [str] or the [Ellipsis] object. *)
Inductive PyItem :=
| item_str (s : string)
| item_ellipsis.

(** The strings of a list whose items all are [str]. *)
Fixpoint all_str (items : list PyItem) : option (list string) :=
  match items with
  | [] => Some []
  | item_str s :: rest => cons s <$> all_str rest
  | item_ellipsis :: _ => None
  end.

Section Query.

Context {DB : Type}.
Variable E : Externals.

(** [sep.join(items)]: a [TypeError] when an item is not a [str]. *)
Definition join_items (sep : string) (items : list PyItem) : M DB string :=
  match all_str items with
  | Some parts => ret (PyStr.join sep parts)
  | None => raise TypeError
  end.

(** [WikiQuery.__link_checker]: the flag and the language after the
    call.  The function ends without a [return] when the query starts
    with the scheme but its host is not recognised. *)
Definition link_checker (raw_query lang : string) (search_params : loc)
  : M DB (option bool * string) :=
  let split := PyStr.split "//" raw_query in
  let! s0 := py_index split 0 in
  if bool_decide (s0 = "https:") then
    let! s1 := py_index split 1 in
    let! host := py_index (PyStr.split "/" s1) 0 in
    let split_query := PyStr.split "." host in
    let split_len := length split_query in
    let! label := (if bool_decide (split_len = 2%nat)
                   then py_index split_query 0
                   else py_index split_query 1) in
    if bool_decide (label = "wikipedia") then
      let! lang' := (if bool_decide (split_len = 3%nat)
                     then py_index split_query 0
                     else ret lang) in
      let! params := read_params search_params in
      do! (if bool_decide (db_search_by_url params = db_search_by_url_no)
           then write_params search_params (set_db_search db_search_no params)
           else ret tt) in
      ret (Some true, lang')
    else ret (None, lang)
  else ret (Some false, lang).

(** [WikiQuery.__clean] *)
Definition clean (raw_query lang : string) (search_params : loc)
  (is_link : option bool) : M DB string :=
  if truthy is_link then ret raw_query
  else
    let! params := read_params search_params in
    if bool_decide (query_treatment params = treatment_without)
    then ret (PyStr.replace " " "_" raw_query)
    else
      let! spell_split := lift (split_words E lang raw_query) in
      let words_list :=
        map (fun word =>
               if bool_decide (str_lower E word ∉ query_clean_list)
               then item_str word else item_ellipsis) spell_split in
      let! result := join_items "_" words_list in
      if bool_decide (result = "") then
        do! log log_wiki WARNING (Text "Failed to clean search query") in
        ret (PyStr.replace " " "_" raw_query)
      else ret result.

(** [WikiQuery.__init__] *)
Definition WikiQuery_init (query lang : string) (search_params : loc)
  : M DB WikiQuery :=
  let! '(is_link, lang') := link_checker query lang search_params in
  let! cleaned := clean query lang' search_params is_link in
  ret {| q_raw_query := query;
         q_lang := lang';
         q_search_params := search_params;
         q_is_link := is_link;
         q_query := cleaned |}.

End Query.

(* ================================================================== *)
(** * [WikiDB] ([database/engine.py]) and [WikiDBSearcher] ([db_searcher.py]) *)
(* ================================================================== *)

Section Database.

Context {DB : Type} `{!WikiDBOrm DB}.
Variable E : Externals.

Definition set_db (db : WikiDB DB) : M DB unit :=
  fun σ => {| outcome := Ok tt;
              final := {| heap := heap σ; db_searcher := Some db |};
              trace := [] |}.

(** The engine behind [self.__db_searcher]; an attribute access on
    [None] fails. *)
Definition get_db : M DB (WikiDB DB) :=
  fun σ => match db_searcher σ with
           | Some db => ret db σ
           | None => raise AttributeError σ
           end.

(** [WikiDB.drop_db] *)
Definition drop_db : M DB unit :=
  let! db := get_db in
  do! emit (EDb OpDropAll) in
  do! set_db {| db_store := drop_all (db_store db);
                db_configured := db_configured db;
                db_drop_param := db_drop_param db |} in
  log log_db INFO (Text "Database dropped success").

(** [WikiDB.create_db] *)
Definition create_db : M DB unit :=
  let! db := get_db in
  do! emit (EDb OpCreateAll) in
  do! set_db {| db_store := create_all (db_store db);
                db_configured := db_configured db;
                db_drop_param := db_drop_param db |} in
  log log_db INFO (Text "All tables created").

(** [WikiDB.setup_db] *)
Definition setup_db : M DB unit :=
  let! db := get_db in
  if db_configured db then
    log log_db WARNING (Text "Database already configured")
  else
    do! (if db_drop_param db then drop_db else ret tt) in
    do! create_db in
    let! db' := get_db in
    do! set_db {| db_store := db_store db';
                  db_configured := true;
                  db_drop_param := db_drop_param db' |} in
    log log_db INFO (Text "Database successful configured").

(** The wrapper [orm_decorator] puts around a function: set the
    database up on first use, then run the function with a session. *)
Definition orm_decorator {A} (func : M DB A) : M DB A :=
  let! db := get_db in
  do! (if db_configured db then ret tt else setup_db) in
  func.

(** A select through the session. *)
Definition orm_select {A} (op : DbOp) (f : DB -> Outcome A) : M DB A :=
  do! emit (EDb op) in
  let! db := get_db in
  lift (f (db_store db)).

(** An insert through the session. *)
Definition orm_insert {A} (op : DbOp) (f : DB -> Outcome A * DB) : M DB A :=
  do! emit (EDb op) in
  let! db := get_db in
  let '(o, store') := f (db_store db) in
  do! set_db {| db_store := store';
                db_configured := db_configured db;
                db_drop_param := db_drop_param db |} in
  lift o.

(** [res.split("|")[0]] and [res.split("|")[-1]] *)
Definition first_part (res : string) : string :=
  default "" (head (PyStr.split "|" res)).
Definition last_part (res : string) : string :=
  default "" (last (PyStr.split "|" res)).

(** Truth value of a stored related-result string ([None] and the empty
    string are falsy). *)
Definition stored_truthy (res : option string) : option string :=
  match res with
  | Some EmptyString => None
  | other => other
  end.

(** [WikiDBSearcher.__simple_results_converter] *)
Definition simple_results_converter (page : WikiDBPages) (search_mode : WPSearchModes)
  : option (list WikiSimpleResult) :=
  if bool_decide (search_mode = mode_default) then
    let raw_simple_results :=
      [ simple_result1 page; simple_result2 page; simple_result3 page;
        simple_result4 page; simple_result5 page ] in
    Some (imap (fun i res =>
                  WikiSimpleResult_init i (first_part res) (last_part res) (page_lang page))
               (omap stored_truthy raw_simple_results))
  else None.

(** [WikiDBSearcher.__search], called with a [WikiQuery]. *)
Definition db_search_inner (wiki_query : WikiQuery) : M DB (option WikiResult) :=
  do! log log_db INFO (Text "Searching in database started") in
  let lang := q_lang wiki_query in
  let! page :=
    (if truthy (q_is_link wiki_query) then
       let! key := py_last (PyStr.split "/" (q_query wiki_query)) in
       orm_select (OpSelectPageByKey key lang) (select_page_by_key key lang)
     else
       orm_select (OpSelectPageByQuery (q_query wiki_query) lang)
                  (select_page_by_query (q_query wiki_query) lang)) in
  match page with
  | None =>
      do! log log_db WARNING (Text "Page not found in database") in
      ret None
  | Some page =>
      let! search_params := read_params (q_search_params wiki_query) in
      let simple_results := simple_results_converter page (mode search_params) in
      do! log log_db INFO (Timed "Page found in database in") in
      ret (Some (WikiResult_init (str_lower E) (page_key page) (page_title page)
                   (page_lang page) (page_summary page) simple_results))
  end.

Definition is_DBAPIError (e : Exc) : bool :=
  match e with DBAPIError _ => true | _ => false end.

Definition exc_text (e : Exc) : string :=
  match e with
  | DBAPIError msg | WikiDBExc msg | AssertionError msg | ValueError msg => msg
  | _ => ""
  end.

(** [WikiDBSearcher.__save_result] *)
Definition save_result_inner (query : string) (result : WikiResult) : M DB unit :=
  if simple_results_truthy result then
    do! log log_db INFO (Text "Save result") in
    let query := str_lower E query in
    let! found_page := orm_select (OpSelectPageIdByKey (res_key result) (res_lang result))
                         (select_page_id_by_key (res_key result) (res_lang result)) in
    let! page_id :=
      match found_page with
      | None =>
          try_except
            (let! row := orm_insert (OpAddPage (res_key result) (res_lang result))
                           (add_page result) in
             do! log log_db INFO (Text "Page saved in database") in
             ret (page_id row))
            is_DBAPIError
            (fun er =>
               do! log log_db CRITICAL
                     (About "Failed to save page to database:" (exc_text er)) in
               raise er)
      | Some page_id =>
          do! log log_db WARNING (Text "This page already exist") in
          ret page_id
      end in
    let! query_id := orm_select (OpSelectQueryId query (res_lang result) page_id)
                       (select_query_id query (res_lang result) page_id) in
    do! match query_id with
        | None =>
            try_except
              (do! orm_insert (OpAddQuery query (res_lang result) page_id)
                     (add_query query (res_lang result) page_id) in
               log log_db INFO (Text "Search query saved in database"))
              is_DBAPIError
              (fun er =>
                 do! log log_db CRITICAL
                       (About "Failed to save search query to database:" (exc_text er)) in
                 raise er)
        | Some _ =>
            log log_db WARNING (Text "Search query already exist")
        end in
    log log_db INFO (Timed "Result saved in")
  else ret tt.

(** [WikiDBSearcher.search] and [WikiDBSearcher.save_result]: the two
    functions under the decorator. *)
Definition db_search_fn (wiki_query : WikiQuery) : M DB (option WikiResult) :=
  orm_decorator (db_search_inner wiki_query).

Definition save_result (query : string) (result : WikiResult) : M DB unit :=
  orm_decorator (save_result_inner query result).

End Database.

(* ================================================================== *)
(** * The web searchers ([searchers/web_searcher], [utils/async_def.py]) *)
(* ================================================================== *)

(** [APISearchResult] of [tuples.py]: the titles and the keys. *)
Record APISearchResult := {
  titles : list string;
  keys : list string;
}.

(** The [for i in range(0, pages_len)] loop of [__api_search_page]:
    append the title and the key of [pages[i]], and stop after the round
    in which [i + 1 == number_of_results]. *)
Fixpoint collect_pages (number_of_results : Z) (i : Z) (pages : list ApiPage)
  : list string * list string :=
  match pages with
  | [] => ([], [])
  | page :: rest =>
      if bool_decide (i + 1 = number_of_results)
      then ([api_title page], [api_key page])
      else let '(title_list, key_list) := collect_pages number_of_results (i + 1) rest in
           (api_title page :: title_list, api_key page :: key_list)
  end.

Section Web.

Context {DB : Type}.
Variable E : Externals.

(** [session.get(url, **kwargs)] *)
Definition session_get (r : Request) : M DB Response :=
  do! emit (EHttp r) in
  ret (http_get E r).

(** The status check of [get_response]. *)
Definition check_status (lg : Logger) (response : Response) : M DB Response :=
  if bool_decide (status response ≠ 200) then
    do! log lg ERROR (Text "Failed get response") in
    raise (WikiScraperExc WikiResNotReceived)
  else ret response.

(** [get_response] *)
Definition get_response (lg : Logger) (r : Request) : M DB Response :=
  let! response := session_get r in
  check_status lg response.

(** [WikiFastWebSearcher.fast_search] *)
Definition fast_search (wiki_query : WikiQuery) : M DB WikiResult :=
  do! log log_fast_scraper INFO (Text "Fast scraper started") in
  let query := q_query wiki_query in
  let lang := q_lang wiki_query in
  let page_url := if negb (truthy (q_is_link wiki_query))
                  then wiki_page_url lang query else q_query wiki_query in
  let! response := get_response log_fast_scraper
                     {| req_url := page_url; req_params := None |} in
  let page := body_text response in
  do! log log_fast_scraper INFO (Timed "Page received in") in
  let! '(key, title, summary) := lift (parse_page E page) in
  ret (WikiResult_init (str_lower E) key title lang summary None).

(** The limit [__api_search_page] sends: [number_of_results] after
    [number_of_results += number_of_results * 5]. *)
Definition request_limit (number_of_results : Z) : Z :=
  number_of_results + number_of_results * 5.

(** The two facet requests of [__api_search_page]. *)
Definition facet_request (wiki_query : WikiQuery) (endpoint : string) (limit : Z)
  : Request :=
  {| req_url := wiki_search_url (q_lang wiki_query) endpoint;
     req_params := Some (q_query wiki_query, limit) |}.

(** The reconciliation of the two facets by priority. *)
Definition choose_pages (prio : WPSearchPriority)
  (title_pages content_pages : list ApiPage) : M DB (list ApiPage) :=
  if bool_decide (prio = priority_content) then
    match content_pages with
    | _ :: _ => ret content_pages
    | [] =>
        do! log log_api_scraper WARNING (Text "Search priority changed to title") in
        ret title_pages
    end
  else
    match title_pages with
    | _ :: _ => ret title_pages
    | [] =>
        do! log log_api_scraper WARNING (Text "Search priority changed to content") in
        ret content_pages
    end.

(** [WikiApiWebSearcher.__api_search_page].  The two requests are tasks
    gathered together: both are sent before either response is looked
    at. *)
Definition api_search_page (wiki_query : WikiQuery) : M DB APISearchResult :=
  let! search_params := read_params (q_search_params wiki_query) in
  let number_of_results := request_limit (number_of_results search_params) in
  let! sent_title := session_get (facet_request wiki_query "title" number_of_results) in
  let! sent_content := session_get (facet_request wiki_query "page" number_of_results) in
  let! results_by_title := check_status log_api_scraper sent_title in
  let! results_by_content := check_status log_api_scraper sent_content in
  let title_pages := body_pages results_by_title in
  let content_pages := body_pages results_by_content in
  let! pages := choose_pages (priority search_params) title_pages content_pages in
  match pages with
  | [] =>
      do! log log_api_scraper ERROR (Text "Not received any results") in
      raise (WikiScraperExc WikiNoneSearchResults)
  | _ :: _ =>
      let '(title_list, key_list) := collect_pages number_of_results 0 pages in
      do! log log_api_scraper INFO (Timed "Search results received in") in
      ret {| titles := title_list; keys := key_list |}
  end.

(** [WikiApiWebSearcher.__api_get_page] *)
Definition api_get_page (key lang : string) : M DB string :=
  let! response := get_response log_api_scraper
                     {| req_url := wiki_page_url lang key; req_params := None |} in
  do! log log_api_scraper INFO (Timed "Page received in") in
  ret (body_text response).

(** [WikiApiWebSearcher.__get_links]: one fresh [WikiSimpleResult] per
    title, with the key at the same index (the two lists are filled
    together and have one length). *)
Definition get_links (search_result : APISearchResult) (lang : string)
  : list WikiSimpleResult :=
  imap (fun i '(title, key) => WikiSimpleResult_init i title key lang)
       (zip (titles search_result) (keys search_result)).

(** [WikiApiWebSearcher.api_search] *)
Definition api_search (wiki_query : WikiQuery) : M DB WikiResult :=
  do! log log_api_scraper INFO (Text "API scraper started") in
  let lang := q_lang wiki_query in
  let! search_results := api_search_page wiki_query in
  let! key := py_index (keys search_results) 0 in
  let! title := py_index (titles search_results) 0 in
  let! page := api_get_page key lang in
  let simple_results := get_links search_results lang in
  let! summary := lift (parse_summary E page) in
  ret (WikiResult_init (str_lower E) key title lang summary (Some simple_results)).

Definition is_WikiScraperExc (e : Exc) : bool :=
  match e with WikiScraperExc _ => true | _ => false end.

Definition is_AssertionError (e : Exc) : bool :=
  match e with AssertionError _ => true | _ => false end.

(** [WikiWebSearcher.search], called with a [WikiQuery]. *)
Definition web_search (wiki_query : WikiQuery) : M DB (option WikiResult) :=
  do! log log_scraper INFO (Text "Scraping started") in
  let! result :=
    try_except
      (let! search_params := read_params (q_search_params wiki_query) in
       do! py_assert (bool_decide (mode search_params = mode_fast)
                      || truthy (q_is_link wiki_query)) "Use API scraper" in
       do! log log_scraper INFO (Text "Use Fast scraper") in
       let! result := fast_search wiki_query in
       ret (Some result))
      (fun e => is_WikiScraperExc e || is_AssertionError e)
      (fun error =>
         do! (match error with
              | AssertionError msg => log log_scraper INFO (Text msg)
              | _ =>
                  do! log log_fast_scraper WARNING (Text "Fast scraper not found anything") in
                  log log_scraper WARNING (Text "Scraper changed on API")
              end) in
         try_except
           (let! result := api_search wiki_query in
            ret (Some result))
           is_WikiScraperExc
           (fun _ =>
              do! log log_api_scraper WARNING (Text "API scraper not found anything") in
              ret None)) in
  do! (match result with
       | None => log log_scraper WARNING (Text "Scrapers not found anything")
       | Some _ => log log_scraper INFO (Timed "Scraping finished in")
       end) in
  ret result.

End Web.

(* ================================================================== *)
(** * [WikiSearcher.search] ([main.py]) *)
(* ================================================================== *)

Section Search.

Context {DB : Type} `{!WikiDBOrm DB}.
Variable E : Externals.

Definition is_WikiDBExc (e : Exc) : bool :=
  match e with WikiDBExc _ => true | _ => false end.

Definition has_db_searcher : M DB bool :=
  fun σ => ret (bool_decide (is_Some (db_searcher σ))) σ.

(** The [try] block of [search]. *)
Definition search_in_database (wiki_query : WikiQuery) (search_params : loc)
  : M DB (option WikiResult) :=
  let! has_db := has_db_searcher in
  let! params := read_params search_params in
  do! py_assert (has_db && bool_decide (db_search params = db_search_yes))
        "Don`t search in database" in
  let! result := db_search_fn E wiki_query in
  do! py_assert (bool_decide (is_Some result)) "" in
  ret result.

(** The [except (WikiDBExc, AssertionError)] block of [search].  The
    boolean tells whether the block left the function through its own
    [return result]. *)
Definition search_on_web (wiki_query : WikiQuery) (search_params : loc) (error : Exc)
  : M DB (bool * option WikiResult) :=
  do! (match error with
       | AssertionError msg =>
           if bool_decide (msg ≠ "") then log log_wiki WARNING (Text msg) else ret tt
       | _ => ret tt
       end) in
  let! result := web_search E wiki_query in
  match result with
  | None =>
      do! log log_wiki WARNING (Text "Searchers not found anything") in
      ret (true, None)
  | Some found =>
      let! has_db := has_db_searcher in
      let! params := read_params search_params in
      do! (if negb has_db || truthy (q_is_link wiki_query)
              || bool_decide (query_treatment params = treatment_without)
           then log log_wiki WARNING (Text "Don`t save result in database")
           else save_result E (q_query wiki_query) found) in
      ret (false, Some found)
  end.

(** The default of the argument [search_params]: the one
    [WikiSearchParams()] object made when [search] is defined, shared
    by every call that leaves the argument out. *)
Definition default_search_params : loc := 0%nat.

(** [WikiSearcher.search] *)
Definition search (query lang : string) (search_params : loc)
  : M DB (option WikiResult) :=
  do! log log_wiki INFO (Text "Searching started") in
  let! wiki_query := WikiQuery_init E query lang search_params in
  do! log log_wiki INFO (About "Search query accepted" (q_query wiki_query)) in
  let! '(returned, result) :=
    try_except
      (let! result := search_in_database wiki_query search_params in
       ret (false, result))
      (fun e => is_WikiDBExc e || is_AssertionError e)
      (search_on_web wiki_query search_params) in
  if returned : bool then ret result
  else
    do! log log_wiki INFO (Timed "Result got in") in
    ret result.

End Search.

(* ================================================================== *)
(** * A relational store *)
(* ================================================================== *)

(** Modelled from the spec: [database/orm.py] is not part of the sources.
    The store holds page rows and query-mapping rows.  [findPageByKey]
    looks a page up by (key, language); [findPageByQuery] looks a mapping
    up by (query text, language) and follows it to its page;
    [insertPage] stores the full row, the related results as
    "title|reference" strings, under a new identity; [insertQueryMapping]
    stores the triple.  The mapping table holds lowercased query texts
    (the write-back stores them so), and [findPageByQuery] lowercases
    the text it is given before it compares, with the lower-casing of
    ASCII letters ([PyStr.lower_ascii]); every other text is compared
    as it is given. *)
Module ListStore.

Record Store := {
  pages : list WikiDBPages;
  queries : list WikiDBQueries;
}.

Definition empty : Store := {| pages := []; queries := [] |}.

Definition page_matches (key lang : string) (p : WikiDBPages) : bool :=
  bool_decide (page_key p = key) && bool_decide (page_lang p = lang).

Definition query_matches (query lang : string) (q : WikiDBQueries) : bool :=
  bool_decide (query_text q = query) && bool_decide (query_lang q = lang).

Definition mapping_matches (query lang : string) (page : Z) (q : WikiDBQueries) : bool :=
  query_matches query lang q && bool_decide (query_page_id q = page).

Definition find_page_by_key (key lang : string) (st : Store) : option WikiDBPages :=
  List.find (page_matches key lang) (pages st).

Definition find_page_by_id (id : Z) (st : Store) : option WikiDBPages :=
  List.find (fun p => bool_decide (page_id p = id)) (pages st).

Definition find_page_by_query (query lang : string) (st : Store) : option WikiDBPages :=
  match List.find (query_matches (PyStr.lower_ascii query) lang) (queries st) with
  | Some q => find_page_by_id (query_page_id q) st
  | None => None
  end.

Definition find_query_id (query lang : string) (page : Z) (st : Store) : option Z :=
  query_id <$> List.find (mapping_matches query lang page) (queries st).

(** A new identity: one more than the largest in use. *)
Definition next_id (ids : list Z) : Z := Z.succ (foldr Z.max 0 ids).

Definition stored_string (r : WikiSimpleResult) : string :=
  sr_title r +:+ "|" +:+ sr_raw_link r.

Definition page_row (id : Z) (result : WikiResult) : WikiDBPages :=
  let related := default [] (res_simple_results result) in
  {| page_id := id;
     page_key := res_key result;
     page_title := res_title result;
     page_lang := res_lang result;
     page_summary := res_summary result;
     simple_result1 := stored_string <$> related !! 0%nat;
     simple_result2 := stored_string <$> related !! 1%nat;
     simple_result3 := stored_string <$> related !! 2%nat;
     simple_result4 := stored_string <$> related !! 3%nat;
     simple_result5 := stored_string <$> related !! 4%nat |}.

Definition insert_page (result : WikiResult) (st : Store) : WikiDBPages * Store :=
  let row := page_row (next_id (page_id <$> pages st)) result in
  (row, {| pages := pages st ++ [row]; queries := queries st |}).

Definition insert_query (query lang : string) (page : Z) (st : Store) : Store :=
  let row := {| query_id := next_id (query_id <$> queries st);
                query_text := query;
                query_lang := lang;
                query_page_id := page |} in
  {| pages := pages st; queries := queries st ++ [row] |}.

(** Rows stored for a (key, language) and for a (query, language, page). *)
Definition count_pages (key lang : string) (st : Store) : nat :=
  length (List.filter (page_matches key lang) (pages st)).

Definition count_mappings (query lang : string) (page : Z) (st : Store) : nat :=
  length (List.filter (mapping_matches query lang page) (queries st)).

#[global] Instance orm : WikiDBOrm Store := {|
  select_page_by_key key lang st := Ok (find_page_by_key key lang st);
  select_page_by_query query lang st := Ok (find_page_by_query query lang st);
  select_page_id_by_key key lang st := Ok (page_id <$> find_page_by_key key lang st);
  select_query_id query lang page st := Ok (find_query_id query lang page st);
  add_page result st := let '(row, st') := insert_page result st in (Ok row, st');
  add_query query lang page st := (Ok tt, insert_query query lang page st);
  create_all st := st;
  drop_all _ := empty;
|}.

End ListStore.

(** The same store behind a connection that refuses every write: the
    selects answer, the inserts fail with a [DBAPIError]. *)
Module ReadOnlyStore.

Record Store := { contents : ListStore.Store }.

Definition refusal : string := "attempt to write a readonly database".

#[global] Instance orm : WikiDBOrm Store := {|
  select_page_by_key key lang st := Ok (ListStore.find_page_by_key key lang (contents st));
  select_page_by_query query lang st :=
    Ok (ListStore.find_page_by_query query lang (contents st));
  select_page_id_by_key key lang st :=
    Ok (page_id <$> ListStore.find_page_by_key key lang (contents st));
  select_query_id query lang page st :=
    Ok (ListStore.find_query_id query lang page (contents st));
  add_page _ st := (Raise (DBAPIError refusal), st);
  add_query _ _ _ st := (Raise (DBAPIError refusal), st);
  create_all st := st;
  drop_all st := st;
|}.

End ReadOnlyStore.

(* ================================================================== *)
(** * A small concrete environment, for evaluating the code *)
(* ================================================================== *)

Module Sample.

Definition entropy_pages : list ApiPage :=
  [ {| api_title := "Entropy"; api_key := "Entropy" |};
    {| api_title := "Entropy (information theory)";
       api_key := "Entropy_(information_theory)" |};
    {| api_title := "Enthalpy"; api_key := "Enthalpy" |} ].

Definition entropy_text : string :=
  "Entropy is a scientific concept most commonly associated with disorder.".

(** A site that knows the article [Entropy] under its exact key only,
    and answers every API search with the three pages above. *)
Definition site (r : Request) : Response :=
  match req_params r with
  | Some _ => {| status := 200; body_text := ""; body_pages := entropy_pages |}
  | None =>
      if bool_decide (req_url r = "https://en.wikipedia.org/wiki/Entropy")
      then {| status := 200; body_text := entropy_text; body_pages := [] |}
      else {| status := 404; body_text := ""; body_pages := [] |}
  end.

Definition env : Externals := {|
  str_lower := PyStr.lower_ascii;
  split_words _ text := Ok (PyStr.words text);
  http_get := site;
  parse_page page := Ok ("Entropy", "Entropy", page);
  parse_summary page := Ok page;
|}.

Definition params : WikiSearchParams := {|
  mode := mode_default;
  priority := priority_title;
  number_of_results := 1;
  query_treatment := treatment_with;
  db_search := db_search_yes;
  db_search_by_url := db_search_by_url_no;
|}.


(** A state with one parameters object, at location 0. *)
Definition state {DB} (db : option (WikiDB DB)) : State DB :=
  {| heap := {[ 0%nat := params ]}; db_searcher := db |}.


(** The query a caller's "Entropy" and "entropy" are turned into. *)
Definition query_of (text : string) : WikiQuery :=
  {| q_raw_query := text; q_lang := "en"; q_search_params := 0%nat;
     q_is_link := Some false; q_query := text |}.

(** A result of the web path, with one related result. *)
Definition entropy_result : WikiResult :=
  WikiResult_init PyStr.lower_ascii "Entropy" "Entropy" "en" entropy_text
    (Some [WikiSimpleResult_init 0 "Enthalpy" "Enthalpy" "en"]).

Definition fresh_db : WikiDB ListStore.Store :=
  {| db_store := ListStore.empty; db_configured := false; db_drop_param := false |}.

Definition readonly_db : WikiDB ReadOnlyStore.Store :=
  {| db_store := {| ReadOnlyStore.contents := ListStore.empty |};
     db_configured := false; db_drop_param := false |}.

End Sample.

(* ================================================================== *)
(** * More of the package *)
(* ================================================================== *)

Section SearcherSetup.

Context {DB : Type} `{!WikiDBOrm DB}.


End SearcherSetup.

(* ================================================================== *)
(** * Vocabulary of the statements *)
(* ================================================================== *)

(** The state [__link_checker] leaves for a recognised link: the
    parameters object has its [db_search] switched off when its
    [db_search_by_url] is [no]. *)
Definition after_link {DB} (σ : State DB) (sp : loc) : State DB :=
  if bool_decide (db_search_by_url (heap σ !!! sp) = db_search_by_url_no)
  then {| heap := <[sp := set_db_search db_search_no (heap σ !!! sp)]> (heap σ);
          db_searcher := db_searcher σ |}
  else σ.

(** A host given by its dot-separated labels, followed by nothing or by
    a path: no label contains "." or "/", and the rest, if any, starts
    with "/". *)
Definition link_host_ok (labels : list string) (tail : string) : Prop :=
  Forall (fun l => PyStr.has_char "." l = false ∧ PyStr.has_char "/" l = false) labels
  ∧ (tail = "" ∨ ∃ t, tail = String "/" t).

(** The facet [__api_search_page] goes on with: the one the priority
    names, or the other one when that one is empty. *)
Definition chosen_pages (prio : WPSearchPriority)
  (title_pages content_pages : list ApiPage) : list ApiPage :=
  if bool_decide (prio = priority_content) then
    match content_pages with [] => title_pages | _ => content_pages end
  else
    match title_pages with [] => content_pages | _ => title_pages end.

(** How many candidates the loop of [__api_search_page] keeps when it
    stops at [limit]. *)
Definition kept (limit : Z) (pages : list ApiPage) : nat :=
  if bool_decide (0 < limit) then Z.to_nat limit else length pages.

(** A computation that leaves every parameters object as it found it. *)
Definition keeps_heap {DB A} (m : M DB A) : Prop :=
  ∀ σ, heap (final (m σ)) = heap σ.

(** A computation all of whose events satisfy [P]. *)
Definition emits {DB A} (P : Event -> bool) (m : M DB A) : Prop :=
  ∀ σ, Forall (fun ev => P ev = true) (trace (m σ)).


(** The events of the API searcher: its requests and its own log. *)
Definition api_event (ev : Event) : bool :=
  match ev with
  | EHttp _ | ELog log_api_scraper _ _ => true
  | _ => false
  end.

(** Every event but a look-up of a page in the database (by key or by
    query), which only the database search performs. *)
Definition no_lookup (ev : Event) : bool :=
  match ev with
  | EDb (OpSelectPageByKey _ _) | EDb (OpSelectPageByQuery _ _) => false
  | _ => true
  end.


(** A computation under which a property of the parameter objects, once
    true, stays true. *)
Definition preserves {DB A} (I : gmap loc WikiSearchParams -> Prop) (m : M DB A) : Prop :=
  ∀ σ, I (heap σ) -> I (heap (final (m σ))).

(** The state with another database engine. *)
Definition with_db {DB} (σ : State DB) (d : WikiDB DB) : State DB :=
  {| heap := heap σ; db_searcher := Some d |}.

(** The engine after the set-up the decorator runs on first use, and the
    events of that set-up. *)
Definition ready {DB} `{!WikiDBOrm DB} (d : WikiDB DB) : WikiDB DB :=
  if db_configured d then d
  else {| db_store := create_all (if db_drop_param d then drop_all (db_store d)
                                  else db_store d);
          db_configured := true;
          db_drop_param := db_drop_param d |}.

Definition setup_events {DB} (d : WikiDB DB) : list Event :=
  if db_configured d then []
  else (if db_drop_param d
        then [EDb OpDropAll; ELog log_db INFO (Text "Database dropped success")]
        else [])
       ++ [EDb OpCreateAll; ELog log_db INFO (Text "All tables created");
           ELog log_db INFO (Text "Database successful configured")].

(** The ways an insert of the write-back fails with a [DBAPIError]: the
    page insert, or the query insert after the page was found or was
    inserted. *)
Definition insert_fails {DB} `{!WikiDBOrm DB}
  (query : string) (result : WikiResult) (store : DB) (msg about : string) : Prop :=
  let key := res_key result in
  let lang := res_lang result in
  (select_page_id_by_key key lang store = Ok None
   ∧ (∃ store', add_page result store = (Raise (DBAPIError msg), store'))
   ∧ about = "Failed to save page to database:")
  ∨ (∃ page,
       select_page_id_by_key key lang store = Ok (Some page)
       ∧ select_query_id query lang page store = Ok None
       ∧ (∃ store', add_query query lang page store = (Raise (DBAPIError msg), store'))
       ∧ about = "Failed to save search query to database:")
  ∨ (∃ row store1,
       select_page_id_by_key key lang store = Ok None
       ∧ add_page result store = (Ok row, store1)
       ∧ select_query_id query lang (page_id row) store1 = Ok None
       ∧ (∃ store', add_query query lang (page_id row) store1
                    = (Raise (DBAPIError msg), store'))
       ∧ about = "Failed to save search query to database:").

(** A store in which no (key, language) has two page rows and no
    (query, language, page) has two mapping rows. *)
Definition unique_rows (st : ListStore.Store) : Prop :=
  (∀ key lang, (ListStore.count_pages key lang st <= 1)%nat)
  ∧ (∀ query lang page, (ListStore.count_mappings query lang page st <= 1)%nat).

(** The cache search is switched off in the parameters object at [sp]. *)
Definition cache_off (sp : loc) (h : gmap loc WikiSearchParams) : Prop :=
  db_search (h !!! sp) = db_search_no.

(** The warning [search] logs when it leaves the database search out. *)
Definition cache_skipped : Event :=
  ELog log_wiki WARNING (Text "Don`t search in database").

(** What [search] does once the query is constructed. *)
Definition after_query {DB} `{!WikiDBOrm DB} (E : Externals)
  (wq : WikiQuery) (sp : loc) : M DB (option WikiResult) :=
  bind (log log_wiki INFO (About "Search query accepted" (q_query wq)))
    (fun _ =>
       bind (try_except
               (bind (search_in_database E wq sp) (fun result => ret (false, result)))
               (fun e => is_WikiDBExc e || is_AssertionError e)
               (search_on_web E wq sp))
         (fun '(returned, result) =>
            if returned : bool then ret result
            else bind (log log_wiki INFO (Timed "Result got in")) (fun _ => ret result))).

(** The page identity the write-back works with, and the store after its
    page step. *)
Definition page_step (result : WikiResult) (st : ListStore.Store) : Z * ListStore.Store :=
  match ListStore.find_page_by_key (res_key result) (res_lang result) st with
  | Some p => (page_id p, st)
  | None => let '(row, st') := ListStore.insert_page result st in (page_id row, st')
  end.

(** The store a write-back leaves. *)
Definition saved (query : string) (result : WikiResult) (st : ListStore.Store)
  : ListStore.Store :=
  let '(page, st1) := page_step result st in
  match ListStore.find_query_id query (res_lang result) page st1 with
  | Some _ => st1
  | None => ListStore.insert_query query (res_lang result) page st1
  end.

(** The events of a write-back. *)
Definition save_events (query : string) (result : WikiResult) (st : ListStore.Store)
  : list Event :=
  let key := res_key result in
  let lang := res_lang result in
  let '(page, st1) := page_step result st in
  [ELog log_db INFO (Text "Save result"); EDb (OpSelectPageIdByKey key lang)]
  ++ match ListStore.find_page_by_key key lang st with
     | Some _ => [ELog log_db WARNING (Text "This page already exist")]
     | None => [EDb (OpAddPage key lang); ELog log_db INFO (Text "Page saved in database")]
     end
  ++ [EDb (OpSelectQueryId query lang page)]
  ++ match ListStore.find_query_id query lang page st1 with
     | Some _ => [ELog log_db WARNING (Text "Search query already exist")]
     | None => [EDb (OpAddQuery query lang page);
                ELog log_db INFO (Text "Search query saved in database")]
     end
  ++ [ELog log_db INFO (Timed "Result saved in")].

Definition set_store {DB} (d : WikiDB DB) (st : DB) : WikiDB DB :=
  {| db_store := st; db_configured := db_configured d; db_drop_param := db_drop_param d |}.


(** A related result that carries the result's own title, and a list in
    which no two such entries are neighbours. *)
Fixpoint no_neighbours (lower : string -> string) (own : string)
  (l : list WikiSimpleResult) : bool :=
  match l with
  | x :: t =>
      match t with
      | y :: _ => negb (same_title lower own x && same_title lower own y)
      | [] => true
      end && no_neighbours lower own t
  | [] => true
  end.

(** The entries with another title than the result's own. *)
Definition others (lower : string -> string) (own : string)
  (l : list WikiSimpleResult) : list WikiSimpleResult :=
  List.filter (fun r => negb (same_title lower own r)) l.

(** A text with each space turned into an underscore. *)
Fixpoint underscore_spaces (s : string) : string :=
  match s with
  | EmptyString => EmptyString
  | String c s' =>
      String (if Ascii.eqb c " " then "_"%char else c) (underscore_spaces s')
  end.

(** A computation that leaves the whole state as it found it. *)
Definition keeps_state {DB A} (m : M DB A) : Prop :=
  ∀ σ, final (m σ) = σ.

(** Every event but an HTTP request; every event but an insert. *)
Definition no_http (ev : Event) : bool :=
  match ev with
  | EHttp _ => false
  | _ => true
  end.

Definition no_insert (ev : Event) : bool :=
  match ev with
  | EDb op => negb (is_insert op)
  | _ => true
  end.

(** The five related-result fields of a page row, in order, and the
    string a (title, reference) pair is stored as. *)
Definition page_slots (page : WikiDBPages) : list (option string) :=
  [ simple_result1 page; simple_result2 page; simple_result3 page;
    simple_result4 page; simple_result5 page ].

Definition stored_pair (entry : string * string) : string :=
  fst entry +:+ "|" +:+ snd entry.

(** A title and a reference that can be stored and read back: no bar in
    either, no slash in the reference. *)
Definition storable (entry : string * string) : Prop :=
  PyStr.has_char "|" (fst entry) = false
  ∧ PyStr.has_char "|" (snd entry) = false
  ∧ PyStr.has_char "/" (snd entry) = false.

(** The warning the handler of [search] starts with: the message of a
    named assertion. *)
Definition handler_warning (e : Exc) : list Event :=
  match e with
  | AssertionError msg =>
      if bool_decide (msg ≠ "") then [ELog log_wiki WARNING (Text msg)] else []
  | _ => []
  end.

(** The events of [search] before its handler runs. *)
Definition events_before_handler {DB} `{!WikiDBOrm DB} (E : Externals)
  (query lang : string) (sp : loc) (wq : WikiQuery) (σ : State DB) : list Event :=
  [ELog log_wiki INFO (Text "Searching started")]
  ++ trace (WikiQuery_init E query lang sp σ)
  ++ [ELog log_wiki INFO (About "Search query accepted" (q_query wq))]
  ++ trace (search_in_database E wq sp (final (WikiQuery_init E query lang sp σ))).


(** The one request of [fast_search]: the query itself when it is a
    link, the article address of the key otherwise. *)
Definition fast_request (wq : WikiQuery) : Request :=
  {| req_url := if truthy (q_is_link wq) then q_query wq
                else wiki_page_url (q_lang wq) (q_query wq);
     req_params := None |}.

(** The request for the article of a key. *)
Definition page_request (lang key : string) : Request :=
  {| req_url := wiki_page_url lang key; req_params := None |}.

(** The candidates [__api_search_page] keeps of the chosen pages. *)
Definition candidates (limit : Z) (pages : list ApiPage) : APISearchResult :=
  {| titles := api_title <$> take (kept limit pages) pages;
     keys := api_key <$> take (kept limit pages) pages |}.

(** More concrete inputs. *)
Module SampleMore.

(** A site that answers every request with 404. *)
Definition closed_env : Externals := {|
  str_lower := PyStr.lower_ascii;
  split_words _ text := Ok (PyStr.words text);
  http_get _ := {| status := 404; body_text := ""; body_pages := [] |};
  parse_page page := Ok ("", "", page);
  parse_summary page := Ok page;
|}.

(** A database that is set up and holds the article [Entropy], saved
    under the query text "entropy". *)
Definition filled_db : WikiDB ListStore.Store :=
  {| db_store := saved "entropy" Sample.entropy_result ListStore.empty;
     db_configured := true;
     db_drop_param := false |}.

(** The query a caller's link to the article is turned into. *)
Definition link_query : WikiQuery :=
  {| q_raw_query := "https://en.wikipedia.org/wiki/Entropy"; q_lang := "en";
     q_search_params := 0%nat; q_is_link := Some true;
     q_query := "https://en.wikipedia.org/wiki/Entropy" |}.

End SampleMore.

(* ================================================================== *)
(** * Properties *)
(* ================================================================== *)

(** ** Running computations *)

Section MonadFacts.

Context {DB : Type}.
Implicit Types σ : State DB.

Lemma extend_nil {A} (r : Run DB A) : extend [] r = r.
Proof. now destruct r. Qed.

Lemma extend_extend {A} (t t' : list Event) (r : Run DB A) :
  extend t (extend t' r) = extend (t ++ t') r.
Proof. unfold extend. cbn. now rewrite app_assoc. Qed.

Lemma outcome_extend {A} (t : list Event) (r : Run DB A) :
  outcome (extend t r) = outcome r.
Proof. reflexivity. Qed.

Lemma final_extend {A} (t : list Event) (r : Run DB A) :
  final (extend t r) = final r.
Proof. reflexivity. Qed.

Lemma trace_extend {A} (t : list Event) (r : Run DB A) :
  trace (extend t r) = t ++ trace r.
Proof. reflexivity. Qed.

Lemma bind_ret {A B} (a : A) (k : A -> M DB B) σ :
  bind (ret a) k σ = k a σ.
Proof. unfold bind. cbn. apply extend_nil. Qed.

Lemma bind_raise {A B} (e : Exc) (k : A -> M DB B) σ :
  bind (raise e) k σ = raise e σ.
Proof. reflexivity. Qed.

Lemma bind_lift_ok {A B} (a : A) (k : A -> M DB B) σ :
  bind (lift (Ok a)) k σ = k a σ.
Proof. unfold bind. cbn. apply extend_nil. Qed.

Lemma bind_lift_raise {A B} (e : Exc) (k : A -> M DB B) σ :
  bind (lift (Raise e)) k σ = raise e σ.
Proof. reflexivity. Qed.

Lemma bind_emit {B} (ev : Event) (k : unit -> M DB B) σ :
  bind (emit ev) k σ = extend [ev] (k tt σ).
Proof. reflexivity. Qed.

Lemma bind_log {B} lg lvl msg (k : unit -> M DB B) σ :
  bind (log lg lvl msg) k σ = extend [ELog lg lvl msg] (k tt σ).
Proof. reflexivity. Qed.

Lemma bind_read_params {B} (p : loc) (k : WikiSearchParams -> M DB B) σ :
  bind (read_params p) k σ = k (heap σ !!! p) σ.
Proof. unfold bind. cbn. apply extend_nil. Qed.

Lemma bind_write_params {B} (p : loc) v (k : unit -> M DB B) σ :
  bind (write_params p v) k σ
  = k tt {| heap := <[p := v]> (heap σ); db_searcher := db_searcher σ |}.
Proof. unfold bind. cbn. apply extend_nil. Qed.

Lemma bind_bind {A B C} (m : M DB A) (k : A -> M DB B) (k' : B -> M DB C) σ :
  bind (bind m k) k' σ = bind m (fun a => bind (k a) k') σ.
Proof.
  unfold bind. destruct (m σ) as [[a|e] σ1 t1]; cbn; [|reflexivity].
  destruct (k a σ1) as [[b|e] σ2 t2]; cbn; [|reflexivity].
  now rewrite extend_extend.
Qed.

(** The three parts of the run of a sequence and of a [try]. *)
Lemma outcome_bind {A B} (m : M DB A) (k : A -> M DB B) σ :
  outcome (bind m k σ)
  = match outcome (m σ) with
    | Ok a => outcome (k a (final (m σ)))
    | Raise e => Raise e
    end.
Proof. unfold bind. now destruct (outcome (m σ)). Qed.

Lemma final_bind {A B} (m : M DB A) (k : A -> M DB B) σ :
  final (bind m k σ)
  = match outcome (m σ) with
    | Ok a => final (k a (final (m σ)))
    | Raise e => final (m σ)
    end.
Proof. unfold bind. now destruct (outcome (m σ)). Qed.

Lemma trace_bind {A B} (m : M DB A) (k : A -> M DB B) σ :
  trace (bind m k σ)
  = match outcome (m σ) with
    | Ok a => trace (m σ) ++ trace (k a (final (m σ)))
    | Raise e => trace (m σ)
    end.
Proof. unfold bind. now destruct (outcome (m σ)). Qed.

Lemma outcome_try_except {A} (m : M DB A) catches h σ :
  outcome (try_except m catches h σ)
  = match outcome (m σ) with
    | Ok a => Ok a
    | Raise e => if catches e then outcome (h e (final (m σ))) else Raise e
    end.
Proof.
  unfold try_except. destruct (outcome (m σ)) as [a|e] eqn:Ho; [assumption|].
  now destruct (catches e).
Qed.

Lemma final_try_except {A} (m : M DB A) catches h σ :
  final (try_except m catches h σ)
  = match outcome (m σ) with
    | Ok a => final (m σ)
    | Raise e => if catches e then final (h e (final (m σ))) else final (m σ)
    end.
Proof.
  unfold try_except. destruct (outcome (m σ)) as [a|e] eqn:Ho; [reflexivity|].
  now destruct (catches e).
Qed.

Lemma trace_try_except {A} (m : M DB A) catches h σ :
  trace (try_except m catches h σ)
  = match outcome (m σ) with
    | Ok a => trace (m σ)
    | Raise e => if catches e then trace (m σ) ++ trace (h e (final (m σ)))
                 else trace (m σ)
    end.
Proof.
  unfold try_except. destruct (outcome (m σ)) as [a|e] eqn:Ho; [reflexivity|].
  now destruct (catches e).
Qed.

(** The events of the first part come first. *)
Lemma trace_bind_prefix {A B} (m : M DB A) (k : A -> M DB B) σ :
  ∃ more, trace (bind m k σ) = trace (m σ) ++ more.
Proof.
  rewrite trace_bind. destruct (outcome (m σ)); eauto.
  exists []. now rewrite app_nil_r.
Qed.


(** A sequence and a [try] depend on their first part only through
    its run. *)
Lemma bind_ext {A B} (m m' : M DB A) (k : A -> M DB B) σ :
  m σ = m' σ -> bind m k σ = bind m' k σ.
Proof. intros H. unfold bind. now rewrite H. Qed.

Lemma try_except_ext {A} (m m' : M DB A) catches h σ :
  m σ = m' σ -> try_except m catches h σ = try_except m' catches h σ.
Proof. intros H. unfold try_except. now rewrite H. Qed.

(** The run of a sequence, from the run of its first part. *)
Lemma bind_run_ok {A B} (m : M DB A) (k : A -> M DB B) σ a :
  outcome (m σ) = Ok a ->
  bind m k σ = extend (trace (m σ)) (k a (final (m σ))).
Proof. intros H. unfold bind. now rewrite H. Qed.

Lemma bind_run_raise {A B} (m : M DB A) (k : A -> M DB B) σ e :
  outcome (m σ) = Raise e ->
  bind m k σ = {| outcome := Raise e; final := final (m σ); trace := trace (m σ) |}.
Proof. intros H. unfold bind. now rewrite H. Qed.

(** An exception the handler raises leaves the [try] statement. *)
Lemma try_except_caught {A} (m : M DB A) catches h σ e :
  outcome (m σ) = Raise e ->
  catches e = true ->
  try_except m catches h σ = extend (trace (m σ)) (h e (final (m σ))).
Proof. intros Hm Hc. unfold try_except. now rewrite Hm, Hc. Qed.

(** An exception no clause names passes through. *)
Lemma try_except_passes {A} (m : M DB A) catches h σ e :
  outcome (m σ) = Raise e ->
  catches e = false ->
  try_except m catches h σ = m σ.
Proof. intros Hm Hc. unfold try_except. now rewrite Hm, Hc. Qed.

Lemma try_except_ok {A} (m : M DB A) catches h σ a :
  outcome (m σ) = Ok a ->
  try_except m catches h σ = m σ.
Proof. intros Hm. unfold try_except. now rewrite Hm. Qed.

End MonadFacts.

Create Rewrite HintDb py.
#[global] Hint Rewrite @bind_ret @bind_raise @bind_lift_ok @bind_lift_raise
  @bind_emit @bind_log @bind_read_params @bind_write_params @bind_bind
  @extend_nil @extend_extend @outcome_extend @final_extend @trace_extend : py.

(** ** Strings *)

Module PyStrFacts.
Import PyStr.

Lemma append_cons (c : ascii) (s t : string) :
  String c s +:+ t = String c (s +:+ t).
Proof. reflexivity. Qed.

Lemma append_empty_l (s : string) : "" +:+ s = s.
Proof. reflexivity. Qed.

Lemma append_empty_r (s : string) : s +:+ "" = s.
Proof.
  induction s as [|c s IH]; [reflexivity|].
  now rewrite append_cons, IH.
Qed.

(** A separator cannot start where its first character does not occur. *)
Lemma prefix_other_char (c x : ascii) (sep' s : string) :
  Ascii.eqb c x = false -> String.prefix (String c sep') (String x s) = false.
Proof.
  intros Hne. cbn [String.prefix].
  destruct (ascii_dec c x) as [->|]; [|reflexivity].
  now rewrite Ascii.eqb_refl in Hne.
Qed.

Lemma prefix_same_char (c : ascii) (sep' s : string) :
  String.prefix (String c sep') (String c s) = String.prefix sep' s.
Proof. cbn [String.prefix]. now destruct (ascii_dec c c). Qed.

(** One round of the scan, by cases. *)
Lemma prefix_one_char (c : ascii) (s : string) :
  String.prefix (String c "") (String c s) = true.
Proof. rewrite prefix_same_char. now destruct s. Qed.

Lemma split_go_other (c x : ascii) (sep' s : string) :
  Ascii.eqb c x = false ->
  split_go (String c sep') 0 (String x s)
  = (String x (fst (split_go (String c sep') 0 s)), snd (split_go (String c sep') 0 s)).
Proof.
  intros Hne. cbn [split_go]. rewrite prefix_other_char by assumption.
  now destruct (split_go (String c sep') 0 s).
Qed.

Lemma split_go_match (sep : string) (x : ascii) (s : string) :
  String.prefix sep (String x s) = true ->
  split_go sep 0 (String x s)
  = ("", fst (split_go sep (pred (String.length sep)) s)
         :: snd (split_go sep (pred (String.length sep)) s)).
Proof.
  intros Hp. cbn [split_go]. rewrite Hp.
  now destruct (split_go sep (pred (String.length sep)) s).
Qed.

Lemma split_go_no_match (sep : string) (x : ascii) (s : string) :
  String.prefix sep (String x s) = false ->
  split_go sep 0 (String x s)
  = (String x (fst (split_go sep 0 s)), snd (split_go sep 0 s)).
Proof.
  intros Hp. cbn [split_go]. rewrite Hp.
  now destruct (split_go sep 0 s).
Qed.

Lemma split_go_skip (sep : string) (k : nat) (x : ascii) (s : string) :
  split_go sep (S k) (String x s) = split_go sep k s.
Proof. reflexivity. Qed.

(** Splitting runs through a stretch in which the first character of
    the separator does not occur. *)
Lemma split_go_through (c : ascii) (sep' host tail : string) :
  has_char c host = false ->
  split_go (String c sep') 0 (host +:+ tail)
  = (host +:+ fst (split_go (String c sep') 0 tail),
     snd (split_go (String c sep') 0 tail)).
Proof.
  induction host as [|x host IH]; intros Hc.
  - rewrite !append_empty_l. now destruct (split_go (String c sep') 0 tail).
  - cbn [has_char] in Hc. apply orb_false_iff in Hc as [Hx Hhost].
    rewrite !append_cons, split_go_other by assumption.
    now rewrite IH.
Qed.

(** The first chunk, under the separator "//", of a text that is empty
    or starts with "/": empty, or starting with "/" as well. *)
Lemma first_chunk_slashes (tail : string) :
  tail = "" ∨ (∃ t, tail = String "/" t) ->
  fst (split_go "//" 0 tail) = ""
  ∨ ∃ u, fst (split_go "//" 0 tail) = String "/" u.
Proof.
  intros [->|[t ->]]; [now left|].
  destruct (String.prefix "//" (String "/" t)) eqn:Hp.
  - left. now rewrite split_go_match.
  - right. rewrite split_go_no_match by assumption. eauto.
Qed.

(** The host of a URL is what stands before its first "/". *)
Lemma host_of_url (host u : string) :
  has_char "/" host = false ->
  u = "" ∨ (∃ u', u = String "/" u') ->
  fst (split_go "/" 0 (host +:+ u)) = host.
Proof.
  intros Hh Hu. rewrite split_go_through by assumption. cbn [fst].
  destruct Hu as [->|[u' ->]].
  - apply append_empty_r.
  - rewrite split_go_match by apply prefix_one_char. apply append_empty_r.
Qed.

(** Splitting a dotted host gives back its labels. *)
Lemma split_labels (l : string) (labels : list string) :
  Forall (fun x => has_char "." x = false) (l :: labels) ->
  split "." (join "." (l :: labels)) = l :: labels.
Proof.
  revert l. induction labels as [|l' labels IH]; intros l Hall.
  - apply Forall_cons in Hall as [Hl _].
    unfold split, join. cbn [String.concat].
    rewrite <- (append_empty_r l) at 1.
    rewrite split_go_through by assumption. cbn.
    now rewrite append_empty_r.
  - apply Forall_cons in Hall as [Hl Hrest].
    specialize (IH l' Hrest).
    unfold split, join in *. cbn [String.concat] in *.
    rewrite split_go_through by assumption.
    rewrite append_cons, split_go_match by apply prefix_one_char.
    cbn [fst snd String.length pred].
    destruct (split_go "." 0 _) as [cur rest] eqn:Hs.
    cbn [fst snd]. rewrite append_empty_r. now rewrite IH.
Qed.

(** The split of a URL on "//": the scheme, then what the rest gives. *)
Lemma split_scheme (rest : string) :
  split "//" ("https://" +:+ rest)
  = "https:" :: fst (split_go "//" 0 rest) :: snd (split_go "//" 0 rest).
Proof.
  unfold split.
  change ("https://" +:+ rest) with ("https:" +:+ String "/" (String "/" rest)).
  rewrite split_go_through by reflexivity.
  rewrite split_go_match by (rewrite prefix_same_char; apply prefix_one_char).
  cbn [String.length pred]. rewrite split_go_skip.
  reflexivity.
Qed.

End PyStrFacts.
(** ** Query construction *)

Section QueryFacts.

Context {DB : Type}.
Variable E : Externals.
Implicit Types σ : State DB.

Lemma has_char_append c a b :
  PyStr.has_char c (a +:+ b) = PyStr.has_char c a || PyStr.has_char c b.
Proof.
  induction a as [|x a IH]; [reflexivity|].
  rewrite PyStrFacts.append_cons. cbn [PyStr.has_char]. rewrite IH.
  now rewrite orb_assoc.
Qed.

Lemma has_char_join c sep labels :
  PyStr.has_char c sep = false ->
  Forall (fun l => PyStr.has_char c l = false) labels ->
  PyStr.has_char c (PyStr.join sep labels) = false.
Proof.
  intros Hsep. induction 1 as [|l labels Hl Hall IH]; [reflexivity|].
  unfold PyStr.join in *. cbn [String.concat].
  destruct labels as [|l' labels]; [assumption|].
  rewrite !has_char_append, Hl, Hsep, IH. reflexivity.
Qed.

(** What [split[1].split("/")[0]] is for such a URL: its host. *)
Lemma url_host labels tail :
  link_host_ok labels tail ->
  fst (PyStr.split_go "/" 0
         (fst (PyStr.split_go "//" 0 (PyStr.join "." labels +:+ tail))))
  = PyStr.join "." labels.
Proof.
  intros [Hall Htail].
  assert (Hhost : PyStr.has_char "/" (PyStr.join "." labels) = false).
  { apply has_char_join; [reflexivity|].
    eapply Forall_impl; [exact Hall|]. now intros l [_ ?]. }
  rewrite (PyStrFacts.split_go_through "/" "/") by assumption. cbn [fst].
  apply PyStrFacts.host_of_url; [assumption|].
  now apply PyStrFacts.first_chunk_slashes.
Qed.

Lemma link_checker_recognised σ lang sp labels tail :
  link_host_ok labels tail ->
  (∃ l2, labels = ["wikipedia"; l2]) ∨ (∃ l1 l3, labels = [l1; "wikipedia"; l3]) ->
  link_checker ("https://" +:+ PyStr.join "." labels +:+ tail) lang sp σ
  = {| outcome := Ok (Some true, match labels with [l1; _; _] => l1 | _ => lang end);
       final := after_link σ sp;
       trace := [] |}.
Proof.
  intros Hok Hshape.
  pose proof (url_host labels tail Hok) as Hhost.
  assert (Hsplit : PyStr.split "." (PyStr.join "." labels) = labels).
  { destruct Hok as [Hall _].
    destruct Hshape as [[l2 ->]|(l1 & l3 & ->)];
      apply PyStrFacts.split_labels;
      (eapply Forall_impl; [exact Hall|]; now intros l [? _]). }
  unfold link_checker. rewrite PyStrFacts.split_scheme.
  cbn [py_index lookup list_lookup]. rewrite bind_ret.
  rewrite bool_decide_eq_true_2 by reflexivity.
  rewrite bind_ret.
  unfold PyStr.split at 1.
  destruct (PyStr.split_go "/" 0 _) as [host more] eqn:Hs. cbn [fst] in Hhost. subst host.
  cbn [py_index lookup list_lookup]. rewrite bind_ret.
  rewrite Hsplit. unfold after_link.
  destruct Hshape as [[l2 ->]|(l1 & l3 & ->)]; cbn [length py_index lookup list_lookup].
  - rewrite (bool_decide_eq_true_2 (2 = 2)%nat) by reflexivity.
    rewrite bind_ret. rewrite bool_decide_eq_true_2 by reflexivity.
    rewrite (bool_decide_eq_false_2 (2 = 3)%nat) by discriminate.
    rewrite bind_ret, bind_read_params.
    case_bool_decide; [rewrite bind_write_params|rewrite bind_ret]; reflexivity.
  - rewrite (bool_decide_eq_false_2 (3 = 2)%nat) by discriminate.
    rewrite bind_ret. rewrite bool_decide_eq_true_2 by reflexivity.
    rewrite (bool_decide_eq_true_2 (3 = 3)%nat) by reflexivity.
    rewrite bind_ret, bind_read_params.
    case_bool_decide; [rewrite bind_write_params|rewrite bind_ret]; reflexivity.
Qed.

Lemma clean_link raw lang sp :
  clean (DB:=DB) E raw lang sp (Some true) = ret raw.
Proof. reflexivity. Qed.

(** The whole construction for a recognised link. *)
Lemma WikiQuery_init_link σ lang sp labels tail :
  link_host_ok labels tail ->
  (∃ l2, labels = ["wikipedia"; l2]) ∨ (∃ l1 l3, labels = [l1; "wikipedia"; l3]) ->
  let raw := "https://" +:+ PyStr.join "." labels +:+ tail in
  WikiQuery_init E raw lang sp σ
  = {| outcome := Ok {| q_raw_query := raw;
                        q_lang := match labels with [l1; _; _] => l1 | _ => lang end;
                        q_search_params := sp;
                        q_is_link := Some true;
                        q_query := raw |};
       final := after_link σ sp;
       trace := [] |}.
Proof.
  intros Hok Hshape raw. subst raw. unfold WikiQuery_init.
  rewrite (bind_run_ok _ _ _ _
             (f_equal outcome (link_checker_recognised σ lang sp labels tail Hok Hshape))).
  rewrite link_checker_recognised by assumption. cbn [trace final].
  rewrite extend_nil. cbn beta iota. now rewrite clean_link, bind_ret.
Qed.

(** C9: a raw query that starts with the scheme https:// and whose host
    is wikipedia.<l2> or <l1>.wikipedia.<l3> is a link: [is_link] is
    [True], the key is the raw query unchanged, and for the three-label
    host its first label replaces the language the caller gave. *)
Theorem C9_link_recognised σ lang sp labels tail :
  link_host_ok labels tail ->
  (∃ l2, labels = ["wikipedia"; l2]) ∨ (∃ l1 l3, labels = [l1; "wikipedia"; l3]) ->
  let raw := "https://" +:+ PyStr.join "." labels +:+ tail in
  ∃ q, outcome (WikiQuery_init E raw lang sp σ) = Ok q
       ∧ q_is_link q = Some true
       ∧ q_query q = raw
       ∧ q_lang q = match labels with [l1; _; _] => l1 | _ => lang end.
Proof.
  intros Hok Hshape raw. subst raw.
  rewrite WikiQuery_init_link by assumption. cbn. eauto 10.
Qed.

(** C3 (the code fails the claim): the construction of a query raises
    [IndexError] for a raw query made of the scheme and a host without a
    dot, and for the bare scheme, whatever the language, the parameters
    and the environment. *)
Theorem C3_WikiQuery_init_raises_IndexError σ lang sp :
  outcome (WikiQuery_init E "https://localhost/wiki" lang sp σ) = Raise IndexError
  ∧ outcome (WikiQuery_init E "https:" lang sp σ) = Raise IndexError.
Proof. split; reflexivity. Qed.

(** A scheme-qualified query with an unrecognised two-label host falls
    off the end of [__link_checker]: the flag is [None]. *)
Lemma link_checker_returns_None σ lang sp :
  outcome (link_checker "https://example.com/x" lang sp σ) = Ok (None, lang).
Proof. reflexivity. Qed.

Lemma all_str_stop_word (f : string -> PyItem) (tokens : list string) (word : string) :
  word ∈ tokens -> f word = item_ellipsis -> all_str (map f tokens) = None.
Proof.
  intros Hin Hf. induction Hin as [word tokens|word other tokens Hin IH].
  - cbn. now rewrite Hf.
  - cbn. destruct (f other); [|reflexivity]. now rewrite IH.
Qed.

(** C2 (the code fails the claim): when the tokenizer returns a token
    whose lowercase form is in [query_clean_list], cleaning a non-link
    query under the treatment "with" does not drop the token: the
    [Ellipsis] put in its place makes [join] raise [TypeError]. *)
Theorem C2_clean_raises_on_stop_word σ raw lang sp is_link tokens word :
  truthy is_link = false ->
  query_treatment (heap σ !!! sp) = treatment_with ->
  split_words E lang raw = Ok tokens ->
  word ∈ tokens ->
  str_lower E word ∈ query_clean_list ->
  outcome (clean E raw lang sp is_link σ) = Raise TypeError.
Proof.
  intros Hlink Htreat Hsplit Hin Hstop. unfold clean.
  rewrite Hlink, bind_read_params, Htreat.
  rewrite bool_decide_eq_false_2 by discriminate.
  rewrite Hsplit, bind_lift_ok. unfold join_items.
  rewrite (all_str_stop_word _ tokens word Hin).
  - reflexivity.
  - rewrite bool_decide_eq_false_2; [reflexivity|]. now intros Hn.
Qed.

End QueryFacts.

(** ** Results *)

Section ResultFacts.

Variable lower : string -> string.

Lemma same_title_eq own r : sr_title r = own -> same_title lower own r = true.
Proof. intros <-. unfold same_title. now apply bool_decide_eq_true_2. Qed.

Lemma list_remove_length oid l : (length (list_remove oid l) <= length l)%nat.
Proof.
  induction l as [|r l IH]; cbn; [lia|].
  case_bool_decide; cbn; lia.
Qed.

(** The stored list never has more than five entries. *)
Lemma simple_results_setter_length own input stored :
  simple_results_setter lower own input = Some stored -> (length stored <= 5)%nat.
Proof.
  unfold simple_results_setter. destruct input as [l|]; [|discriminate].
  destruct (remove_loop lower (length l) own 0 l) as [|r l']; [discriminate|].
  intros [= <-]. cbn [take length]. rewrite length_take. lia.
Qed.

(** C4 (the code fails the claim): of two neighbouring related results
    that carry the result's own title, the setter removes the first and
    steps over the second, which stays in the stored list; and an empty
    list is stored as [None]. *)
Theorem C4_setter_keeps_neighbour_and_drops_empty_list :
  let first := WikiSimpleResult_init 0 "Entropy" "Entropy" "en" in
  let second := WikiSimpleResult_init 1 "Entropy" "Entropy_(physics)" "en" in
  simple_results_setter lower "Entropy" (Some [first; second]) = Some [second]
  ∧ same_title lower "Entropy" second = true
  ∧ simple_results_setter lower "Entropy" (Some []) = None.
Proof.
  cbn zeta. split; [|split]; [|now apply same_title_eq|reflexivity].
  unfold simple_results_setter. cbn [length remove_loop lookup list_lookup].
  rewrite same_title_eq by reflexivity.
  reflexivity.
Qed.

End ResultFacts.

(** ** The API searcher *)

Lemma collect_pages_take (limit i : Z) (pages : list ApiPage) :
  0 <= i ->
  collect_pages limit i pages
  = let k := if bool_decide (i < limit) then Z.to_nat (limit - i) else length pages in
    (api_title <$> take k pages, api_key <$> take k pages).
Proof.
  revert i. induction pages as [|page rest IH]; intros i Hi; cbn zeta.
  - cbn. now rewrite !take_nil.
  - cbn [collect_pages]. case_bool_decide as Hstop.
    + rewrite bool_decide_eq_true_2 by lia.
      replace (Z.to_nat (limit - i)) with 1%nat by lia. reflexivity.
    + rewrite IH by lia. cbn zeta. destruct (decide (i < limit)) as [Hlt|Hlt].
      * rewrite (bool_decide_eq_true_2 (i < limit)) by lia.
        rewrite (bool_decide_eq_true_2 (i + 1 < limit)) by lia.
        replace (Z.to_nat (limit - i)) with (S (Z.to_nat (limit - (i + 1)))) by lia.
        reflexivity.
      * rewrite (bool_decide_eq_false_2 (i < limit)) by lia.
        rewrite (bool_decide_eq_false_2 (i + 1 < limit)) by lia. reflexivity.
Qed.

Section ApiFacts.

Context {DB : Type}.
Variable E : Externals.
Implicit Types σ : State DB.

Lemma request_limit_six (n : Z) : request_limit n = n * 6.
Proof. unfold request_limit. lia. Qed.

Lemma choose_pages_run prio title_pages content_pages σ :
  outcome (choose_pages (DB:=DB) prio title_pages content_pages σ)
  = Ok (chosen_pages prio title_pages content_pages)
  ∧ final (choose_pages prio title_pages content_pages σ) = σ
  ∧ requests_of (trace (choose_pages prio title_pages content_pages σ)) = [].
Proof.
  unfold choose_pages, chosen_pages.
  case_bool_decide; [destruct content_pages|destruct title_pages]; now cbn.
Qed.

(** C5, amended: each of the two facet requests asks for
    [number_of_results * 6] candidates, and of the chosen candidates the
    first [number_of_results * 6] are kept, in the order the API gave
    them (all of them when that number is not positive). *)
Theorem C5_api_search_page_requests_and_cut σ wiki_query :
  let params := heap σ !!! q_search_params wiki_query in
  let limit := number_of_results params * 6 in
  let title_request := facet_request wiki_query "title" limit in
  let content_request := facet_request wiki_query "page" limit in
  let pages := chosen_pages (priority params)
                 (body_pages (http_get E title_request))
                 (body_pages (http_get E content_request)) in
  status (http_get E title_request) = 200 ->
  status (http_get E content_request) = 200 ->
  pages ≠ [] ->
  requests_of (trace (api_search_page E wiki_query σ)) = [title_request; content_request]
  ∧ req_params title_request = Some (q_query wiki_query, number_of_results params * 6)
  ∧ req_params content_request = Some (q_query wiki_query, number_of_results params * 6)
  ∧ outcome (api_search_page E wiki_query σ)
    = Ok {| titles := api_title <$> take (kept limit pages) pages;
            keys := api_key <$> take (kept limit pages) pages |}.
Proof.
  intros params limit title_request content_request pages Ht Hc Hpages.
  split; [|split; [reflexivity|split; [reflexivity|]]].
  - unfold api_search_page. rewrite bind_read_params.
    fold params. rewrite request_limit_six. fold limit.
    unfold session_get. autorewrite with py.
    fold title_request content_request.
    unfold check_status. rewrite Ht, Hc.
    rewrite !bool_decide_eq_false_2 by (intros Hne; now apply Hne).
    autorewrite with py.
    destruct (choose_pages_run (priority params)
                (body_pages (http_get E title_request))
                (body_pages (http_get E content_request)) σ) as (Ho & Hf & Hr).
    rewrite (bind_run_ok _ _ _ _ Ho), Hf. fold pages.
    destruct pages as [|page rest] eqn:Hp; [contradiction|].
    destruct (collect_pages limit 0 (page :: rest)) as [tl kl].
    autorewrite with py. cbn [trace]. unfold requests_of in *.
    rewrite !omap_app, Hr. reflexivity.
  - unfold api_search_page. rewrite bind_read_params.
    fold params. rewrite request_limit_six. fold limit.
    unfold session_get. autorewrite with py.
    fold title_request content_request.
    unfold check_status. rewrite Ht, Hc.
    rewrite !bool_decide_eq_false_2 by (intros Hne; now apply Hne).
    autorewrite with py.
    destruct (choose_pages_run (priority params)
                (body_pages (http_get E title_request))
                (body_pages (http_get E content_request)) σ) as (Ho & Hf & Hr).
    rewrite (bind_run_ok _ _ _ _ Ho), Hf. fold pages.
    rewrite outcome_extend.
    destruct pages as [|page rest] eqn:Hp; [contradiction|].
    rewrite collect_pages_take by lia. cbn zeta.
    autorewrite with py. cbn [outcome ret]. unfold kept.
    now rewrite Z.sub_0_r.
Qed.

End ApiFacts.

(** ** What a computation leaves alone *)

Section Frames.

Context {DB : Type}.
Implicit Types σ : State DB.

Lemma keeps_heap_ret {A} (a : A) : keeps_heap (DB:=DB) (ret a).
Proof. now intros σ. Qed.

Lemma keeps_heap_raise {A} e : keeps_heap (DB:=DB) (A:=A) (raise e).
Proof. now intros σ. Qed.

Lemma keeps_heap_lift {A} (o : Outcome A) : keeps_heap (DB:=DB) (lift o).
Proof. now intros σ. Qed.

Lemma keeps_heap_emit ev : keeps_heap (DB:=DB) (emit ev).
Proof. now intros σ. Qed.

Lemma keeps_heap_log lg lvl msg : keeps_heap (DB:=DB) (log lg lvl msg).
Proof. now intros σ. Qed.

Lemma keeps_heap_read p : keeps_heap (DB:=DB) (read_params p).
Proof. now intros σ. Qed.

Lemma keeps_heap_assert c msg : keeps_heap (DB:=DB) (py_assert c msg).
Proof. intros σ. now destruct c. Qed.

Lemma keeps_heap_index {A} (l : list A) i : keeps_heap (DB:=DB) (py_index l i).
Proof. intros σ. unfold py_index. now destruct (l !! i). Qed.

Lemma keeps_heap_last {A} (l : list A) : keeps_heap (DB:=DB) (py_last l).
Proof. intros σ. unfold py_last. now destruct (last l). Qed.

Lemma keeps_heap_bind {A B} (m : M DB A) (k : A -> M DB B) :
  keeps_heap m -> (∀ a, keeps_heap (k a)) -> keeps_heap (bind m k).
Proof.
  intros Hm Hk σ. unfold bind. specialize (Hm σ).
  destruct (m σ) as [[a|e] σ1 t1]; cbn in *; [|assumption].
  now rewrite Hk.
Qed.

Lemma keeps_heap_try_except {A} (m : M DB A) catches h :
  keeps_heap m -> (∀ e, keeps_heap (h e)) -> keeps_heap (try_except m catches h).
Proof.
  intros Hm Hh σ. unfold try_except. specialize (Hm σ).
  destruct (m σ) as [[a|e] σ1 t1]; cbn in *; [assumption|].
  destruct (catches e); cbn; [|assumption]. now rewrite Hh.
Qed.

Lemma emits_ret {A} P (a : A) : emits (DB:=DB) P (ret a).
Proof. intros σ. constructor. Qed.

Lemma emits_raise {A} P e : emits (DB:=DB) (A:=A) P (raise e).
Proof. intros σ. constructor. Qed.

Lemma emits_lift {A} P (o : Outcome A) : emits (DB:=DB) P (lift o).
Proof. intros σ. constructor. Qed.

Lemma emits_emit P ev : P ev = true -> emits (DB:=DB) P (emit ev).
Proof. intros H σ. now repeat constructor. Qed.

Lemma emits_log P lg lvl msg :
  P (ELog lg lvl msg) = true -> emits (DB:=DB) P (log lg lvl msg).
Proof. intros H σ. now repeat constructor. Qed.

Lemma emits_read P p : emits (DB:=DB) P (read_params p).
Proof. intros σ. constructor. Qed.

Lemma emits_write P p v : emits (DB:=DB) P (write_params p v).
Proof. intros σ. constructor. Qed.

Lemma emits_assert P c msg : emits (DB:=DB) P (py_assert c msg).
Proof. intros σ. destruct c; constructor. Qed.

Lemma emits_index {A} P (l : list A) i : emits (DB:=DB) P (py_index l i).
Proof. intros σ. unfold py_index. destruct (l !! i); constructor. Qed.

Lemma emits_last {A} P (l : list A) : emits (DB:=DB) P (py_last l).
Proof. intros σ. unfold py_last. destruct (last l); constructor. Qed.

Lemma emits_bind {A B} P (m : M DB A) (k : A -> M DB B) :
  emits P m -> (∀ a, emits P (k a)) -> emits P (bind m k).
Proof.
  intros Hm Hk σ. unfold bind. specialize (Hm σ).
  destruct (m σ) as [[a|e] σ1 t1]; cbn in *; [|assumption].
  apply Forall_app. split; [assumption|apply Hk].
Qed.

Lemma emits_try_except {A} P (m : M DB A) catches h :
  emits P m -> (∀ e, emits P (h e)) -> emits P (try_except m catches h).
Proof.
  intros Hm Hh σ. unfold try_except. specialize (Hm σ).
  destruct (m σ) as [[a|e] σ1 t1]; cbn in *; [assumption|].
  destruct (catches e); cbn; [|assumption].
  apply Forall_app. split; [assumption|apply Hh].
Qed.

End Frames.

(** Goes through a computation built from the combinators above. *)
Ltac frame_step :=
  first
    [ lazymatch goal with
      | |- keeps_heap (bind _ _) => apply keeps_heap_bind; [|intros ?]
      | |- keeps_heap (try_except _ _ _) => apply keeps_heap_try_except; [|intros ?]
      | |- emits _ (bind _ _) => apply emits_bind; [|intros ?]
      | |- emits _ (try_except _ _ _) => apply emits_try_except; [|intros ?]
      end
    | assumption
    | match goal with
      | H : ∀ _, keeps_heap _ |- keeps_heap _ => apply H
      | H : ∀ _, emits _ _ |- emits _ _ => apply H
      end
    | apply keeps_heap_bind; [|intros ?]
    | apply keeps_heap_try_except; [|intros ?]
    | apply keeps_heap_ret | apply keeps_heap_raise | apply keeps_heap_lift
    | apply keeps_heap_emit | apply keeps_heap_log | apply keeps_heap_read
    | apply keeps_heap_assert | apply keeps_heap_index | apply keeps_heap_last
    | apply emits_bind; [|intros ?]
    | apply emits_try_except; [|intros ?]
    | apply emits_ret | apply emits_raise | apply emits_lift
    | apply emits_emit; reflexivity | apply emits_log; reflexivity
    | apply emits_read | apply emits_write
    | apply emits_assert | apply emits_index | apply emits_last
    | match goal with
      | |- keeps_heap (if ?b then _ else _) => destruct b
      | |- keeps_heap (match ?x with _ => _ end) => destruct x
      | |- emits _ (if ?b then _ else _) => destruct b
      | |- emits _ (match ?x with _ => _ end) => destruct x
      end ].

Ltac frame := repeat frame_step.

Section WebFrames.

Context {DB : Type}.
Variable E : Externals.
Implicit Types σ : State DB.

Lemma keeps_heap_get_response lg r : keeps_heap (DB:=DB) (get_response E lg r).
Proof. unfold get_response, session_get, check_status. frame. Qed.

Lemma keeps_heap_fast_search wq : keeps_heap (DB:=DB) (fast_search E wq).
Proof.
  unfold fast_search, get_response, session_get, check_status. frame.
Qed.

Lemma keeps_heap_api_search wq : keeps_heap (DB:=DB) (api_search E wq).
Proof.
  unfold api_search, api_search_page, api_get_page, choose_pages,
    get_response, session_get, check_status.
  frame.
Qed.

Lemma keeps_heap_web_search wq : keeps_heap (DB:=DB) (web_search E wq).
Proof.
  unfold web_search, fast_search, api_search, api_search_page, api_get_page, choose_pages,
    get_response, session_get, check_status.
  frame.
Qed.

Lemma emits_api_search wq : emits (DB:=DB) api_event (api_search E wq).
Proof.
  unfold api_search, api_search_page, api_get_page, choose_pages,
    get_response, session_get, check_status.
  frame.
Qed.

Lemma emits_web_search_no_lookup wq : emits (DB:=DB) no_lookup (web_search E wq).
Proof.
  unfold web_search, fast_search, api_search, api_search_page, api_get_page, choose_pages,
    get_response, session_get, check_status.
  frame.
Qed.

End WebFrames.

Section DbFrames.

Context {DB : Type} `{!WikiDBOrm DB}.
Variable E : Externals.
Implicit Types σ : State DB.

Lemma keeps_heap_set_db d : keeps_heap (DB:=DB) (set_db d).
Proof. now intros σ. Qed.

Lemma keeps_heap_get_db : keeps_heap (DB:=DB) get_db.
Proof. intros σ. unfold get_db. now destruct (db_searcher σ). Qed.

Lemma keeps_heap_has_db : keeps_heap (DB:=DB) has_db_searcher.
Proof. now intros σ. Qed.

Lemma emits_set_db P d : emits (DB:=DB) P (set_db d).
Proof. intros σ. constructor. Qed.

Lemma emits_get_db P : emits (DB:=DB) P get_db.
Proof. intros σ. unfold get_db. destruct (db_searcher σ); constructor. Qed.

Lemma emits_has_db P : emits (DB:=DB) P has_db_searcher.
Proof. intros σ. constructor. Qed.

Ltac db_frame :=
  repeat first
    [ assumption
    | match goal with H : ∀ _, _ |- _ => apply H end
    | apply keeps_heap_set_db | apply keeps_heap_get_db | apply keeps_heap_has_db
    | apply emits_set_db | apply emits_get_db | apply emits_has_db
    | frame_step ].

Lemma keeps_heap_setup_db : keeps_heap (DB:=DB) setup_db.
Proof. unfold setup_db, drop_db, create_db. db_frame. Qed.

Lemma keeps_heap_orm_decorator {A} (func : M DB A) :
  keeps_heap func -> keeps_heap (orm_decorator func).
Proof. intros Hf. unfold orm_decorator, setup_db, drop_db, create_db. db_frame. Qed.

Lemma keeps_heap_save_result query result : keeps_heap (save_result E query result).
Proof.
  apply keeps_heap_orm_decorator.
  unfold save_result_inner, orm_select, orm_insert. db_frame.
Qed.

Lemma keeps_heap_db_search_fn wq : keeps_heap (db_search_fn E wq).
Proof.
  apply keeps_heap_orm_decorator.
  unfold db_search_inner, orm_select. db_frame.
Qed.

Lemma emits_save_result_no_lookup query result :
  emits no_lookup (save_result E query result).
Proof.
  unfold save_result, orm_decorator, setup_db, drop_db, create_db,
    save_result_inner, orm_select, orm_insert.
  db_frame.
Qed.

Lemma keeps_heap_search_in_database wq sp : keeps_heap (search_in_database E wq sp).
Proof.
  pose proof (keeps_heap_db_search_fn wq).
  unfold search_in_database. db_frame.
Qed.

Lemma keeps_heap_search_on_web wq sp e : keeps_heap (search_on_web E wq sp e).
Proof.
  pose proof (keeps_heap_web_search (DB:=DB) E wq).
  pose proof (fun r => keeps_heap_save_result (q_query wq) r).
  unfold search_on_web. db_frame.
Qed.

Lemma emits_search_on_web_no_lookup wq sp e :
  emits no_lookup (search_on_web E wq sp e).
Proof.
  pose proof (emits_web_search_no_lookup (DB:=DB) E wq).
  pose proof (fun r => emits_save_result_no_lookup (q_query wq) r).
  unfold search_on_web. db_frame.
Qed.

End DbFrames.

(** ** The web orchestrator *)

Section WebFacts.

Context {DB : Type}.
Variable E : Externals.
Implicit Types σ : State DB.

Lemma web_search_outcome wq σ :
  let fast_first := bool_decide (mode (heap σ !!! q_search_params wq) = mode_fast)
                    || truthy (q_is_link wq) in
  let api_attempt σ' :=
    match outcome (api_search E wq σ') with
    | Ok r => Ok (Some r)
    | Raise e => if is_WikiScraperExc e then Ok None else Raise e
    end in
  outcome (web_search E wq σ)
  = if fast_first then
      match outcome (fast_search E wq σ) with
      | Ok r => Ok (Some r)
      | Raise e =>
          if is_WikiScraperExc e || is_AssertionError e
          then api_attempt (final (fast_search E wq σ))
          else Raise e
      end
    else api_attempt σ.
Proof.
  cbn zeta. unfold web_search. rewrite bind_log, outcome_extend.
  rewrite outcome_bind, outcome_try_except, final_try_except.
  rewrite bind_read_params.
  destruct (_ || _) eqn:Hfast; cbn [py_assert].
  - rewrite bind_ret, bind_log, outcome_extend, final_extend.
    rewrite outcome_bind, final_bind.
    destruct (outcome (fast_search E wq σ)) as [r|e] eqn:Hf; cbn [outcome ret final].
    + now rewrite outcome_bind.
    + destruct (is_WikiScraperExc e || is_AssertionError e) eqn:Hc; [|reflexivity].
      rewrite outcome_bind.
      assert (Hlogs : ∀ σ',
                 outcome ((match e with
                           | AssertionError msg => log log_scraper INFO (Text msg)
                           | _ => bind (log log_fast_scraper WARNING
                                          (Text "Fast scraper not found anything"))
                                    (fun _ => log log_scraper WARNING
                                                (Text "Scraper changed on API"))
                           end) σ') = Ok tt
                 ∧ final ((match e with
                           | AssertionError msg => log log_scraper INFO (Text msg)
                           | _ => bind (log log_fast_scraper WARNING
                                          (Text "Fast scraper not found anything"))
                                    (fun _ => log log_scraper WARNING
                                                (Text "Scraper changed on API"))
                           end) σ') = σ').
      { intros σ'. destruct e; now autorewrite with py. }
      destruct (Hlogs (final (fast_search E wq σ))) as [-> ->].
      rewrite outcome_try_except, outcome_bind.
      destruct (outcome (api_search E wq _)) as [r|e'] eqn:Ha; cbn [outcome ret].
      * now rewrite outcome_bind.
      * destruct (is_WikiScraperExc e'); [|reflexivity].
        now autorewrite with py.
  - rewrite bind_raise. cbn [raise outcome final is_WikiScraperExc is_AssertionError orb].
    rewrite bind_log, outcome_extend, final_extend.
    rewrite outcome_try_except, outcome_bind.
    destruct (outcome (api_search E wq σ)) as [r|e'] eqn:Ha; cbn [outcome ret].
    + now rewrite outcome_bind.
    + destruct (is_WikiScraperExc e'); [|reflexivity].
      now autorewrite with py.
Qed.





End WebFacts.

(** ** The database searcher and the top-level search *)

Section DbFacts.

Context {DB : Type} `{!WikiDBOrm DB}.
Variable E : Externals.
Implicit Types σ : State DB.

Lemma with_db_same σ d : db_searcher σ = Some d -> with_db σ d = σ.
Proof. intros H. destruct σ as [h db]. cbn in *. now subst. Qed.

Lemma bind_get_db {B} (k : WikiDB DB -> M DB B) σ d :
  db_searcher σ = Some d -> bind get_db k σ = k d σ.
Proof.
  intros H. unfold bind, get_db. rewrite H. cbn. apply extend_nil.
Qed.

Lemma bind_set_db {B} (k : unit -> M DB B) σ d :
  bind (set_db d) k σ = k tt (with_db σ d).
Proof. unfold bind. cbn. apply extend_nil. Qed.

Lemma bind_has_db {B} (k : bool -> M DB B) σ :
  bind has_db_searcher k σ = k (bool_decide (is_Some (db_searcher σ))) σ.
Proof. unfold bind. cbn. apply extend_nil. Qed.

(** The decorator: the set-up on first use, then the function. *)
Lemma orm_decorator_run {A} (func : M DB A) σ d :
  db_searcher σ = Some d ->
  orm_decorator func σ = extend (setup_events d) (func (with_db σ (ready d))).
Proof.
  intros Hdb. unfold orm_decorator, ready, setup_events.
  rewrite (bind_get_db _ _ _ Hdb).
  destruct (db_configured d) eqn:Hconf.
  - now rewrite bind_ret, extend_nil, with_db_same.
  - unfold setup_db, drop_db, create_db.
    rewrite bind_bind, (bind_get_db _ _ _ Hdb), Hconf.
    destruct (db_drop_param d) eqn:Hdrop;
      repeat first
        [ rewrite bind_bind | rewrite bind_ret | rewrite bind_emit | rewrite bind_log
        | rewrite bind_set_db | rewrite (bind_get_db _ _ _ Hdb)
        | erewrite bind_get_db by reflexivity | rewrite extend_extend ];
      cbn; now rewrite Hdrop.
Qed.

Lemma orm_select_run {A} op (f : DB -> Outcome A) σ d :
  db_searcher σ = Some d ->
  orm_select op f σ = {| outcome := f (db_store d); final := σ; trace := [EDb op] |}.
Proof.
  intros Hdb. unfold orm_select. now rewrite bind_emit, (bind_get_db _ _ _ Hdb).
Qed.

Lemma orm_insert_run {A} op (f : DB -> Outcome A * DB) σ d :
  db_searcher σ = Some d ->
  orm_insert op f σ
  = {| outcome := fst (f (db_store d));
       final := with_db σ {| db_store := snd (f (db_store d));
                             db_configured := db_configured d;
                             db_drop_param := db_drop_param d |};
       trace := [EDb op] |}.
Proof.
  intros Hdb. unfold orm_insert. rewrite bind_emit, (bind_get_db _ _ _ Hdb).
  destruct (f (db_store d)) as [o store']. now rewrite bind_set_db.
Qed.

Lemma bind_orm_select {A B} op (f : DB -> Outcome A) (k : A -> M DB B) σ d :
  db_searcher σ = Some d ->
  bind (orm_select op f) k σ
  = extend [EDb op] (match f (db_store d) with
                     | Ok a => k a σ
                     | Raise e => raise e σ
                     end).
Proof.
  intros Hdb. unfold bind at 1. rewrite (orm_select_run _ _ _ _ Hdb). cbn.
  now destruct (f (db_store d)).
Qed.

Lemma bind_orm_insert {A B} op (f : DB -> Outcome A * DB) (k : A -> M DB B) σ d :
  db_searcher σ = Some d ->
  bind (orm_insert op f) k σ
  = let σ' := with_db σ {| db_store := snd (f (db_store d));
                           db_configured := db_configured d;
                           db_drop_param := db_drop_param d |} in
    extend [EDb op] (match fst (f (db_store d)) with
                     | Ok a => k a σ'
                     | Raise e => raise e σ'
                     end).
Proof.
  intros Hdb. unfold bind at 1. rewrite (orm_insert_run _ _ _ _ Hdb). cbn.
  now destruct (f (db_store d)) as [[a|e] st].
Qed.

(** A [try] followed by more. *)
Lemma bind_try_except {A B} (m : M DB A) catches h (k : A -> M DB B) σ :
  bind (try_except m catches h) k σ
  = match outcome (m σ) with
    | Ok a => extend (trace (m σ)) (k a (final (m σ)))
    | Raise e =>
        if catches e then extend (trace (m σ)) (bind (h e) k (final (m σ)))
        else {| outcome := Raise e; final := final (m σ); trace := trace (m σ) |}
    end.
Proof.
  unfold bind at 1, try_except.
  destruct (m σ) as [[a|e] σ1 t1] eqn:Hm; cbn; [reflexivity|].
  destruct (catches e); cbn; [|reflexivity].
  unfold bind. destruct (h e σ1) as [[a|e'] σ2 t2]; cbn; [|reflexivity].
  now rewrite extend_extend.
Qed.

(** A failed insert: the write-back logs it as critical and raises it
    again. *)
Lemma save_result_inner_insert_fails query result σ d msg about :
  db_searcher σ = Some d ->
  simple_results_truthy result = true ->
  insert_fails (str_lower E query) result (db_store d) msg about ->
  outcome (save_result_inner E query result σ) = Raise (DBAPIError msg)
  ∧ ELog log_db CRITICAL (About about msg) ∈ trace (save_result_inner E query result σ).
Proof.
  intros Hdb Htruthy Hfail. unfold save_result_inner. rewrite Htruthy.
  rewrite bind_log, (bind_orm_select _ _ _ _ _ Hdb).
  destruct Hfail as [(Hsel & [store' Hadd] & ->)
                    |[(page & Hsel & Hq & [store' Hadd] & ->)
                     |(row & store1 & Hsel & Hadd & Hq & [store' Haddq] & ->)]];
    rewrite Hsel.
  - rewrite bind_try_except, (bind_orm_insert _ _ _ _ _ Hdb), Hadd.
    cbn. split; [reflexivity|set_solver].
  - rewrite bind_bind, bind_log, bind_ret, (bind_orm_select _ _ _ _ _ Hdb), Hq.
    rewrite bind_try_except, (bind_orm_insert _ _ _ _ _ Hdb), Hadd.
    cbn. split; [reflexivity|set_solver].
  - rewrite bind_try_except, (bind_orm_insert _ _ _ _ _ Hdb), Hadd.
    cbn [fst snd outcome trace final extend]. cbn zeta.
    rewrite bind_log. cbn [outcome trace final extend ret].
    erewrite bind_orm_select by reflexivity. cbn [db_store]. rewrite Hq.
    rewrite bind_try_except. erewrite bind_orm_insert by reflexivity.
    cbn [db_store]. rewrite Haddq.
    cbn. split; [reflexivity|set_solver].
Qed.


Lemma trace_run {A} (o : Outcome A) σ (t : list Event) :
  trace {| outcome := o; final := σ; trace := t |} = t.
Proof. reflexivity. Qed.

Lemma elem_of_trace_extend {A} (ev : Event) (t : list Event) (r : Run DB A) :
  ev ∈ trace r -> ev ∈ trace (extend t r).
Proof. intros H. rewrite trace_extend. set_solver. Qed.

(** The warning the handler of [search] starts with changes nothing
    but the log. *)
Lemma bind_handler_warning {B} (e : Exc) (k : unit -> M DB B) σ :
  ∃ t, bind (match e with
             | AssertionError msg =>
                 if bool_decide (msg ≠ "") then log log_wiki WARNING (Text msg) else ret tt
             | _ => ret tt
             end) k σ = extend t (k tt σ).
Proof.
  destruct e; try (exists []; now rewrite bind_ret, extend_nil).
  case_bool_decide.
  - eexists. now rewrite bind_log.
  - exists []. now rewrite bind_ret, extend_nil.
Qed.

(** The run of [search] up to the handler, when the [try] block raises
    an exception the handler accepts. *)
Lemma search_run_on_web query lang sp σ wq e :
  outcome (WikiQuery_init E query lang sp σ) = Ok wq ->
  let σ1 := final (WikiQuery_init E query lang sp σ) in
  outcome (search_in_database E wq sp σ1) = Raise e ->
  is_WikiDBExc e || is_AssertionError e = true ->
  let σ2 := final (search_in_database E wq sp σ1) in
  ∃ t, search E query lang sp σ
       = extend t (bind (search_on_web E wq sp e)
                     (fun '(returned, result) =>
                        if returned : bool then ret result
                        else bind (log log_wiki INFO (Timed "Result got in"))
                               (fun _ => ret result)) σ2).
Proof.
  intros Hinit σ1 Hmiss Hcatch σ2. unfold search.
  rewrite bind_log, (bind_run_ok _ _ _ _ Hinit). fold σ1.
  rewrite bind_log, bind_try_except.
  assert (Hbody : ∀ (k : option WikiResult -> M DB (bool * option WikiResult)),
             outcome (bind (search_in_database E wq sp) k σ1) = Raise e
             ∧ final (bind (search_in_database E wq sp) k σ1) = σ2).
  { intros k. now rewrite (bind_run_raise _ _ _ _ Hmiss). }
  destruct (Hbody (fun result => ret (false, result))) as [-> ->].
  rewrite Hcatch, !extend_extend. eauto.
Qed.

(** C1, amended: when the web path produced a result, the write-back
    condition holds and an insert of the write-back fails with a
    [DBAPIError], the failure is logged as critical and raised again,
    and [search] raises it to its caller instead of returning the
    result. *)
Theorem C1_write_back_failure_reaches_caller query lang sp σ wq e found d msg about :
  outcome (WikiQuery_init E query lang sp σ) = Ok wq ->
  let σ1 := final (WikiQuery_init E query lang sp σ) in
  outcome (search_in_database E wq sp σ1) = Raise e ->
  is_WikiDBExc e || is_AssertionError e = true ->
  let σ2 := final (search_in_database E wq sp σ1) in
  outcome (web_search E wq σ2) = Ok (Some found) ->
  let σ3 := final (web_search E wq σ2) in
  db_searcher σ3 = Some d ->
  truthy (q_is_link wq) = false ->
  query_treatment (heap σ3 !!! sp) ≠ treatment_without ->
  simple_results_truthy found = true ->
  insert_fails (str_lower E (q_query wq)) found (db_store (ready d)) msg about ->
  outcome (search E query lang sp σ) = Raise (DBAPIError msg)
  ∧ ELog log_db CRITICAL (About about msg) ∈ trace (search E query lang sp σ).
Proof.
  intros Hinit σ1 Hmiss Hcatch σ2 Hweb σ3 Hdb Hlink Htreat Htruthy Hfail.
  destruct (search_run_on_web query lang sp σ wq e Hinit Hmiss Hcatch) as [t ->].
  fold σ1 σ2.
  destruct (save_result_inner_insert_fails (q_query wq) found (with_db σ3 (ready d))
              (ready d) msg about eq_refl Htruthy Hfail) as [Hout Hlog].
  assert (Hsave : outcome (save_result E (q_query wq) found σ3) = Raise (DBAPIError msg)
                  ∧ ELog log_db CRITICAL (About about msg)
                      ∈ trace (save_result E (q_query wq) found σ3)).
  { unfold save_result. rewrite (orm_decorator_run _ _ _ Hdb).
    split; [assumption|now apply elem_of_trace_extend]. }
  destruct Hsave as [Hsave_out Hsave_log].
  unfold search_on_web. rewrite !bind_bind.
  lazymatch goal with
  | |- context [extend t (bind _ ?k σ2)] =>
      destruct (bind_handler_warning e k σ2) as [t' ->]
  end.
  rewrite !bind_bind, (bind_run_ok _ _ _ _ Hweb). fold σ3.
  cbn beta iota. rewrite !bind_bind, bind_has_db, Hdb. cbn beta.
  rewrite !bind_bind, bind_read_params, Hlink.
  rewrite (bool_decide_eq_true_2 (is_Some (Some d))) by eauto.
  rewrite (bool_decide_eq_false_2 _ Htreat). cbn [negb orb].
  rewrite !bind_bind, (bind_run_raise _ _ _ _ Hsave_out).
  split; [reflexivity|].
  repeat apply elem_of_trace_extend. rewrite trace_run. exact Hsave_log.
Qed.

End DbFacts.

(** ** The shared parameters object *)

Section Invariants.

Context {DB : Type} `{!WikiDBOrm DB}.
Variable E : Externals.
Implicit Types σ : State DB.

Lemma keeps_heap_preserves {A} I (m : M DB A) : keeps_heap m -> preserves I m.
Proof. intros Hm σ HI. now rewrite Hm. Qed.

Lemma preserves_bind {A B} I (m : M DB A) (k : A -> M DB B) :
  preserves I m -> (∀ a, preserves I (k a)) -> preserves I (bind m k).
Proof.
  intros Hm Hk σ HI. rewrite final_bind. specialize (Hm σ HI).
  destruct (outcome (m σ)); [now apply Hk|assumption].
Qed.

Lemma cache_off_write sp sp' h v :
  cache_off sp h -> db_search v = db_search_no -> cache_off sp (<[sp' := v]> h).
Proof.
  unfold cache_off. intros Hoff Hv.
  destruct (decide (sp' = sp)) as [->|Hne].
  - now rewrite lookup_total_insert_eq.
  - now rewrite lookup_total_insert_ne.
Qed.

Lemma preserves_link_checker sp query lang sp' :
  preserves (DB:=DB) (cache_off sp) (link_checker query lang sp').
Proof.
  unfold link_checker.
  repeat first
    [ apply preserves_bind; [|intros ?]
    | match goal with
      | |- preserves _ (write_params _ _) =>
          intros σ Hoff; now apply cache_off_write
      | |- preserves _ (if ?b then _ else _) => destruct b
      end
    | apply keeps_heap_preserves; solve [frame] ].
Qed.

Lemma keeps_heap_clean query lang sp is_link :
  keeps_heap (DB:=DB) (clean E query lang sp is_link).
Proof. unfold clean, join_items. frame. Qed.

Lemma preserves_WikiQuery_init sp query lang sp' :
  preserves (DB:=DB) (cache_off sp) (WikiQuery_init E query lang sp').
Proof.
  unfold WikiQuery_init. apply preserves_bind; [apply preserves_link_checker|].
  intros [is_link lang']. apply keeps_heap_preserves.
  pose proof (keeps_heap_clean query lang' sp' is_link). frame.
Qed.

Lemma emits_WikiQuery_init_no_lookup query lang sp :
  emits (DB:=DB) no_lookup (WikiQuery_init E query lang sp).
Proof. unfold WikiQuery_init, link_checker, clean, join_items. frame. Qed.

Lemma search_unfold query lang sp :
  search E query lang sp
  = bind (log log_wiki INFO (Text "Searching started"))
      (fun _ => bind (WikiQuery_init E query lang sp) (fun wq => after_query E wq sp)).
Proof. reflexivity. Qed.

Lemma keeps_heap_after_query wq sp : keeps_heap (after_query E wq sp).
Proof.
  pose proof (keeps_heap_search_in_database E wq sp).
  pose proof (keeps_heap_search_on_web E wq sp).
  unfold after_query. frame.
Qed.

Lemma preserves_search sp query lang sp' :
  preserves (cache_off sp) (search E query lang sp').
Proof.
  rewrite search_unfold.
  apply preserves_bind; [apply keeps_heap_preserves; frame|intros _].
  apply preserves_bind; [apply preserves_WikiQuery_init|intros wq].
  apply keeps_heap_preserves, keeps_heap_after_query.
Qed.

(** With the cache search switched off, the [try] block of [search]
    stops at its assertion. *)
Lemma search_in_database_off wq sp σ :
  cache_off sp (heap σ) ->
  search_in_database E wq sp σ = raise (AssertionError "Don`t search in database") σ.
Proof.
  intros Hoff. unfold search_in_database.
  rewrite bind_has_db, bind_read_params, Hoff.
  rewrite (bool_decide_eq_false_2 (db_search_no = db_search_yes)) by discriminate.
  now rewrite andb_false_r.
Qed.

Lemma after_query_off wq sp σ :
  cache_off sp (heap σ) ->
  Forall (fun ev => no_lookup ev = true) (trace (after_query E wq sp σ))
  ∧ cache_skipped ∈ trace (after_query E wq sp σ).
Proof.
  intros Hoff.
  set (skipped :=
         bind (log log_wiki INFO (About "Search query accepted" (q_query wq)))
           (fun _ =>
              bind (try_except
                      (raise (AssertionError "Don`t search in database"))
                      (fun e => is_WikiDBExc e || is_AssertionError e)
                      (search_on_web E wq sp))
                (fun '(returned, result) =>
                   if returned : bool then ret result
                   else bind (log log_wiki INFO (Timed "Result got in"))
                          (fun _ => ret result)))).
  assert (Hsame : after_query E wq sp σ = skipped σ).
  { unfold after_query, skipped. rewrite !bind_log. f_equal.
    apply bind_ext, try_except_ext.
    rewrite (bind_ext _ (raise (AssertionError "Don`t search in database")))
      by now apply search_in_database_off.
    reflexivity. }
  rewrite Hsame. split.
  - assert (Hall : emits no_lookup skipped); [|apply Hall].
    pose proof (emits_search_on_web_no_lookup E wq sp).
    unfold skipped. frame.
  - unfold skipped. rewrite bind_log. apply elem_of_trace_extend.
    match goal with
    | |- context [bind (try_except ?m ?c ?h) ?k σ] =>
        destruct (trace_bind_prefix (try_except m c h) k σ) as [more ->]
    end.
    unfold try_except. cbn [raise outcome final trace is_WikiDBExc is_AssertionError orb].
    rewrite trace_extend. unfold search_on_web.
    match goal with
    | |- context [bind ?m ?k σ] =>
        destruct (trace_bind_prefix m k σ) as [more' ->]
    end.
    rewrite bool_decide_eq_true_2 by discriminate.
    cbn. unfold cache_skipped. set_solver.
Qed.

Lemma search_off query lang sp σ :
  cache_off sp (heap σ) ->
  Forall (fun ev => no_lookup ev = true) (trace (search E query lang sp σ))
  ∧ (∀ wq, outcome (WikiQuery_init E query lang sp σ) = Ok wq ->
           cache_skipped ∈ trace (search E query lang sp σ)).
Proof.
  intros Hoff. rewrite search_unfold, bind_log, trace_extend.
  pose proof (emits_WikiQuery_init_no_lookup query lang sp σ) as Hinit.
  pose proof (preserves_WikiQuery_init sp query lang sp σ Hoff) as Hoff1.
  rewrite trace_bind.
  destruct (outcome (WikiQuery_init E query lang sp σ)) as [wq|e] eqn:Ho.
  - destruct (after_query_off wq sp _ Hoff1) as [Hall Hin]. split.
    + constructor; [reflexivity|]. apply Forall_app. now split.
    + intros _ _. rewrite !elem_of_app. auto.
  - split; [constructor; [reflexivity|assumption]|discriminate].
Qed.

(** C10: the construction of a link query whose parameters have the
    link-cache option disabled writes [db_search = no] into the
    parameters object the caller passed (any object, the shared default
    included); the change is still there when [search] has returned, and
    a later search given that same object, whatever its query, performs
    no look-up in the database: it logs that it leaves the database
    search out, and leaves the object switched off. *)
Theorem C10_link_query_switches_cache_off σ lang sp labels tail :
  link_host_ok labels tail ->
  (∃ l2, labels = ["wikipedia"; l2]) ∨ (∃ l1 l3, labels = [l1; "wikipedia"; l3]) ->
  db_search_by_url (heap σ !!! sp) = db_search_by_url_no ->
  let first := search E ("https://" +:+ PyStr.join "." labels +:+ tail) lang sp σ in
  heap (final first) = <[sp := set_db_search db_search_no (heap σ !!! sp)]> (heap σ)
  ∧ db_search (heap (final first) !!! sp) = db_search_no
  ∧ ∀ query' lang',
      let second := search E query' lang' sp (final first) in
      Forall (fun ev => no_lookup ev = true) (trace second)
      ∧ (∀ wq', outcome (WikiQuery_init E query' lang' sp (final first)) = Ok wq' ->
                cache_skipped ∈ trace second)
      ∧ db_search (heap (final second) !!! sp) = db_search_no.
Proof.
  intros Hok Hshape Hurl first.
  assert (Hheap : heap (final first)
                  = <[sp := set_db_search db_search_no (heap σ !!! sp)]> (heap σ)).
  { subst first. rewrite search_unfold, bind_log, final_extend.
    pose proof (WikiQuery_init_link E σ lang sp labels tail Hok Hshape) as Hinit.
    cbn zeta in Hinit.
    rewrite (bind_run_ok _ _ _ _ (f_equal outcome Hinit)), final_extend.
    rewrite keeps_heap_after_query, Hinit. cbn [final].
    unfold after_link. now rewrite bool_decide_eq_true_2. }
  assert (Hoff : cache_off sp (heap (final first))).
  { unfold cache_off. rewrite Hheap. now rewrite lookup_total_insert_eq. }
  split; [assumption|split; [assumption|]].
  intros query' lang' second.
  destruct (search_off query' lang' sp (final first) Hoff) as [Hall Hin].
  split; [assumption|split; [assumption|]].
  now apply (preserves_search sp query' lang' sp (final first)).
Qed.

End Invariants.

(** ** The write-back on the relational store *)

Section ListFacts.
Context {A : Type} (f : A -> bool).

Lemma find_none_filter (l : list A) : List.find f l = None -> List.filter f l = [].
Proof.
  induction l as [|x l IH]; [reflexivity|]. cbn.
  destruct (f x); [discriminate|assumption].
Qed.

Lemma find_some_filter (l : list A) x :
  List.find f l = Some x -> (1 <= length (List.filter f l))%nat.
Proof.
  induction l as [|y l IH]; [discriminate|]. cbn.
  destruct (f y); cbn; [lia|assumption].
Qed.

Lemma find_app_new (l : list A) x :
  List.find f l = None -> f x = true -> List.find f (l ++ [x]) = Some x.
Proof.
  intros Hnone Hx. induction l as [|y l IH]; cbn in *; [now rewrite Hx|].
  destruct (f y); [discriminate|auto].
Qed.

Lemma filter_app_new (l : list A) x :
  f x = true -> length (List.filter f (l ++ [x])) = S (length (List.filter f l)).
Proof.
  intros Hx. rewrite List.filter_app, length_app. cbn. rewrite Hx. cbn. lia.
Qed.
End ListFacts.

Section StoreFacts.
Import ListStore.

Variable query : string.
Variable result : WikiResult.
Local Abbreviation key := (res_key result).
Local Abbreviation lang := (res_lang result).

Lemma page_row_matches id : page_matches key lang (page_row id result) = true.
Proof. unfold page_matches. cbn. now rewrite !bool_decide_eq_true_2. Qed.

Lemma mapping_row_matches id page :
  mapping_matches query lang page
    {| query_id := id; query_text := query; query_lang := lang; query_page_id := page |}
  = true.
Proof. unfold mapping_matches, query_matches. cbn. now rewrite !bool_decide_eq_true_2. Qed.

(** After the page step the page is there, under the identity the step
    returns, and once. *)
Lemma page_step_found st :
  (∀ k l, (count_pages k l st <= 1)%nat) ->
  ∃ p, find_page_by_key key lang (snd (page_step result st)) = Some p
       ∧ page_id p = fst (page_step result st)
       ∧ count_pages key lang (snd (page_step result st)) = 1%nat
       ∧ queries (snd (page_step result st)) = queries st.
Proof.
  intros Huniq. unfold page_step.
  destruct (find_page_by_key key lang st) as [p|] eqn:Hp.
  - exists p. cbn. repeat split; [assumption|].
    specialize (Huniq key lang). unfold find_page_by_key in Hp.
    apply find_some_filter in Hp. unfold count_pages in *. lia.
  - unfold insert_page. cbn. eexists. unfold find_page_by_key, count_pages in *. cbn.
    split; [apply find_app_new; [assumption|apply page_row_matches]|].
    split; [reflexivity|]. split; [|reflexivity].
    rewrite filter_app_new by apply page_row_matches.
    now rewrite find_none_filter.
Qed.

Lemma saved_found st :
  unique_rows st ->
  ∃ p, find_page_by_key key lang (saved query result st) = Some p
       ∧ is_Some (find_query_id query lang (page_id p) (saved query result st))
       ∧ count_pages key lang (saved query result st) = 1%nat
       ∧ count_mappings query lang (page_id p) (saved query result st) = 1%nat.
Proof.
  intros [Hpages Hqueries].
  destruct (page_step_found st Hpages) as (p & Hfind & Hid & Hcount & Hq).
  unfold saved. destruct (page_step result st) as [page st1]. cbn [fst snd] in *. subst page.
  exists p.
  destruct (find_query_id query lang (page_id p) st1) as [q|] eqn:Hfq.
  - repeat split; [assumption|rewrite Hfq; eauto|assumption|].
    unfold find_query_id in Hfq. 
    destruct (List.find _ (queries st1)) as [row|] eqn:Hrow; [|discriminate].
    apply find_some_filter in Hrow.
    specialize (Hqueries query lang (page_id p)). unfold count_mappings in *.
    rewrite Hq in *. lia.
  - unfold find_query_id in Hfq.
    destruct (List.find _ (queries st1)) as [row|] eqn:Hrow; [discriminate|].
    unfold insert_query, find_page_by_key, find_query_id, count_pages, count_mappings in *.
    cbn [pages queries].
    repeat split; [assumption| |assumption|].
    + rewrite (find_app_new _ _ _ Hrow (mapping_row_matches _ _)). cbn. eauto.
    + rewrite filter_app_new by apply mapping_row_matches.
      now rewrite find_none_filter.
Qed.

(** A second write-back finds both rows. *)
Lemma saved_again st :
  unique_rows st ->
  ∃ p, find_page_by_key key lang (saved query result st) = Some p
       ∧ saved query result (saved query result st) = saved query result st
       ∧ save_events query result (saved query result st)
         = [ELog log_db INFO (Text "Save result");
            EDb (OpSelectPageIdByKey key lang);
            ELog log_db WARNING (Text "This page already exist");
            EDb (OpSelectQueryId query lang (page_id p));
            ELog log_db WARNING (Text "Search query already exist");
            ELog log_db INFO (Timed "Result saved in")].
Proof.
  intros Huniq. destruct (saved_found st Huniq) as (p & Hfind & [q Hq] & _ & _).
  exists p. split; [assumption|].
  unfold saved at 1, save_events, page_step. rewrite Hfind. cbn zeta. 
  cbn beta iota. rewrite Hq. split; reflexivity.
Qed.

End StoreFacts.

Section SaveFacts.
Import ListStore.

Variable E : Externals.
Implicit Types σ : State Store.

Lemma set_store_same (d : WikiDB Store) : set_store d (db_store d) = d.
Proof. now destruct d. Qed.

Lemma with_db_with_db σ (d d' : WikiDB Store) : with_db (with_db σ d) d' = with_db σ d'.
Proof. reflexivity. Qed.

(** The whole run of a write-back on the relational store. *)
Lemma save_result_inner_run query result σ d :
  db_searcher σ = Some d ->
  simple_results_truthy result = true ->
  save_result_inner E query result σ
  = {| outcome := Ok tt;
       final := with_db σ (set_store d (saved (str_lower E query) result (db_store d)));
       trace := save_events (str_lower E query) result (db_store d) |}.
Proof.
  intros Hdb Htruthy. unfold save_result_inner. rewrite Htruthy.
  rewrite bind_log, (bind_orm_select _ _ _ _ _ Hdb).
  cbn [select_page_id_by_key orm].
  unfold saved, save_events, page_step.
  destruct (find_page_by_key (res_key result) (res_lang result) (db_store d)) as [p|] eqn:Hp;
    cbn [fmap option_fmap option_map].
  - rewrite bind_bind, bind_log, bind_ret, (bind_orm_select _ _ _ _ _ Hdb).
    cbn [select_query_id orm].
    destruct (find_query_id _ _ (page_id p) (db_store d)) as [q|] eqn:Hq.
    + cbn. rewrite set_store_same, with_db_same by assumption.
      reflexivity.
    + rewrite bind_try_except, (bind_orm_insert _ _ _ _ _ Hdb).
      cbn [add_query orm fst snd]. cbn. reflexivity.
  - rewrite bind_try_except, (bind_orm_insert _ _ _ _ _ Hdb).
    cbn [add_page orm]. unfold insert_page. cbn [fst snd]. cbn zeta.
    rewrite bind_log. cbn [outcome trace final extend ret].
    erewrite bind_orm_select by reflexivity.
    cbn [select_query_id orm db_store].
    match goal with
    | |- context [find_query_id ?q ?l ?pg ?s] =>
        destruct (find_query_id q l pg s) as [qid|] eqn:Hq
    end.
    + cbn. reflexivity.
    + rewrite bind_try_except. erewrite bind_orm_insert by reflexivity.
      cbn [add_query orm fst snd db_store]. cbn. reflexivity.
Qed.

Lemma unique_rows_ready (d : WikiDB Store) :
  unique_rows (db_store d) -> unique_rows (db_store (ready d)).
Proof.
  intros Huniq. unfold ready.
  destruct (db_configured d); [assumption|]. cbn.
  destruct (db_drop_param d); [|assumption].
  split; intros; cbn; lia.
Qed.

(** C7: for a result with a non-empty related-results list, two
    write-backs of the same (key, language, query) into a store without
    duplicate rows leave exactly one page row for (key, language) and
    exactly one mapping row for (query, language, page); the second
    call inserts nothing, leaves the state as the first left it, and
    only logs that both rows already exist. *)
Theorem C7_save_result_twice query result σ d :
  db_searcher σ = Some d ->
  simple_results_truthy result = true ->
  unique_rows (db_store d) ->
  let key := res_key result in
  let lang := res_lang result in
  let first := save_result E query result σ in
  let second := save_result E query result (final first) in
  outcome first = Ok tt
  ∧ outcome second = Ok tt
  ∧ final second = final first
  ∧ ∃ d2 p,
      db_searcher (final second) = Some d2
      ∧ find_page_by_key key lang (db_store d2) = Some p
      ∧ count_pages key lang (db_store d2) = 1%nat
      ∧ count_mappings (str_lower E query) lang (page_id p) (db_store d2) = 1%nat
      ∧ trace second
        = [ELog log_db INFO (Text "Save result");
           EDb (OpSelectPageIdByKey key lang);
           ELog log_db WARNING (Text "This page already exist");
           EDb (OpSelectQueryId (str_lower E query) lang (page_id p));
           ELog log_db WARNING (Text "Search query already exist");
           ELog log_db INFO (Timed "Result saved in")].
Proof.
  intros Hdb Htruthy Huniq key lang first second.
  pose proof (unique_rows_ready d Huniq) as Hready.
  set (lq := str_lower E query) in *.
  set (st := db_store (ready d)) in *.
  set (d1 := set_store (ready d) (saved lq result st)).
  assert (Hconf : db_configured d1 = true).
  { subst d1. unfold ready. cbn. destruct (db_configured d) eqn:Hc; [assumption|reflexivity]. }
  assert (Hfirst : first = extend (setup_events d)
                             {| outcome := Ok tt;
                                final := with_db σ d1;
                                trace := save_events lq result st |}).
  { subst first. unfold save_result. rewrite (orm_decorator_run _ _ _ Hdb).
    now rewrite (save_result_inner_run _ _ _ (ready d)). }
  destruct (saved_found lq result st Hready) as (p & Hfind & _ & Hpages & Hmaps).
  destruct (saved_again lq result st Hready) as (p' & Hfind' & Hsame & Hevents).
  assert (p' = p) by congruence. subst p'.
  assert (Hsecond : second = {| outcome := Ok tt;
                                final := with_db σ d1;
                                trace := save_events lq result (saved lq result st) |}).
  { subst second. rewrite Hfirst. cbn [final extend]. unfold save_result.
    rewrite (orm_decorator_run _ (with_db σ d1) d1) by reflexivity.
    unfold setup_events, ready. rewrite Hconf, extend_nil.
    rewrite (save_result_inner_run _ _ _ d1) by (reflexivity || assumption).
    subst d1. cbn [db_store set_store]. fold lq. rewrite Hsame. reflexivity. }
  rewrite Hsecond, Hfirst. cbn [outcome final trace extend].
  repeat split.
  exists d1, p. subst d1. cbn [db_searcher with_db db_store set_store].
  repeat split; assumption.
Qed.

End SaveFacts.

(** ** More on results *)

Section SetterFacts.

Variable lower : string -> string.
Variable own : string.

Lemma list_remove_middle (done : list WikiSimpleResult) x t :
  sr_oid x ∉ (sr_oid <$> done) ->
  list_remove (sr_oid x) (done ++ x :: t) = done ++ t.
Proof.
  induction done as [|d done IH]; intros Hnot; cbn.
  - now rewrite bool_decide_eq_true_2.
  - rewrite fmap_cons in Hnot. apply not_elem_of_cons in Hnot as [Hne Hnot].
    rewrite bool_decide_eq_false_2 by congruence. now rewrite IH.
Qed.

Lemma remove_loop_past fuel idx (l : list WikiSimpleResult) :
  (length l <= idx)%nat -> remove_loop lower fuel own idx l = l.
Proof.
  intros Hlen. destruct fuel; [reflexivity|]. cbn.
  now rewrite lookup_ge_None_2.
Qed.

(** The loop, from a position on: what is before stays, what is after
    loses its self-matches. *)
Lemma remove_loop_others fuel : ∀ done todo,
  (length todo <= fuel)%nat ->
  NoDup (sr_oid <$> (done ++ todo)) ->
  no_neighbours lower own todo = true ->
  remove_loop lower fuel own (length done) (done ++ todo)
  = done ++ others lower own todo.
Proof.
  induction fuel as [|fuel IH]; intros done todo Hfuel Hnodup Hnb.
  - destruct todo; [reflexivity|cbn in Hfuel; lia].
  - destruct todo as [|x t].
    + cbn [remove_loop]. rewrite lookup_ge_None_2 by (rewrite app_nil_r; lia).
      reflexivity.
    + cbn [remove_loop]. rewrite list_lookup_middle by reflexivity.
      unfold others. cbn [List.filter].
      destruct (same_title lower own x) eqn:Hx; cbn [negb].
      * rewrite list_remove_middle.
        2:{ rewrite fmap_app, fmap_cons in Hnodup.
            apply NoDup_app in Hnodup as (_ & Hdisj & _).
            intros Hin. apply (Hdisj _ Hin). left. }
        destruct t as [|y t'].
        { cbn [List.filter]. rewrite !app_nil_r. apply remove_loop_past. lia. }
        cbn [no_neighbours] in Hnb. rewrite Hx in Hnb. cbn [andb] in Hnb.
        apply andb_true_iff in Hnb as [Hy Hnb].
        apply negb_true_iff in Hy.
        cbn [List.filter]. rewrite Hy. cbn [negb].
        replace (S (length done)) with (length (done ++ [y])) by (rewrite length_app; cbn; lia).
        replace (done ++ y :: t') with ((done ++ [y]) ++ t') by now rewrite <- app_assoc.
        rewrite IH.
        -- now rewrite <- app_assoc.
        -- cbn in Hfuel. lia.
        -- rewrite <- app_assoc. cbn [app].
           rewrite fmap_app, fmap_cons in Hnodup. rewrite fmap_app.
           apply NoDup_app in Hnodup as (Hd & Hdisj & Ht).
           apply NoDup_cons in Ht as [_ Ht].
           apply NoDup_app. repeat split; [assumption| |assumption].
           intros z Hz Hz'. apply (Hdisj z Hz). now right.
        -- destruct t'; [reflexivity|].
           cbn [no_neighbours] in Hnb. apply andb_true_iff in Hnb as [_ Hnb].
           cbn [no_neighbours]. exact Hnb.
      * replace (S (length done)) with (length (done ++ [x])) by (rewrite length_app; cbn; lia).
        replace (done ++ x :: t) with ((done ++ [x]) ++ t) by now rewrite <- app_assoc.
        rewrite IH.
        -- now rewrite <- app_assoc.
        -- cbn in Hfuel. lia.
        -- now rewrite <- app_assoc.
        -- cbn [no_neighbours] in Hnb. now apply andb_true_iff in Hnb as [_ Hnb].
Qed.

(** X1: for a list of distinct objects in which no two neighbours both
    carry the result's own title, the setter stores exactly the entries
    with another title, in their order, cut to the first five, and [None]
    when none is left. *)
Theorem setter_keeps_the_others (l : list WikiSimpleResult) :
  NoDup (sr_oid <$> l) ->
  no_neighbours lower own l = true ->
  simple_results_setter lower own (Some l)
  = match others lower own l with
    | [] => None
    | kept => Some (take 5 kept)
    end.
Proof.
  intros Hnodup Hnb. unfold simple_results_setter.
  pose proof (remove_loop_others (length l) [] l (le_n _) Hnodup Hnb) as Hloop.
  cbn [length app] in Hloop. rewrite Hloop.
  now destruct (others lower own l).
Qed.

End SetterFacts.

(** ** More on related results *)

Section LinkFacts.
Import PyStr PyStrFacts.

Lemma find_from_through (c : ascii) (pat' pre s : string) (i : Z) :
  has_char c pre = false ->
  find_from (String c pat') i (pre +:+ s)
  = find_from (String c pat') (i + Z.of_nat (String.length pre)) s.
Proof.
  revert i. induction pre as [|x pre IH]; intros i Hc.
  - rewrite append_empty_l. cbn [String.length]. f_equal. lia.
  - cbn [has_char] in Hc. apply orb_false_iff in Hc as [Hx Hpre].
    rewrite append_cons. cbn [find_from].
    rewrite prefix_other_char by assumption.
    rewrite IH by assumption. f_equal. cbn [String.length]. lia.
Qed.

Lemma find_absent (c : ascii) (pat' s : string) :
  has_char c s = false -> find (String c pat') s = -1.
Proof.
  intros Hc. unfold find. rewrite <- (append_empty_r s).
  rewrite find_from_through by assumption. reflexivity.
Qed.

Lemma drop_append (pre s : string) : drop (String.length pre) (pre +:+ s) = s.
Proof. induction pre as [|x pre IH]; [reflexivity|]. now rewrite append_cons. Qed.

Lemma length_append (a b : string) :
  String.length (a +:+ b) = (String.length a + String.length b)%nat.
Proof.
  induction a as [|x a IH]; [reflexivity|].
  rewrite append_cons. cbn [String.length]. now rewrite IH.
Qed.

(** A language code cannot complete the folder name: after it comes a
    dot. *)
Lemma prefix_folder_lang (p l rest : string) :
  has_char "." p = false ->
  has_char "/" l = false ->
  String.prefix (p +:+ "/") (l +:+ String "." rest) = false.
Proof.
  revert l. induction p as [|a p IH]; intros l Hp Hl.
  - rewrite append_empty_l. destruct l as [|c l].
    + rewrite append_empty_l. now apply prefix_other_char.
    + rewrite append_cons. cbn [has_char] in Hl. apply orb_false_iff in Hl as [Hc _].
      now apply prefix_other_char.
  - cbn [has_char] in Hp. apply orb_false_iff in Hp as [Ha Hp].
    rewrite append_cons. destruct l as [|c l].
    + rewrite append_empty_l. apply prefix_other_char.
      rewrite Ascii.eqb_sym. exact Ha.
    + rewrite append_cons. cbn [has_char] in Hl. apply orb_false_iff in Hl as [_ Hl].
      destruct (Ascii.eqb a c) eqn:Hac.
      * apply Ascii.eqb_eq in Hac as ->. rewrite prefix_same_char. now apply IH.
      * now apply prefix_other_char.
Qed.

Lemma find_in_page_url (l key : string) :
  has_char "/" l = false ->
  find wiki_folder (wiki_page_url l key)
  = Z.of_nat (String.length ("https://" +:+ l +:+ ".wikipedia.org")).
Proof.
  intros Hl. unfold find, wiki_folder, wiki_page_url.
  change ("https://" +:+ l +:+ ".wikipedia.org/wiki/" +:+ key)
    with ("https:" +:+ String "/" (String "/" (l +:+ String "." ("wikipedia.org/wiki/" +:+ key)))).
  rewrite find_from_through by reflexivity.
  cbn [find_from]. rewrite prefix_same_char, prefix_other_char by reflexivity.
  cbn [find_from]. rewrite prefix_same_char.
  rewrite (prefix_folder_lang "wiki" l) by (reflexivity || assumption).
  rewrite find_from_through by assumption.
  change (String "." ("wikipedia.org/wiki/" +:+ key))
    with (".wikipedia.org" +:+ String "/" ("wiki/" +:+ key)).
  rewrite find_from_through by reflexivity.
  cbn [find_from]. rewrite prefix_same_char.
  replace (String.prefix "wiki/" ("wiki/" +:+ key)) with true.
  2:{ change ("wiki/" +:+ key) with (String "w" (String "i" (String "k" (String "i" (String "/" key))))).
      rewrite !prefix_same_char. now destruct key. }
  rewrite !length_append. cbn [String.length]. lia.
Qed.

Lemma simple_result_of_page_url (oid : nat) (title l key lang : string) :
  has_char "/" l = false ->
  sr_raw_link (WikiSimpleResult_init oid title (wiki_page_url l key) lang) = key
  ∧ sr_link (WikiSimpleResult_init oid title (wiki_page_url l key) lang)
    = wiki_page_url lang key.
Proof.
  intros Hl.
  assert (Hraw : sr_raw_link (WikiSimpleResult_init oid title (wiki_page_url l key) lang) = key).
  { unfold WikiSimpleResult_init. cbn [sr_raw_link].
    rewrite find_in_page_url by assumption.
    rewrite bool_decide_eq_true_2 by lia.
    rewrite <- Nat2Z.inj_add, Nat2Z.id.
    replace (wiki_page_url l key)
      with (("https://" +:+ l +:+ ".wikipedia.org") +:+ wiki_folder +:+ key).
    - rewrite <- length_append.
      rewrite <- (drop_append (("https://" +:+ l +:+ ".wikipedia.org") +:+ wiki_folder) key) at 2.
      f_equal. 
      generalize ("https://" +:+ l +:+ ".wikipedia.org"). intros a.
      clear. induction a as [|x a IH]; [reflexivity|].
      now rewrite !append_cons, IH.
    - unfold wiki_page_url, wiki_folder.
      change ("https://" +:+ l +:+ ".wikipedia.org/wiki/" +:+ key)
        with ("https://" +:+ (l +:+ (".wikipedia.org" +:+ ("/wiki/" +:+ key)))).
      change (("https://" +:+ l +:+ ".wikipedia.org") +:+ "/wiki/" +:+ key)
        with ("https://" +:+ ((l +:+ ".wikipedia.org") +:+ ("/wiki/" +:+ key))).
      f_equal. generalize ("/wiki/" +:+ key). intros b.
      clear. induction l as [|x l IH]; [reflexivity|].
      now rewrite !append_cons, IH. }
  split; [assumption|].
  unfold WikiSimpleResult_init in *. cbn [sr_raw_link sr_link] in *. now rewrite Hraw.
Qed.

Lemma simple_result_of_key (oid : nat) (title key lang : string) :
  has_char "/" key = false ->
  sr_raw_link (WikiSimpleResult_init oid title key lang) = key
  ∧ sr_link (WikiSimpleResult_init oid title key lang) = wiki_page_url lang key.
Proof.
  intros Hkey. unfold WikiSimpleResult_init. cbn [sr_raw_link sr_link].
  unfold wiki_folder. rewrite find_absent by assumption.
  now rewrite bool_decide_eq_false_2 by (intros H; now apply H).
Qed.

(** X2: a related result built from the full URL of a page keeps only the
    key of the page as its raw link, one built from a bare key keeps the
    key, and in both cases the link is the page URL of that key in the
    result's own language. *)
Theorem simple_result_link_is_canonical (oid : nat) (title l key lang : string) :
  has_char "/" l = false ->
  has_char "/" key = false ->
  let from_url := WikiSimpleResult_init oid title (wiki_page_url l key) lang in
  let from_key := WikiSimpleResult_init oid title key lang in
  sr_raw_link from_url = key
  ∧ sr_link from_url = wiki_page_url lang key
  ∧ from_key = from_url.
Proof.
  intros Hl Hkey from_url from_key.
  destruct (simple_result_of_page_url oid title l key lang Hl) as [Hraw Hlink].
  destruct (simple_result_of_key oid title key lang Hkey) as [Hraw' Hlink'].
  repeat split; [assumption|assumption|].
  subst from_url from_key. unfold WikiSimpleResult_init in *.
  cbn [sr_raw_link sr_link] in *. now rewrite Hraw, Hraw'.
Qed.

End LinkFacts.

(** ** More on query construction *)

Section PlainQueryFacts.
Import PyStr PyStrFacts.

Context {DB : Type}.
Variable E : Externals.
Implicit Types σ : State DB.

Lemma prefix_empty (s : string) : String.prefix "" s = true.
Proof. now destruct s. Qed.

(** The first chunk of a split is a prefix of the text. *)
Lemma first_chunk_is_prefix (sep s : string) :
  String.prefix (fst (split_go sep 0 s)) s = true.
Proof.
  induction s as [|c s IH]; [reflexivity|].
  destruct (String.prefix sep (String c s)) eqn:Hp.
  - rewrite split_go_match by assumption. apply prefix_empty.
  - rewrite split_go_no_match by assumption. cbn [fst].
    now rewrite prefix_same_char.
Qed.

Lemma link_checker_not_link raw lang sp σ :
  String.prefix "https:" raw = false ->
  link_checker raw lang sp σ = ret (Some false, lang) σ.
Proof.
  intros Hp. unfold link_checker, split.
  destruct (split_go "//" 0 raw) as [cur rest] eqn:Hs.
  cbn [py_index lookup list_lookup]. rewrite bind_ret.
  rewrite bool_decide_eq_false_2; [reflexivity|].
  intros ->. pose proof (first_chunk_is_prefix "//" raw) as Hpre.
  rewrite Hs in Hpre. cbn [fst] in Hpre. congruence.
Qed.

Lemma WikiQuery_init_not_link raw lang sp σ :
  String.prefix "https:" raw = false ->
  WikiQuery_init E raw lang sp σ
  = bind (clean E raw lang sp (Some false))
      (fun cleaned => ret {| q_raw_query := raw; q_lang := lang; q_search_params := sp;
                             q_is_link := Some false; q_query := cleaned |}) σ.
Proof.
  intros Hp. unfold WikiQuery_init.
  rewrite (bind_ext _ (ret (Some false, lang))) by now apply link_checker_not_link.
  now rewrite bind_ret.
Qed.

Lemma concat_cons_char (sep : string) c cur rest :
  String.concat sep (String c cur :: rest) = String c (String.concat sep (cur :: rest)).
Proof. destruct rest; reflexivity. Qed.

Lemma replace_spaces (s : string) : replace " " "_" s = underscore_spaces s.
Proof.
  unfold replace, join, split.
  induction s as [|c s IH]; [reflexivity|]. cbn [underscore_spaces].
  destruct (Ascii.eqb c " ") eqn:Hc.
  - apply Ascii.eqb_eq in Hc as ->.
    rewrite split_go_match by apply prefix_one_char. cbn [String.length pred].
    destruct (split_go " " 0 s) as [cur rest]. cbn [fst snd] in *.
    change (String.concat "_" ("" :: cur :: rest))
      with ("" +:+ "_" +:+ String.concat "_" (cur :: rest)).
    rewrite IH. reflexivity.
  - rewrite split_go_other by (now rewrite Ascii.eqb_sym).
    destruct (split_go " " 0 s) as [cur rest]. cbn [fst snd] in *.
    now rewrite concat_cons_char, IH.
Qed.

Lemma underscore_spaces_length (s : string) :
  String.length (underscore_spaces s) = String.length s.
Proof. induction s as [|c s IH]; [reflexivity|]. cbn. now rewrite IH. Qed.

Lemma underscore_spaces_no_space (s : string) :
  has_char " " (underscore_spaces s) = false.
Proof.
  induction s as [|c s IH]; [reflexivity|]. cbn [underscore_spaces has_char].
  rewrite IH, orb_false_r. destruct (Ascii.eqb c " ") eqn:Hc; [reflexivity|].
  now rewrite Ascii.eqb_sym.
Qed.

(** X3: a query that does not start with https: is not a link; under the
    treatment "without" its key is the raw text with every space turned
    into an underscore and nothing else changed (same length, no space
    left), the language is the caller's, and the construction neither
    logs nor changes anything. *)
Theorem passthrough_key raw lang sp σ :
  String.prefix "https:" raw = false ->
  query_treatment (heap σ !!! sp) = treatment_without ->
  WikiQuery_init E raw lang sp σ
  = ret {| q_raw_query := raw; q_lang := lang; q_search_params := sp;
           q_is_link := Some false; q_query := underscore_spaces raw |} σ
  ∧ String.length (underscore_spaces raw) = String.length raw
  ∧ has_char " " (underscore_spaces raw) = false.
Proof.
  intros Hp Ht. split; [|split; [apply underscore_spaces_length|apply underscore_spaces_no_space]].
  rewrite WikiQuery_init_not_link by assumption. unfold clean. cbn [truthy].
  rewrite bind_bind, bind_read_params, Ht.
  rewrite bool_decide_eq_true_2 by reflexivity.
  now rewrite bind_ret, replace_spaces.
Qed.

Lemma all_str_kept (f : string -> PyItem) (tokens : list string) :
  Forall (fun w => f w = item_str w) tokens -> all_str (map f tokens) = Some tokens.
Proof.
  induction 1 as [|w tokens Hw Hall IH]; [reflexivity|].
  cbn. now rewrite Hw, IH.
Qed.

(** X4: under the treatment "with", when none of the tokens the tokenizer
    returns is in [query_clean_list] (lowercased), the key of a non-link
    query is the tokens joined with underscores; when that join is empty
    the key falls back to the raw text with underscores for spaces and a
    warning is logged.  Nothing else is logged and the state is
    unchanged. *)
Theorem normalized_key raw lang sp σ tokens :
  String.prefix "https:" raw = false ->
  query_treatment (heap σ !!! sp) = treatment_with ->
  split_words E lang raw = Ok tokens ->
  Forall (fun w => str_lower E w ∉ query_clean_list) tokens ->
  let key := if bool_decide (join "_" tokens = "")
             then underscore_spaces raw else join "_" tokens in
  WikiQuery_init E raw lang sp σ
  = {| outcome := Ok {| q_raw_query := raw; q_lang := lang; q_search_params := sp;
                        q_is_link := Some false; q_query := key |};
       final := σ;
       trace := if bool_decide (join "_" tokens = "")
                then [ELog log_wiki WARNING (Text "Failed to clean search query")]
                else [] |}.
Proof.
  intros Hp Ht Hs Hall key. subst key.
  rewrite WikiQuery_init_not_link by assumption. unfold clean. cbn [truthy].
  rewrite !bind_bind, bind_read_params, Ht.
  rewrite bool_decide_eq_false_2 by discriminate.
  rewrite bind_bind, Hs, bind_lift_ok. unfold join_items.
  rewrite all_str_kept.
  2:{ eapply Forall_impl; [exact Hall|]. intros w Hw. cbn beta.
      now rewrite bool_decide_eq_true_2. }
  rewrite bind_bind, bind_ret.
  case_bool_decide.
  - rewrite bind_bind, bind_log, bind_ret, replace_spaces. reflexivity.
  - now rewrite bind_ret.
Qed.

(** The tokenizer's failure is the failure of the construction. *)
Lemma tokenizer_failure raw lang sp σ e :
  String.prefix "https:" raw = false ->
  query_treatment (heap σ !!! sp) = treatment_with ->
  split_words E lang raw = Raise e ->
  outcome (WikiQuery_init E raw lang sp σ) = Raise e.
Proof.
  intros Hp Ht Hs.
  rewrite WikiQuery_init_not_link by assumption. unfold clean. cbn [truthy].
  rewrite !bind_bind, bind_read_params, Ht.
  rewrite bool_decide_eq_false_2 by discriminate.
  now rewrite bind_bind, Hs, bind_lift_raise.
Qed.

End PlainQueryFacts.

(** ** More on the cached rows *)

Section ConverterFacts.
Import PyStr PyStrFacts.

Context {DB : Type} `{!WikiDBOrm DB}.
Variable E : Externals.
Implicit Types σ : State DB.

Lemma split_no_sep (c : ascii) (s : string) :
  has_char c s = false -> split (String c "") s = [s].
Proof.
  intros Hc. unfold split. rewrite <- (append_empty_r s) at 1.
  rewrite split_go_through by assumption. cbn. now rewrite append_empty_r.
Qed.

Lemma split_pair (c : ascii) (a b : string) :
  has_char c a = false -> has_char c b = false ->
  split (String c "") (a +:+ String c b) = [a; b].
Proof.
  intros Ha Hb. unfold split. rewrite split_go_through by assumption.
  rewrite split_go_match by apply prefix_one_char.
  cbn [fst snd String.length pred].
  pose proof (split_no_sep c b Hb) as Hs. unfold split in Hs.
  destruct (split_go (String c "") 0 b) as [cur rest]. cbn [fst snd].
  injection Hs as -> ->. now rewrite append_empty_r.
Qed.

(** A stored string "title|reference" gives back its two parts. *)
Lemma stored_parts (title ref : string) :
  has_char "|" title = false -> has_char "|" ref = false ->
  first_part (title +:+ "|" +:+ ref) = title
  ∧ last_part (title +:+ "|" +:+ ref) = ref.
Proof.
  intros Ht Hr. unfold first_part, last_part.
  change (title +:+ "|" +:+ ref) with (title +:+ String "|" ref).
  now rewrite split_pair.
Qed.


Lemma stored_pair_truthy (entry : string * string) :
  stored_truthy (Some (stored_pair entry)) = Some (stored_pair entry).
Proof. destruct entry as [[|c t] k]; reflexivity. Qed.

Lemma omap_stored (entries : list (string * string)) (filler : list (option string)) :
  Forall (fun s => stored_truthy s = None) filler ->
  omap stored_truthy ((Some ∘ stored_pair <$> entries) ++ filler) = stored_pair <$> entries.
Proof.
  intros Hfill. rewrite omap_app.
  assert (Hnone : omap stored_truthy filler = []).
  { induction Hfill as [|s filler Hs _ IH]; [reflexivity|]. cbn. now rewrite Hs. }
  rewrite Hnone, app_nil_r.
  induction entries as [|e entries IH]; [reflexivity|].
  rewrite !fmap_cons. cbn [omap list_omap compose].
  rewrite stored_pair_truthy. f_equal. exact IH.
Qed.

Lemma decode_stored (lang : string) (entries : list (string * string)) :
  Forall storable entries ->
  ∀ f g : nat -> nat, (∀ i, f i = g i) ->
  imap (fun i res => WikiSimpleResult_init (f i) (first_part res) (last_part res) lang)
       (stored_pair <$> entries)
  = imap (fun i '(title, key) =>
            {| sr_oid := g i; sr_title := title; sr_lang := lang;
               sr_raw_link := key; sr_link := wiki_page_url lang key |}) entries.
Proof.
  induction 1 as [|[title key] entries (Ht & Hk & Hs) Hall IH]; intros f g Hfg; [reflexivity|].
  cbn [fmap list_fmap imap]. cbn [fst snd] in *.
  destruct (stored_parts title key Ht Hk) as [Hfirst Hlast].
  unfold stored_pair at 1 2. cbn [fst snd]. rewrite Hfirst, Hlast.
  destruct (simple_result_of_key (f 0%nat) title key lang Hs) as [Hraw Hlink].
  f_equal.
  - unfold WikiSimpleResult_init in *. cbn [sr_raw_link sr_link] in *.
    now rewrite Hraw, Hfg.
  - apply (IH (f ∘ S) (g ∘ S)). intros i. cbn. apply Hfg.
Qed.

(** X5: in the default mode the converter turns the stored strings of a
    page row back into related results: it skips the empty slots, reads
    each "title|reference" string (no other bar, no slash in the
    reference) as that title and that reference, numbers the results in
    order and gives each the language of the page and the page URL of its
    reference; in the fast mode it returns [None]. *)
Theorem converter_reads_stored_pairs (page : WikiDBPages)
  (entries : list (string * string)) (filler : list (option string)) :
  Forall storable entries ->
  Forall (fun s => stored_truthy s = None) filler ->
  page_slots page = (Some ∘ stored_pair <$> entries) ++ filler ->
  simple_results_converter page mode_default
  = Some (imap (fun i '(title, key) =>
                  {| sr_oid := i; sr_title := title; sr_lang := page_lang page;
                     sr_raw_link := key; sr_link := wiki_page_url (page_lang page) key |})
               entries)
  ∧ simple_results_converter page mode_fast = None.
Proof.
  intros Hok Hfill Hslots. split; [|reflexivity].
  unfold simple_results_converter. rewrite bool_decide_eq_true_2 by reflexivity.
  fold (page_slots page). rewrite Hslots, omap_stored by assumption.
  f_equal. now apply (decode_stored _ _ Hok id id).
Qed.

End ConverterFacts.

(** ** More on what a computation leaves alone *)

Section StateFrames.

Context {DB : Type}.
Implicit Types σ : State DB.

Lemma keeps_state_ret {A} (a : A) : keeps_state (DB:=DB) (ret a).
Proof. now intros σ. Qed.

Lemma keeps_state_raise {A} e : keeps_state (DB:=DB) (A:=A) (raise e).
Proof. now intros σ. Qed.

Lemma keeps_state_lift {A} (o : Outcome A) : keeps_state (DB:=DB) (lift o).
Proof. now intros σ. Qed.

Lemma keeps_state_emit ev : keeps_state (DB:=DB) (emit ev).
Proof. now intros σ. Qed.

Lemma keeps_state_log lg lvl msg : keeps_state (DB:=DB) (log lg lvl msg).
Proof. now intros σ. Qed.

Lemma keeps_state_read p : keeps_state (DB:=DB) (read_params p).
Proof. now intros σ. Qed.

Lemma keeps_state_assert c msg : keeps_state (DB:=DB) (py_assert c msg).
Proof. intros σ. now destruct c. Qed.

Lemma keeps_state_index {A} (l : list A) i : keeps_state (DB:=DB) (py_index l i).
Proof. intros σ. unfold py_index. now destruct (l !! i). Qed.

Lemma keeps_state_last {A} (l : list A) : keeps_state (DB:=DB) (py_last l).
Proof. intros σ. unfold py_last. now destruct (last l). Qed.

Lemma keeps_state_bind {A B} (m : M DB A) (k : A -> M DB B) :
  keeps_state m -> (∀ a, keeps_state (k a)) -> keeps_state (bind m k).
Proof.
  intros Hm Hk σ. rewrite final_bind, Hm.
  destruct (outcome (m σ)); [apply Hk|reflexivity].
Qed.

Lemma keeps_state_try_except {A} (m : M DB A) catches h :
  keeps_state m -> (∀ e, keeps_state (h e)) -> keeps_state (try_except m catches h).
Proof.
  intros Hm Hh σ. rewrite final_try_except, Hm.
  destruct (outcome (m σ)) as [a|e]; [reflexivity|].
  destruct (catches e); [apply Hh|reflexivity].
Qed.

End StateFrames.

Ltac state_step :=
  first
    [ lazymatch goal with
      | |- keeps_state (bind _ _) => apply keeps_state_bind; [|intros ?]
      | |- keeps_state (try_except _ _ _) => apply keeps_state_try_except; [|intros ?]
      end
    | assumption
    | match goal with
      | H : ∀ _, keeps_state _ |- keeps_state _ => apply H
      end
    | apply keeps_state_bind; [|intros ?]
    | apply keeps_state_try_except; [|intros ?]
    | apply keeps_state_ret | apply keeps_state_raise | apply keeps_state_lift
    | apply keeps_state_emit | apply keeps_state_log | apply keeps_state_read
    | apply keeps_state_assert | apply keeps_state_index | apply keeps_state_last
    | match goal with
      | |- keeps_state (if ?b then _ else _) => destruct b
      | |- keeps_state (match ?x with _ => _ end) => destruct x
      end ].

Section ReadOnly.

Context {DB : Type} `{!WikiDBOrm DB}.
Variable E : Externals.
Implicit Types σ : State DB.


Lemma keeps_state_has_db : keeps_state (DB:=DB) has_db_searcher.
Proof. now intros σ. Qed.


Lemma keeps_state_web_search wq : keeps_state (DB:=DB) (web_search E wq).
Proof.
  unfold web_search, fast_search, api_search, api_search_page, api_get_page, choose_pages,
    get_response, session_get, check_status.
  repeat state_step.
Qed.



Lemma emits_no_http_db_search_fn wq : emits no_http (db_search_fn E wq).
Proof.
  unfold db_search_fn, orm_decorator, setup_db, drop_db, create_db, db_search_inner,
    orm_select.
  repeat first [apply emits_set_db | apply emits_get_db | apply emits_has_db | frame_step].
Qed.

Lemma emits_no_insert_db_search_fn wq : emits no_insert (db_search_fn E wq).
Proof.
  unfold db_search_fn, orm_decorator, setup_db, drop_db, create_db, db_search_inner,
    orm_select.
  repeat first [apply emits_set_db | apply emits_get_db | apply emits_has_db | frame_step].
Qed.

Lemma emits_no_insert_web_search wq : emits (DB:=DB) no_insert (web_search E wq).
Proof.
  unfold web_search, fast_search, api_search, api_search_page, api_get_page, choose_pages,
    get_response, session_get, check_status.
  frame.
Qed.

Lemma emits_WikiQuery_init_quiet P query lang sp :
  P (ELog log_wiki WARNING (Text "Failed to clean search query")) = true ->
  emits (DB:=DB) P (WikiQuery_init E query lang sp).
Proof.
  intros HP. unfold WikiQuery_init, link_checker, clean, join_items.
  repeat first [apply emits_log; exact HP | frame_step].
Qed.

End ReadOnly.

(** ** The paths through [WikiSearcher.search] *)

Section SearchPaths.

Context {DB : Type} `{!WikiDBOrm DB}.
Variable E : Externals.
Implicit Types σ : State DB.

Lemma requests_of_no_http (t : list Event) :
  Forall (fun ev => no_http ev = true) t -> requests_of t = [].
Proof.
  induction 1 as [|ev t Hev _ IH]; [reflexivity|].
  unfold requests_of in *. cbn. destruct ev; try discriminate; exact IH.
Qed.


Lemma emits_search_in_database P wq sp :
  emits P (db_search_fn E wq) -> emits P (search_in_database E wq sp).
Proof.
  intros Hdb. unfold search_in_database.
  repeat first [apply emits_has_db | frame_step].
Qed.

Lemma search_in_database_found wq sp σ res :
  outcome (search_in_database E wq sp σ) = Ok res -> is_Some res.
Proof.
  unfold search_in_database. rewrite bind_has_db, bind_read_params.
  destruct (_ && _); cbn [py_assert]; [|rewrite bind_raise; discriminate].
  rewrite bind_ret, outcome_bind.
  destruct (outcome (db_search_fn E wq σ)) as [[found|]|e]; try discriminate.
  rewrite bool_decide_eq_true_2 by eauto. cbn [py_assert].
  rewrite bind_ret. intros [= <-]. eauto.
Qed.

(** The run of [search] whose [try] block ends normally. *)
Lemma search_run_hit query lang sp σ wq res :
  outcome (WikiQuery_init E query lang sp σ) = Ok wq ->
  let σ1 := final (WikiQuery_init E query lang sp σ) in
  outcome (search_in_database E wq sp σ1) = Ok res ->
  search E query lang sp σ
  = {| outcome := Ok res;
       final := final (search_in_database E wq sp σ1);
       trace := [ELog log_wiki INFO (Text "Searching started")]
                ++ trace (WikiQuery_init E query lang sp σ)
                ++ [ELog log_wiki INFO (About "Search query accepted" (q_query wq))]
                ++ trace (search_in_database E wq sp σ1)
                ++ [ELog log_wiki INFO (Timed "Result got in")] |}.
Proof.
  intros Hinit σ1 Hhit. unfold search.
  rewrite bind_log, (bind_run_ok _ _ _ _ Hinit). fold σ1.
  rewrite bind_log, bind_try_except.
  rewrite outcome_bind, final_bind, trace_bind, Hhit. cbn [ret outcome final trace].
  rewrite bind_log. unfold extend. cbn. now rewrite app_nil_r.
Qed.

(** X7: a cache hit ends the search. When the [try] block of
    [WikiSearcher.search] ends normally, [search] returns what the
    database searcher found, which is a result and never [None]; the
    call has sent no HTTP request and has written nothing to the
    database. *)
Theorem cache_hit_short_circuits query lang sp σ wq res :
  outcome (WikiQuery_init E query lang sp σ) = Ok wq ->
  let σ1 := final (WikiQuery_init E query lang sp σ) in
  outcome (search_in_database E wq sp σ1) = Ok res ->
  outcome (search E query lang sp σ) = Ok res
  ∧ is_Some res
  ∧ requests_of (trace (search E query lang sp σ)) = []
  ∧ Forall (fun ev => no_insert ev = true) (trace (search E query lang sp σ)).
Proof.
  intros Hinit σ1 Hhit.
  rewrite (search_run_hit query lang sp σ wq res Hinit Hhit). cbn [outcome trace].
  split; [reflexivity|]. split; [exact (search_in_database_found _ _ _ _ Hhit)|].
  split.
  - apply requests_of_no_http. rewrite !Forall_app. repeat split.
    + now apply Forall_singleton.
    + now apply emits_WikiQuery_init_quiet.
    + now apply Forall_singleton.
    + apply emits_search_in_database, emits_no_http_db_search_fn.
    + now apply Forall_singleton.
  - rewrite !Forall_app. repeat split.
    + now apply Forall_singleton.
    + now apply emits_WikiQuery_init_quiet.
    + now apply Forall_singleton.
    + apply emits_search_in_database, emits_no_insert_db_search_fn.
    + now apply Forall_singleton.
Qed.

Lemma bind_run {A B} (m : M DB A) (k : A -> M DB B) σ a σ' t :
  m σ = {| outcome := Ok a; final := σ'; trace := t |} ->
  bind m k σ = extend t (k a σ').
Proof. intros Hrun. unfold bind. now rewrite Hrun. Qed.

(** The run of [search] up to its handler, with the events so far. *)
Lemma search_run_handler query lang sp σ wq e :
  outcome (WikiQuery_init E query lang sp σ) = Ok wq ->
  let σ1 := final (WikiQuery_init E query lang sp σ) in
  outcome (search_in_database E wq sp σ1) = Raise e ->
  is_WikiDBExc e || is_AssertionError e = true ->
  let σ2 := final (search_in_database E wq sp σ1) in
  search E query lang sp σ
  = extend (events_before_handler E query lang sp wq σ)
      (bind (search_on_web E wq sp e)
         (fun '(returned, result) =>
            if returned : bool then ret result
            else bind (log log_wiki INFO (Timed "Result got in"))
                   (fun _ => ret result)) σ2).
Proof.
  intros Hinit σ1 Hmiss Hcatch σ2. unfold search, events_before_handler.
  rewrite bind_log, (bind_run_ok _ _ _ _ Hinit). fold σ1.
  rewrite bind_log, bind_try_except.
  rewrite outcome_bind, final_bind, trace_bind, Hmiss. fold σ2.
  rewrite Hcatch, !extend_extend. f_equal. now rewrite <- !app_assoc.
Qed.

Lemma events_before_handler_quiet P query lang sp wq σ :
  (∀ lg lvl msg, P (ELog lg lvl msg) = true) ->
  emits P (db_search_fn E wq) ->
  Forall (fun ev => P ev = true) (events_before_handler E query lang sp wq σ).
Proof.
  intros Hlog Hdb. unfold events_before_handler.
  rewrite !Forall_app. repeat split.
  - apply Forall_singleton, Hlog.
  - apply emits_WikiQuery_init_quiet, Hlog.
  - apply Forall_singleton, Hlog.
  - now apply emits_search_in_database.
Qed.

Lemma bind_handler_warning_events {B} (e : Exc) (k : unit -> M DB B) σ :
  bind (match e with
        | AssertionError msg =>
            if bool_decide (msg ≠ "") then log log_wiki WARNING (Text msg) else ret tt
        | _ => ret tt
        end) k σ = extend (handler_warning e) (k tt σ).
Proof.
  unfold handler_warning.
  destruct e; try (now rewrite bind_ret, extend_nil).
  case_bool_decide; [now rewrite bind_log|now rewrite bind_ret, extend_nil].
Qed.

Lemma handler_warning_quiet P (e : Exc) :
  (∀ lg lvl msg, P (ELog lg lvl msg) = true) ->
  Forall (fun ev => P ev = true) (handler_warning e).
Proof.
  intros HP. unfold handler_warning. destruct e; try constructor.
  case_bool_decide; repeat constructor. apply HP.
Qed.

(** The handler when the web searcher finds nothing. *)
Lemma search_on_web_nothing wq sp e σ :
  outcome (web_search E wq σ) = Ok None ->
  search_on_web E wq sp e σ
  = {| outcome := Ok (true, None);
       final := σ;
       trace := handler_warning e ++ trace (web_search E wq σ)
                ++ [ELog log_wiki WARNING (Text "Searchers not found anything")] |}.
Proof.
  intros Hweb. unfold search_on_web.
  rewrite bind_handler_warning_events, (bind_run_ok _ _ _ _ Hweb).
  rewrite keeps_state_web_search, bind_log. unfold extend. cbn.
  reflexivity.
Qed.

(** X8: finding nothing is not an error. When the database look-up is
    skipped or fails with a database exception and the web searcher
    returns [None], [search] returns [None] without raising; the state
    is the one the look-up left, the last event is the warning
    "Searchers not found anything" (the elapsed time is not logged),
    and nothing has been written to the database. *)
Theorem nothing_found_is_not_an_error query lang sp σ wq e :
  outcome (WikiQuery_init E query lang sp σ) = Ok wq ->
  let σ1 := final (WikiQuery_init E query lang sp σ) in
  outcome (search_in_database E wq sp σ1) = Raise e ->
  is_WikiDBExc e || is_AssertionError e = true ->
  let σ2 := final (search_in_database E wq sp σ1) in
  outcome (web_search E wq σ2) = Ok None ->
  outcome (search E query lang sp σ) = Ok None
  ∧ final (search E query lang sp σ) = σ2
  ∧ last (trace (search E query lang sp σ))
    = Some (ELog log_wiki WARNING (Text "Searchers not found anything"))
  ∧ Forall (fun ev => no_insert ev = true) (trace (search E query lang sp σ)).
Proof.
  intros Hinit σ1 Hmiss Hcatch σ2 Hweb.
  rewrite (search_run_handler query lang sp σ wq e Hinit Hmiss Hcatch). fold σ1 σ2.
  rewrite (bind_run _ _ _ _ _ _ (search_on_web_nothing wq sp e σ2 Hweb)).
  rewrite !outcome_extend, !final_extend, !trace_extend.
  cbn [outcome final trace ret]. rewrite ?app_nil_r.
  split; [reflexivity|]. split; [reflexivity|]. split.
  - rewrite !app_assoc. apply last_snoc.
  - rewrite !Forall_app. repeat split.
    + apply events_before_handler_quiet; [reflexivity|apply emits_no_insert_db_search_fn].
    + now apply handler_warning_quiet.
    + apply emits_no_insert_web_search.
    + now apply Forall_singleton.
Qed.

(** The handler when the web searcher finds a result that is not
    written back. *)
Lemma search_on_web_not_saved wq sp e σ found :
  outcome (web_search E wq σ) = Ok (Some found) ->
  db_searcher σ = None ∨ truthy (q_is_link wq) = true
  ∨ query_treatment (heap σ !!! sp) = treatment_without ->
  search_on_web E wq sp e σ
  = {| outcome := Ok (false, Some found);
       final := σ;
       trace := handler_warning e ++ trace (web_search E wq σ)
                ++ [ELog log_wiki WARNING (Text "Don`t save result in database")] |}.
Proof.
  intros Hweb Hskip. unfold search_on_web.
  rewrite bind_handler_warning_events, (bind_run_ok _ _ _ _ Hweb).
  rewrite keeps_state_web_search, bind_has_db, bind_read_params.
  assert (Hcond : negb (bool_decide (is_Some (db_searcher σ))) || truthy (q_is_link wq)
                  || bool_decide (query_treatment (heap σ !!! sp) = treatment_without) = true).
  { destruct Hskip as [Hdb|[Hlink|Ht]].
    - rewrite Hdb. rewrite bool_decide_eq_false_2 by (intros [? ?]; discriminate). reflexivity.
    - rewrite Hlink. now rewrite orb_true_r.
    - rewrite (bool_decide_eq_true_2 _ Ht). now rewrite orb_true_r. }
  rewrite Hcond, bind_log. unfold extend. cbn. reflexivity.
Qed.

(** The handler when the result has no related results: the write-back
    runs and saves nothing. *)
Lemma search_on_web_nothing_to_save wq sp e σ found d :
  outcome (web_search E wq σ) = Ok (Some found) ->
  db_searcher σ = Some d ->
  truthy (q_is_link wq) = false ->
  query_treatment (heap σ !!! sp) ≠ treatment_without ->
  simple_results_truthy found = false ->
  search_on_web E wq sp e σ
  = {| outcome := Ok (false, Some found);
       final := with_db σ (ready d);
       trace := handler_warning e ++ trace (web_search E wq σ) ++ setup_events d |}.
Proof.
  intros Hweb Hdb Hlink Ht Hfalsy. unfold search_on_web.
  rewrite bind_handler_warning_events, (bind_run_ok _ _ _ _ Hweb).
  rewrite keeps_state_web_search, bind_has_db, bind_read_params, Hdb, Hlink.
  rewrite (bool_decide_eq_true_2 (is_Some (Some d))) by eauto.
  rewrite (bool_decide_eq_false_2 _ Ht). cbn [negb orb].
  unfold save_result. unfold bind at 1.
  rewrite (orm_decorator_run _ _ _ Hdb). unfold save_result_inner. rewrite Hfalsy.
  rewrite outcome_extend, final_extend, trace_extend.
  cbn [ret outcome final trace]. rewrite app_nil_r.
  unfold extend. cbn [ret outcome final trace]. now rewrite app_nil_r.
Qed.

Lemma setup_events_no_insert (d : WikiDB DB) :
  Forall (fun ev => no_insert ev = true) (setup_events d).
Proof.
  unfold setup_events. destruct (db_configured d); [constructor|].
  destruct (db_drop_param d); now repeat constructor.
Qed.

(** X9: no write-back without need. A web result is returned as it is,
    and no row is inserted, when no database is connected, or the query
    is a link, or the query treatment is [without], or the result has
    no related results. *)
Theorem result_returned_without_write_back query lang sp σ wq e found :
  outcome (WikiQuery_init E query lang sp σ) = Ok wq ->
  let σ1 := final (WikiQuery_init E query lang sp σ) in
  outcome (search_in_database E wq sp σ1) = Raise e ->
  is_WikiDBExc e || is_AssertionError e = true ->
  let σ2 := final (search_in_database E wq sp σ1) in
  outcome (web_search E wq σ2) = Ok (Some found) ->
  db_searcher σ2 = None ∨ truthy (q_is_link wq) = true
  ∨ query_treatment (heap σ2 !!! sp) = treatment_without
  ∨ simple_results_truthy found = false ->
  outcome (search E query lang sp σ) = Ok (Some found)
  ∧ Forall (fun ev => no_insert ev = true) (trace (search E query lang sp σ)).
Proof.
  intros Hinit σ1 Hmiss Hcatch σ2 Hweb Hskip.
  rewrite (search_run_handler query lang sp σ wq e Hinit Hmiss Hcatch). fold σ1 σ2.
  assert (Hbefore : Forall (fun ev => no_insert ev = true)
                      (events_before_handler E query lang sp wq σ))
    by (apply events_before_handler_quiet; [reflexivity|apply emits_no_insert_db_search_fn]).
  pose proof (handler_warning_quiet no_insert e (fun _ _ _ => eq_refl)) as Hwarn.
  pose proof (emits_no_insert_web_search E wq σ2) as Hwebq.
  assert (Hcases :
            (db_searcher σ2 = None ∨ truthy (q_is_link wq) = true
             ∨ query_treatment (heap σ2 !!! sp) = treatment_without)
            ∨ (∃ d, db_searcher σ2 = Some d ∧ truthy (q_is_link wq) = false
                    ∧ query_treatment (heap σ2 !!! sp) ≠ treatment_without
                    ∧ simple_results_truthy found = false)).
  { destruct (db_searcher σ2) as [d|] eqn:Hdb; [|now left; left].
    destruct (truthy (q_is_link wq)) eqn:Hlink; [now left; right; left|].
    destruct (decide (query_treatment (heap σ2 !!! sp) = treatment_without)) as [Ht|Ht];
      [now left; right; right|].
    destruct Hskip as [?|[?|[?|Hfalsy]]]; try discriminate; try contradiction.
    right. exists d. auto. }
  destruct Hcases as [Hthree|(d & Hdb & Hlink & Ht & Hfalsy)].
  - rewrite (bind_run _ _ _ _ _ _ (search_on_web_not_saved wq sp e σ2 found Hweb Hthree)).
    rewrite bind_log, !outcome_extend, !trace_extend.
    cbn [outcome trace ret]. split; [reflexivity|].
    rewrite ?app_nil_r, !Forall_app. repeat split.
    + exact Hbefore.
    + exact Hwarn.
    + exact Hwebq.
    + now apply Forall_singleton.
    + now apply Forall_singleton.
  - rewrite (bind_run _ _ _ _ _ _
               (search_on_web_nothing_to_save wq sp e σ2 found d Hweb Hdb Hlink Ht Hfalsy)).
    rewrite bind_log, !outcome_extend, !trace_extend.
    cbn [outcome trace ret]. split; [reflexivity|].
    rewrite ?app_nil_r, !Forall_app. repeat split.
    + exact Hbefore.
    + exact Hwarn.
    + exact Hwebq.
    + apply setup_events_no_insert.
    + now apply Forall_singleton.
Qed.

End SearchPaths.

(** ** The set-up of the database *)

Section SetupFacts.

Context {DB : Type} `{!WikiDBOrm DB}.
Implicit Types σ : State DB.






End SetupFacts.

(** ** The requests and the outcomes of the web searchers *)

Section FetchFacts.

Context {DB : Type}.
Variable E : Externals.
Implicit Types σ : State DB.

(** The run of [get_response]. *)
Lemma get_response_run lg r σ :
  get_response E lg r σ
  = if bool_decide (status (http_get E r) ≠ 200)
    then {| outcome := Raise (WikiScraperExc WikiResNotReceived);
            final := σ;
            trace := [EHttp r; ELog lg ERROR (Text "Failed get response")] |}
    else {| outcome := Ok (http_get E r); final := σ; trace := [EHttp r] |}.
Proof.
  unfold get_response, session_get, check_status.
  rewrite bind_bind, bind_emit, bind_ret.
  case_bool_decide; [now rewrite bind_log|reflexivity].
Qed.

Lemma bind_get_response {B} lg r (k : Response -> M DB B) σ :
  bind (get_response E lg r) k σ
  = if bool_decide (status (http_get E r) ≠ 200)
    then {| outcome := Raise (WikiScraperExc WikiResNotReceived);
            final := σ;
            trace := [EHttp r; ELog lg ERROR (Text "Failed get response")] |}
    else extend [EHttp r] (k (http_get E r) σ).
Proof.
  unfold bind at 1. rewrite get_response_run. now case_bool_decide.
Qed.

Lemma requests_of_app (t u : list Event) :
  requests_of (t ++ u) = requests_of t ++ requests_of u.
Proof. apply omap_app. Qed.

(** The run of [fast_search]: its request and its outcome. *)
Lemma fast_search_run wq σ :
  requests_of (trace (fast_search E wq σ)) = [fast_request wq]
  ∧ final (fast_search E wq σ) = σ
  ∧ outcome (fast_search E wq σ)
    = (if bool_decide (status (http_get E (fast_request wq)) ≠ 200)
       then Raise (WikiScraperExc WikiResNotReceived)
       else match parse_page E (body_text (http_get E (fast_request wq))) with
            | Ok (key, title, summary) =>
                Ok (WikiResult_init (str_lower E) key title (q_lang wq) summary None)
            | Raise e => Raise e
            end).
Proof.
  assert (Hreq : {| req_url := if negb (truthy (q_is_link wq))
                               then wiki_page_url (q_lang wq) (q_query wq)
                               else q_query wq;
                    req_params := None |} = fast_request wq).
  { unfold fast_request. now destruct (truthy (q_is_link wq)). }
  unfold fast_search. rewrite bind_log, Hreq.
  rewrite bind_get_response, trace_extend, outcome_extend, final_extend.
  case_bool_decide; cbn [outcome final trace]; [now split|].
  rewrite bind_log, !trace_extend, !outcome_extend, !final_extend.
  destruct (parse_page E (body_text (http_get E (fast_request wq))))
    as [[[key title] summary]|e] eqn:Hparse.
  - rewrite bind_lift_ok. now split.
  - rewrite bind_lift_raise. now split.
Qed.

(** X11: [fast_search] sends exactly one request, whatever happens: to
    the query itself when it is a link, to the article address of the
    key otherwise.  An answer other than 200 raises
    [WikiResNotReceived]; otherwise the outcome is that of the parser,
    and a result carries the language of the query and no related
    results. *)
Theorem fast_search_one_request wq σ :
  let response := http_get E (fast_request wq) in
  requests_of (trace (fast_search E wq σ)) = [fast_request wq]
  ∧ outcome (fast_search E wq σ)
    = (if bool_decide (status response ≠ 200)
       then Raise (WikiScraperExc WikiResNotReceived)
       else match parse_page E (body_text response) with
            | Ok (key, title, summary) =>
                Ok (WikiResult_init (str_lower E) key title (q_lang wq) summary None)
            | Raise e => Raise e
            end)
  ∧ ∀ result, outcome (fast_search E wq σ) = Ok result ->
              res_simple_results result = None ∧ res_lang result = q_lang wq.
Proof.
  cbn zeta. destruct (fast_search_run wq σ) as (Hreqs & _ & Hout).
  split; [exact Hreqs|]. split; [exact Hout|].
  intros result. rewrite Hout. case_bool_decide; [discriminate|].
  destruct (parse_page E _) as [[[key title] summary]|e]; [|discriminate].
  intros [= <-]. now split.
Qed.

End FetchFacts.

Section ApiSearchFacts.

Context {DB : Type}.
Variable E : Externals.
Implicit Types σ : State DB.

Lemma kept_positive (limit : Z) (page : ApiPage) (rest : list ApiPage) :
  ∃ n, kept limit (page :: rest) = S n.
Proof.
  unfold kept. case_bool_decide.
  - exists (Z.to_nat (limit - 1)). lia.
  - now exists (length rest).
Qed.

(** The run of [__api_search_page]. *)
Lemma api_search_page_eq wq σ :
  let params := heap σ !!! q_search_params wq in
  let limit := number_of_results params * 6 in
  let title_request := facet_request wq "title" limit in
  let content_request := facet_request wq "page" limit in
  let title_pages := body_pages (http_get E title_request) in
  let content_pages := body_pages (http_get E content_request) in
  let pages := chosen_pages (priority params) title_pages content_pages in
  api_search_page E wq σ
  = extend [EHttp title_request; EHttp content_request]
      (if bool_decide (status (http_get E title_request) ≠ 200)
          || bool_decide (status (http_get E content_request) ≠ 200)
       then {| outcome := Raise (WikiScraperExc WikiResNotReceived);
               final := σ;
               trace := [ELog log_api_scraper ERROR (Text "Failed get response")] |}
       else extend (trace (choose_pages (DB:=DB) (priority params)
                             title_pages content_pages σ))
              match pages with
              | [] =>
                  {| outcome := Raise (WikiScraperExc WikiNoneSearchResults);
                     final := σ;
                     trace := [ELog log_api_scraper ERROR
                                 (Text "Not received any results")] |}
              | _ :: _ =>
                  {| outcome := Ok (candidates limit pages);
                     final := σ;
                     trace := [ELog log_api_scraper INFO
                                 (Timed "Search results received in")] |}
              end).
Proof.
  intros params limit title_request content_request title_pages content_pages pages.
  unfold api_search_page. rewrite bind_read_params.
  fold params. rewrite request_limit_six. fold limit.
  unfold session_get. rewrite !bind_bind, bind_emit, bind_ret.
  rewrite !bind_bind, bind_emit, bind_ret.
  fold title_request content_request.
  rewrite extend_extend. f_equal.
  unfold check_status at 1.
  case_bool_decide as Ht; cbn [orb].
  { now rewrite !bind_bind, bind_log, bind_raise. }
  rewrite bind_ret. unfold check_status.
  case_bool_decide as Hc.
  { now rewrite !bind_bind, bind_log, bind_raise. }
  rewrite bind_ret.
  destruct (choose_pages_run (DB:=DB) (priority params) title_pages content_pages σ)
    as (Ho & Hf & Hr).
  fold title_pages content_pages.
  rewrite (bind_run_ok _ _ _ _ Ho), Hf. fold pages. f_equal.
  destruct pages as [|page rest] eqn:Hp.
  - reflexivity.
  - rewrite collect_pages_take by lia. cbn zeta.
    unfold candidates, kept. rewrite Z.sub_0_r. reflexivity.
Qed.

Lemma api_search_page_run wq σ :
  let params := heap σ !!! q_search_params wq in
  let limit := number_of_results params * 6 in
  let title_request := facet_request wq "title" limit in
  let content_request := facet_request wq "page" limit in
  let pages := chosen_pages (priority params)
                 (body_pages (http_get E title_request))
                 (body_pages (http_get E content_request)) in
  requests_of (trace (api_search_page E wq σ)) = [title_request; content_request]
  ∧ final (api_search_page E wq σ) = σ
  ∧ outcome (api_search_page E wq σ)
    = if bool_decide (status (http_get E title_request) ≠ 200)
         || bool_decide (status (http_get E content_request) ≠ 200)
      then Raise (WikiScraperExc WikiResNotReceived)
      else match pages with
           | [] => Raise (WikiScraperExc WikiNoneSearchResults)
           | _ :: _ => Ok (candidates limit pages)
           end.
Proof.
  intros params limit title_request content_request pages.
  rewrite api_search_page_eq. fold params limit title_request content_request pages.
  rewrite trace_extend, final_extend, outcome_extend.
  destruct (choose_pages_run (DB:=DB) (priority params)
              (body_pages (http_get E title_request))
              (body_pages (http_get E content_request)) σ) as (Ho & Hf & Hr).
  destruct (_ || _); [now cbn|].
  rewrite trace_extend, final_extend, outcome_extend, !requests_of_app, Hr.
  now destruct pages.
Qed.

Lemma candidates_head limit (page : ApiPage) (rest : list ApiPage) :
  keys (candidates limit (page :: rest)) !! 0%nat = Some (api_key page)
  ∧ titles (candidates limit (page :: rest)) !! 0%nat = Some (api_title page).
Proof.
  unfold candidates. destruct (kept_positive limit page rest) as [n ->]. now cbn.
Qed.

(** The run of [api_search] after its candidates are there. *)
Lemma api_search_eq wq σ :
  api_search E wq σ
  = extend [ELog log_api_scraper INFO (Text "API scraper started")]
      match outcome (api_search_page E wq σ) with
      | Raise e =>
          {| outcome := Raise e; final := σ; trace := trace (api_search_page E wq σ) |}
      | Ok found =>
          extend (trace (api_search_page E wq σ))
            match keys found !! 0%nat, titles found !! 0%nat with
            | Some key, Some title =>
                let request := page_request (q_lang wq) key in
                if bool_decide (status (http_get E request) ≠ 200)
                then {| outcome := Raise (WikiScraperExc WikiResNotReceived);
                        final := σ;
                        trace := [EHttp request;
                                  ELog log_api_scraper ERROR (Text "Failed get response")] |}
                else {| outcome :=
                          match parse_summary E (body_text (http_get E request)) with
                          | Ok summary =>
                              Ok (WikiResult_init (str_lower E) key title (q_lang wq) summary
                                    (Some (get_links found (q_lang wq))))
                          | Raise e => Raise e
                          end;
                        final := σ;
                        trace := [EHttp request;
                                  ELog log_api_scraper INFO (Timed "Page received in")] |}
            | _, _ => {| outcome := Raise IndexError; final := σ; trace := [] |}
            end
      end.
Proof.
  unfold api_search. rewrite bind_log. f_equal.
  destruct (api_search_page_run wq σ) as (_ & Hfinal & _).
  destruct (outcome (api_search_page E wq σ)) as [found|e] eqn:Hpage.
  - rewrite (bind_run_ok _ _ _ _ Hpage), Hfinal. f_equal.
    unfold py_index.
    destruct (keys found !! 0%nat) as [key|]; [|reflexivity].
    rewrite bind_ret.
    destruct (titles found !! 0%nat) as [title|]; [|reflexivity].
    rewrite bind_ret. unfold api_get_page.
    rewrite bind_bind, bind_get_response. fold (page_request (q_lang wq) key).
    cbn zeta. case_bool_decide; [reflexivity|].
    cbn beta. rewrite !bind_bind, bind_log, bind_ret.
    destruct (parse_summary E _) as [summary|e]; reflexivity.
  - now rewrite (bind_run_raise _ _ _ _ Hpage), Hfinal.
Qed.

(** X12: the requests of [api_search], in order: always the two facet
    requests, by title and by content, each with the limit
    [number_of_results * 6]; then, only when both were answered with
    200 and a candidate was found, one request for the article of the
    first candidate of the chosen facet.  The state is left as it
    was. *)
Theorem api_search_requests wq σ :
  let params := heap σ !!! q_search_params wq in
  let limit := number_of_results params * 6 in
  let title_request := facet_request wq "title" limit in
  let content_request := facet_request wq "page" limit in
  let pages := chosen_pages (priority params)
                 (body_pages (http_get E title_request))
                 (body_pages (http_get E content_request)) in
  requests_of (trace (api_search E wq σ))
  = [title_request; content_request]
    ++ (if bool_decide (status (http_get E title_request) ≠ 200)
           || bool_decide (status (http_get E content_request) ≠ 200)
        then []
        else match pages with
             | page :: _ => [page_request (q_lang wq) (api_key page)]
             | [] => []
             end)
  ∧ final (api_search E wq σ) = σ.
Proof.
  intros params limit title_request content_request pages.
  destruct (api_search_page_run wq σ) as (Hreqs & _ & Hout).
  fold params limit title_request content_request pages in Hreqs, Hout.
  rewrite api_search_eq, trace_extend, final_extend, requests_of_app, Hout.
  destruct (_ || _); cbn [trace final].
  { now rewrite Hreqs. }
  destruct pages as [|page rest]; cbn [trace final].
  { now rewrite Hreqs. }
  rewrite trace_extend, final_extend, requests_of_app, Hreqs.
  destruct (candidates_head limit page rest) as [-> ->]. cbn zeta.
  now case_bool_decide.
Qed.

(** X13: when a facet request is answered with another status than 200,
    [api_search] raises [WikiResNotReceived]; when both facets are
    empty it raises [WikiNoneSearchResults]; and the orchestrator, when
    it goes to the API searcher directly, then returns [None] and raises
    nothing. *)
Theorem api_search_nothing_usable wq σ :
  let params := heap σ !!! q_search_params wq in
  let limit := number_of_results params * 6 in
  let title_request := facet_request wq "title" limit in
  let content_request := facet_request wq "page" limit in
  let refused := bool_decide (status (http_get E title_request) ≠ 200)
                 || bool_decide (status (http_get E content_request) ≠ 200) in
  refused = true
  ∨ (body_pages (http_get E title_request) = []
     ∧ body_pages (http_get E content_request) = []) ->
  outcome (api_search E wq σ)
  = Raise (WikiScraperExc (if refused then WikiResNotReceived else WikiNoneSearchResults))
  ∧ (bool_decide (mode params = mode_fast) || truthy (q_is_link wq) = false ->
     outcome (web_search E wq σ) = Ok None).
Proof.
  intros params limit title_request content_request refused Hcase.
  destruct (api_search_page_run wq σ) as (_ & _ & Hout).
  fold params limit title_request content_request refused in Hout.
  assert (Hpage : outcome (api_search_page E wq σ)
                  = Raise (WikiScraperExc (if refused then WikiResNotReceived
                                           else WikiNoneSearchResults))).
  { rewrite Hout. destruct refused; [reflexivity|].
    destruct Hcase as [?|[-> ->]]; [discriminate|].
    unfold chosen_pages. now case_bool_decide. }
  assert (Hapi : outcome (api_search E wq σ)
                 = Raise (WikiScraperExc (if refused then WikiResNotReceived
                                          else WikiNoneSearchResults))).
  { now rewrite api_search_eq, outcome_extend, Hpage. }
  split; [exact Hapi|].
  intros Hfast. pose proof (web_search_outcome E wq σ) as Hweb. cbn zeta in Hweb.
  fold params in Hweb. now rewrite Hweb, Hfast, Hapi.
Qed.


Lemma api_search_final wq σ : final (api_search E wq σ) = σ.
Proof.
  rewrite api_search_eq, final_extend.
  destruct (outcome (api_search_page E wq σ)) as [found|e]; [|reflexivity].
  rewrite final_extend.
  destruct (keys found !! 0%nat), (titles found !! 0%nat); try reflexivity.
  cbn zeta. now case_bool_decide.
Qed.

(** The API attempt of the orchestrator sends what [api_search] sends. *)
Lemma api_attempt_requests wq σ :
  requests_of
    (trace (try_except
              (bind (api_search E wq) (fun result => ret (Some result)))
              is_WikiScraperExc
              (fun _ =>
                 bind (log log_api_scraper WARNING (Text "API scraper not found anything"))
                   (fun _ => ret None)) σ))
  = requests_of (trace (api_search E wq σ)).
Proof.
  rewrite trace_try_except, outcome_bind, trace_bind.
  destruct (outcome (api_search E wq σ)) as [r|e]; cbn [ret outcome trace].
  - now rewrite app_nil_r.
  - destruct (is_WikiScraperExc e); [|reflexivity].
    rewrite requests_of_app, bind_log. cbn. now rewrite app_nil_r.
Qed.

(** X15: the requests of the orchestrator. In the fast mode or for a
    link the first request is the one of the fast searcher, and the
    requests of the API searcher follow only when the fast searcher
    failed with a scraper exception or an assertion; in every other
    case the requests are exactly those of the API searcher. *)
Theorem web_search_requests wq σ :
  let fast_first := bool_decide (mode (heap σ !!! q_search_params wq) = mode_fast)
                    || truthy (q_is_link wq) in
  let api_needed :=
    if fast_first
    then match outcome (fast_search E wq σ) with
         | Ok _ => false
         | Raise e => is_WikiScraperExc e || is_AssertionError e
         end
    else true in
  requests_of (trace (web_search E wq σ))
  = (if fast_first then [fast_request wq] else [])
    ++ (if api_needed then requests_of (trace (api_search E wq σ)) else []).
Proof.
  cbn zeta. destruct (fast_search_run E wq σ) as (Hfreq & Hffinal & _).
  unfold web_search. rewrite bind_log, trace_extend, requests_of_app.
  cbn [requests_of omap app].
  match goal with
  | |- context [bind (try_except ?m ?c ?h) ?k σ] =>
      set (attempt := try_except m c h); set (rest := k)
  end.
  assert (Hrest : requests_of (trace (bind attempt rest σ))
                  = requests_of (trace (attempt σ))).
  { rewrite trace_bind. destruct (outcome (attempt σ)) as [r|e]; [|reflexivity].
    rewrite requests_of_app. subst rest. cbn beta.
    destruct r; rewrite bind_log; cbn; now rewrite app_nil_r. }
  rewrite Hrest. subst attempt. clear Hrest rest.
  rewrite trace_try_except, outcome_bind, final_bind, trace_bind.
  cbn [read_params outcome final trace app].
  destruct (_ || _) eqn:Hfast; cbn [py_assert].
  - rewrite bind_ret, bind_log, outcome_extend, final_extend, trace_extend.
    rewrite outcome_bind, final_bind, trace_bind.
    destruct (outcome (fast_search E wq σ)) as [r|e] eqn:Hf; cbn [ret outcome final trace].
    + rewrite !requests_of_app, Hfreq. cbn. reflexivity.
    + rewrite Hffinal.
      destruct (is_WikiScraperExc e || is_AssertionError e) eqn:Hc.
      * rewrite !requests_of_app, Hfreq. cbn [requests_of omap app].
        rewrite trace_bind.
        assert (Hlogs : ∀ (m : M DB unit),
                   m = match e with
                       | AssertionError msg => log log_scraper INFO (Text msg)
                       | _ => bind (log log_fast_scraper WARNING
                                      (Text "Fast scraper not found anything"))
                                (fun _ => log log_scraper WARNING
                                            (Text "Scraper changed on API"))
                       end ->
                   outcome (m σ) = Ok tt ∧ final (m σ) = σ
                   ∧ requests_of (trace (m σ)) = []).
        { intros m ->. destruct e; now cbn. }
        edestruct Hlogs as (-> & -> & Hnone); [reflexivity|].
        rewrite requests_of_app, Hnone, api_attempt_requests. reflexivity.
      * rewrite !requests_of_app, Hfreq. cbn. reflexivity.
  - rewrite bind_raise. cbn [raise outcome final trace is_WikiScraperExc is_AssertionError orb].
    rewrite bind_log, trace_extend, !requests_of_app, api_attempt_requests.
    reflexivity.
Qed.

End ApiSearchFacts.

(** ** The look-up in the database *)

Section LookupFacts.

Context {DB : Type} `{!WikiDBOrm DB}.
Variable E : Externals.
Implicit Types σ : State DB.

Import PyStr PyStrFacts.

Lemma split_go_plain (key : string) :
  has_char "/" key = false -> split_go "/" 0 key = (key, []).
Proof.
  intros Hkey. pose proof (split_go_through "/" "" key "" Hkey) as Hgo.
  rewrite append_empty_r in Hgo. rewrite Hgo. cbn. now rewrite append_empty_r.
Qed.

Lemma last_cons_Some {A} (x : A) (l : list A) (y : A) :
  last l = Some y -> last (x :: l) = Some y.
Proof. destruct l; [discriminate|auto]. Qed.

(** The text after the last slash is the last chunk. *)
Lemma split_last_segment (base key : string) :
  has_char "/" key = false ->
  last (split "/" (base +:+ "/" +:+ key)) = Some key.
Proof.
  intros Hkey. unfold split.
  assert (Hgo : ∃ cur rest, split_go "/" 0 (base +:+ "/" +:+ key) = (cur, rest)
                            ∧ last rest = Some key).
  { induction base as [|x base (cur & rest & IH & Hlast)].
    - rewrite append_empty_l, append_cons, append_empty_l.
      rewrite split_go_match by apply prefix_one_char.
      cbn [String.length pred]. rewrite split_go_plain by assumption.
      now eexists _, _.
    - rewrite append_cons.
      destruct (String.prefix "/" (String x (base +:+ "/" +:+ key))) eqn:Hp.
      + rewrite split_go_match by assumption. cbn [String.length pred].
        rewrite IH. eexists _, _. split; [reflexivity|].
        now apply last_cons_Some.
      + rewrite split_go_no_match by assumption. rewrite IH.
        now eexists _, _. }
  destruct Hgo as (cur & rest & -> & Hlast). now apply last_cons_Some.
Qed.

Lemma db_ops_of_app (t u : list Event) : db_ops_of (t ++ u) = db_ops_of t ++ db_ops_of u.
Proof. apply omap_app. Qed.

(** The run of [__search] after its select. *)
Lemma db_search_inner_select wq σ d op (select : DB -> Outcome (option WikiDBPages)) :
  db_searcher σ = Some d ->
  (if truthy (q_is_link wq)
   then ∃ key, last (split "/" (q_query wq)) = Some key
               ∧ op = OpSelectPageByKey key (q_lang wq)
               ∧ select = select_page_by_key key (q_lang wq)
   else op = OpSelectPageByQuery (q_query wq) (q_lang wq)
        ∧ select = select_page_by_query (q_query wq) (q_lang wq)) ->
  db_search_inner E wq σ
  = {| outcome :=
         match select (db_store d) with
         | Ok (Some page) =>
             Ok (Some (WikiResult_init (str_lower E) (page_key page) (page_title page)
                         (page_lang page) (page_summary page)
                         (simple_results_converter page
                            (mode (heap σ !!! q_search_params wq)))))
         | Ok None => Ok None
         | Raise e => Raise e
         end;
       final := σ;
       trace :=
         [ELog log_db INFO (Text "Searching in database started"); EDb op]
         ++ match select (db_store d) with
            | Ok (Some _) => [ELog log_db INFO (Timed "Page found in database in")]
            | Ok None => [ELog log_db WARNING (Text "Page not found in database")]
            | Raise _ => []
            end |}.
Proof.
  intros Hdb Hsel. unfold db_search_inner. rewrite bind_log.
  assert (Hrun : ∀ B (k : option WikiDBPages -> M DB B),
             bind (if truthy (q_is_link wq)
                   then bind (py_last (split "/" (q_query wq)))
                          (fun key => orm_select (OpSelectPageByKey key (q_lang wq))
                                        (select_page_by_key key (q_lang wq)))
                   else orm_select (OpSelectPageByQuery (q_query wq) (q_lang wq))
                          (select_page_by_query (q_query wq) (q_lang wq))) k σ
             = extend [EDb op] (match select (db_store d) with
                                | Ok a => k a σ
                                | Raise e => raise e σ
                                end)).
  { intros B k. destruct (truthy (q_is_link wq)).
    - destruct Hsel as (key & Hlast & -> & ->).
      unfold py_last. rewrite Hlast, bind_bind, bind_ret.
      now rewrite (bind_orm_select _ _ _ _ _ Hdb).
    - destruct Hsel as [-> ->]. now rewrite (bind_orm_select _ _ _ _ _ Hdb). }
  cbn zeta. rewrite Hrun.
  destruct (select (db_store d)) as [[page|]|e]; reflexivity.
Qed.

(** X16: a cached row becomes the result. For a query that is not a
    link, [__search] performs exactly one database operation, the
    select by the query key and the language; when it answers with a
    row, the result has the key, title, language and summary of that
    row, the article address of the row's language and key, and, outside
    the default mode, no related results. *)
Theorem cached_row_becomes_result wq σ d page :
  db_searcher σ = Some d ->
  truthy (q_is_link wq) = false ->
  select_page_by_query (q_query wq) (q_lang wq) (db_store d) = Ok (Some page) ->
  ∃ result,
    outcome (db_search_inner E wq σ) = Ok (Some result)
    ∧ res_key result = page_key page
    ∧ res_title result = page_title page
    ∧ res_lang result = page_lang page
    ∧ res_summary result = page_summary page
    ∧ res_url result = wiki_page_url (page_lang page) (page_key page)
    ∧ (mode (heap σ !!! q_search_params wq) ≠ mode_default ->
       res_simple_results result = None)
    ∧ db_ops_of (trace (db_search_inner E wq σ))
      = [OpSelectPageByQuery (q_query wq) (q_lang wq)].
Proof.
  intros Hdb Hlink Hrow.
  rewrite (db_search_inner_select wq σ d (OpSelectPageByQuery (q_query wq) (q_lang wq))
             (select_page_by_query (q_query wq) (q_lang wq)) Hdb)
    by (rewrite Hlink; now split).
  rewrite Hrow. cbn [outcome trace]. eexists. split; [reflexivity|].
  cbn [WikiResult_init res_key res_title res_lang res_summary res_url res_simple_results].
  repeat (split; [reflexivity|]). split; [|reflexivity].
  intros Hmode. unfold simple_results_converter.
  now rewrite bool_decide_eq_false_2.
Qed.

(** X17: a link is looked up by its last segment. For a link query
    [base/key], [__search] performs exactly one database operation, the
    select by [key] and the language; a row gives a result with the
    row's key, no row gives [None], and a failure of the select is
    raised. *)
Theorem link_lookup_by_last_segment wq σ d base key :
  db_searcher σ = Some d ->
  truthy (q_is_link wq) = true ->
  q_query wq = base +:+ "/" +:+ key ->
  has_char "/" key = false ->
  db_ops_of (trace (db_search_inner E wq σ)) = [OpSelectPageByKey key (q_lang wq)]
  ∧ match select_page_by_key key (q_lang wq) (db_store d) with
    | Ok (Some page) =>
        ∃ result, outcome (db_search_inner E wq σ) = Ok (Some result)
                  ∧ res_key result = page_key page
    | Ok None => outcome (db_search_inner E wq σ) = Ok None
    | Raise e => outcome (db_search_inner E wq σ) = Raise e
    end.
Proof.
  intros Hdb Hlink Hquery Hkey.
  rewrite (db_search_inner_select wq σ d (OpSelectPageByKey key (q_lang wq))
             (select_page_by_key key (q_lang wq)) Hdb).
  2: { rewrite Hlink, Hquery. exists key. split; [|now split].
       now apply split_last_segment. }
  cbn [outcome trace].
  destruct (select_page_by_key key (q_lang wq) (db_store d)) as [[page|]|e];
    (split; [reflexivity|]); [|reflexivity..].
  eexists. split; reflexivity.
Qed.




End LookupFacts.

(** ** The write-back on the way out *)

Section WriteBack.

Context {DB : Type} `{!WikiDBOrm DB}.
Variable E : Externals.
Implicit Types σ : State DB.

Lemma bind_after_events {A B} (m m' : M DB A) (k : A -> M DB B) σ t :
  m σ = extend t (m' σ) -> bind m k σ = extend t (bind m' k σ).
Proof.
  intros Hrun. unfold bind. rewrite Hrun.
  destruct (m' σ) as [[a|e] σ' t']; cbn [extend outcome final trace]; [|reflexivity].
  now rewrite extend_extend.
Qed.

(** The handler when the result is written back. *)
Lemma search_on_web_saving wq sp e σ found d :
  outcome (web_search E wq σ) = Ok (Some found) ->
  db_searcher σ = Some d ->
  truthy (q_is_link wq) = false ->
  query_treatment (heap σ !!! sp) ≠ treatment_without ->
  search_on_web E wq sp e σ
  = extend (handler_warning e ++ trace (web_search E wq σ))
      (bind (save_result E (q_query wq) found) (fun _ => ret (false, Some found)) σ).
Proof.
  intros Hweb Hdb Hlink Ht. unfold search_on_web.
  rewrite bind_handler_warning_events, (bind_run_ok _ _ _ _ Hweb).
  rewrite keeps_state_web_search, bind_has_db, bind_read_params, Hdb, Hlink.
  rewrite (bool_decide_eq_true_2 (is_Some (Some d))) by eauto.
  rewrite (bool_decide_eq_false_2 _ Ht). cbn [negb orb].
  now rewrite extend_extend.
Qed.

(** The run of [search] that ends with the write-back. *)
Lemma search_run_saved query lang sp σ wq e found d :
  outcome (WikiQuery_init E query lang sp σ) = Ok wq ->
  let σ1 := final (WikiQuery_init E query lang sp σ) in
  outcome (search_in_database E wq sp σ1) = Raise e ->
  is_WikiDBExc e || is_AssertionError e = true ->
  let σ2 := final (search_in_database E wq sp σ1) in
  outcome (web_search E wq σ2) = Ok (Some found) ->
  db_searcher σ2 = Some d ->
  truthy (q_is_link wq) = false ->
  query_treatment (heap σ2 !!! sp) ≠ treatment_without ->
  outcome (save_result E (q_query wq) found σ2) = Ok tt ->
  search E query lang sp σ
  = {| outcome := Ok (Some found);
       final := final (save_result E (q_query wq) found σ2);
       trace := events_before_handler E query lang sp wq σ
                ++ (handler_warning e ++ trace (web_search E wq σ2))
                ++ trace (save_result E (q_query wq) found σ2)
                ++ [ELog log_wiki INFO (Timed "Result got in")] |}.
Proof.
  intros Hinit σ1 Hmiss Hcatch σ2 Hweb Hdb Hlink Ht Hsave.
  rewrite (search_run_handler E query lang sp σ wq e Hinit Hmiss Hcatch). fold σ1 σ2.
  rewrite (bind_after_events _ _ _ _ _
             (search_on_web_saving wq sp e σ2 found d Hweb Hdb Hlink Ht)).
  rewrite bind_bind, (bind_run_ok _ _ _ _ Hsave), bind_ret, bind_log.
  unfold extend, ret. cbn [outcome final trace]. now rewrite app_nil_r.
Qed.

(** X19: a saved result is returned. When the web searcher finds a
    result for a query that is not a link, a database is connected, the
    treatment is not "without" and the write-back ends normally,
    [search] returns that result, in the state the write-back left, and
    its last event is the elapsed-time entry "Result got in". *)
Theorem result_returned_after_write_back query lang sp σ wq e found d :
  outcome (WikiQuery_init E query lang sp σ) = Ok wq ->
  let σ1 := final (WikiQuery_init E query lang sp σ) in
  outcome (search_in_database E wq sp σ1) = Raise e ->
  is_WikiDBExc e || is_AssertionError e = true ->
  let σ2 := final (search_in_database E wq sp σ1) in
  outcome (web_search E wq σ2) = Ok (Some found) ->
  db_searcher σ2 = Some d ->
  truthy (q_is_link wq) = false ->
  query_treatment (heap σ2 !!! sp) ≠ treatment_without ->
  outcome (save_result E (q_query wq) found σ2) = Ok tt ->
  outcome (search E query lang sp σ) = Ok (Some found)
  ∧ final (search E query lang sp σ) = final (save_result E (q_query wq) found σ2)
  ∧ last (trace (search E query lang sp σ))
    = Some (ELog log_wiki INFO (Timed "Result got in")).
Proof.
  intros Hinit σ1 Hmiss Hcatch σ2 Hweb Hdb Hlink Ht Hsave.
  rewrite (search_run_saved query lang sp σ wq e found d
             Hinit Hmiss Hcatch Hweb Hdb Hlink Ht Hsave).
  rewrite trace_run. cbn [outcome final].
  split; [reflexivity|]. split; [reflexivity|].
  rewrite !app_assoc. apply last_snoc.
Qed.

End WriteBack.

(** ** The round trip of write-back and look-up *)

Section QueryAgain.

Context {DB : Type} `{!WikiDBOrm DB}.
Variable E : Externals.
Implicit Types σ : State DB.




End QueryAgain.

Section ResultLanguage.

Context {DB : Type}.
Variable E : Externals.
Implicit Types σ : State DB.




End ResultLanguage.

Section RoundTrip.
Import ListStore.








End RoundTrip.

Section RepeatedSearch.
Import ListStore.

Variable E : Externals.
Implicit Types σ : State Store.



End RepeatedSearch.

(** ** The code on concrete inputs *)

(** A membership in an explicit list of events. *)
Ltac in_list :=
  vm_compute;
  repeat first [ apply list_elem_of_here | apply list_elem_of_further ].

Lemma C9_link_recognised_witness :
  ∃ q, outcome (WikiQuery_init Sample.env "https://en.wikipedia.org/wiki/Gravity" "ru" 0%nat
                  (Sample.state (None : option (WikiDB ListStore.Store)))) = Ok q
       ∧ q_is_link q = Some true
       ∧ q_query q = "https://en.wikipedia.org/wiki/Gravity"
       ∧ q_lang q = "en".
Proof.
  refine (C9_link_recognised Sample.env _ "ru" 0%nat ["en"; "wikipedia"; "org"]
            "/wiki/Gravity" _ _).
  - split.
    + repeat constructor.
    + right. exists "wiki/Gravity". reflexivity.
  - right. exists "en", "org". reflexivity.
Defined.

Lemma C2_clean_raises_on_stop_word_witness :
  outcome (clean Sample.env "what is entropy" "en" 0%nat (Some false)
             (Sample.state (None : option (WikiDB ListStore.Store)))) = Raise TypeError.
Proof.
  apply (C2_clean_raises_on_stop_word Sample.env _ "what is entropy" "en" 0%nat (Some false)
           ["what"; "is"; "entropy"] "what").
  - reflexivity.
  - vm_compute. reflexivity.
  - vm_compute. reflexivity.
  - apply list_elem_of_here.
  - in_list.
Defined.

Lemma C5_api_search_page_witness :
  let σ := Sample.state (None : option (WikiDB ListStore.Store)) in
  let wq := Sample.query_of "Entropy" in
  requests_of (trace (api_search_page Sample.env wq σ))
  = [facet_request wq "title" 6; facet_request wq "page" 6]
  ∧ outcome (api_search_page Sample.env wq σ)
    = Ok {| titles := api_title <$> Sample.entropy_pages;
            keys := api_key <$> Sample.entropy_pages |}.
Proof.
  intros σ wq.
  destruct (C5_api_search_page_requests_and_cut Sample.env σ wq) as (Hreq & _ & _ & Hout).
  - reflexivity.
  - reflexivity.
  - vm_compute. discriminate.
  - split; [exact Hreq|exact Hout].
Defined.

(** C5 as stated fails: with [number_of_results = 1] the three
    candidates of the chosen facet are all kept. *)
Lemma C5_counterexample :
  let σ := Sample.state (None : option (WikiDB ListStore.Store)) in
  number_of_results (heap σ !!! 0%nat) = 1
  ∧ ∃ r, outcome (api_search_page Sample.env (Sample.query_of "Entropy") σ) = Ok r
         ∧ length (titles r) = 3%nat.
Proof.
  split; [vm_compute; reflexivity|].
  eexists. split; [vm_compute; reflexivity|reflexivity].
Qed.


Lemma C1_write_back_failure_witness :
  let σ := Sample.state (Some Sample.readonly_db) in
  outcome (search Sample.env "Entropy" "en" 0%nat σ)
  = Raise (DBAPIError ReadOnlyStore.refusal)
  ∧ ELog log_db CRITICAL (About "Failed to save page to database:" ReadOnlyStore.refusal)
      ∈ trace (search Sample.env "Entropy" "en" 0%nat σ).
Proof.
  intros σ.
  eapply (C1_write_back_failure_reaches_caller Sample.env "Entropy" "en" 0%nat σ).
  - vm_compute. reflexivity.
  - vm_compute. reflexivity.
  - reflexivity.
  - vm_compute. reflexivity.
  - vm_compute. reflexivity.
  - reflexivity.
  - vm_compute. discriminate.
  - reflexivity.
  - left. split; [reflexivity|]. split; [eexists; reflexivity|reflexivity].
Defined.

(** C1 as stated fails: the web path produced a result, the write-back
    was attempted, and [search] raises instead of returning the result. *)
Lemma C1_counterexample :
  let r := search Sample.env "Entropy" "en" 0%nat (Sample.state (Some Sample.readonly_db)) in
  ELog log_scraper INFO (Timed "Scraping finished in") ∈ trace r
  ∧ EDb (OpAddPage "Entropy" "en") ∈ trace r
  ∧ outcome r = Raise (DBAPIError ReadOnlyStore.refusal).
Proof.
  cbn zeta. split; [in_list|split; [in_list|vm_compute; reflexivity]].
Qed.

Lemma C10_link_query_switches_cache_off_witness :
  let σ := Sample.state (Some Sample.fresh_db) in
  let first := search Sample.env "https://en.wikipedia.org/wiki/Gravity" "en"
                 default_search_params σ in
  db_search (heap σ !!! default_search_params) = db_search_yes
  ∧ db_search (heap (final first) !!! default_search_params) = db_search_no
  ∧ cache_skipped ∈ trace (search Sample.env "entropy" "en" default_search_params (final first)).
Proof.
  intros σ first.
  destruct (C10_link_query_switches_cache_off Sample.env σ "en" default_search_params
              ["en"; "wikipedia"; "org"] "/wiki/Gravity") as (_ & Hoff & Hlater).
  - split; [repeat constructor|right; exists "wiki/Gravity"; reflexivity].
  - right. exists "en", "org". reflexivity.
  - vm_compute. reflexivity.
  - split; [vm_compute; reflexivity|]. split; [exact Hoff|].
    destruct (Hlater "entropy" "en") as (_ & Hin & _).
    eapply Hin. vm_compute. reflexivity.
Defined.

Lemma C7_save_result_twice_witness :
  let σ := Sample.state (Some Sample.fresh_db) in
  let first := save_result Sample.env "Entropy" Sample.entropy_result σ in
  let second := save_result Sample.env "Entropy" Sample.entropy_result (final first) in
  outcome first = Ok tt
  ∧ outcome second = Ok tt
  ∧ final second = final first
  ∧ ∃ d2 p,
      db_searcher (final second) = Some d2
      ∧ ListStore.find_page_by_key "Entropy" "en" (db_store d2) = Some p
      ∧ ListStore.count_pages "Entropy" "en" (db_store d2) = 1%nat
      ∧ ListStore.count_mappings "entropy" "en" (page_id p) (db_store d2) = 1%nat
      ∧ trace second
        = [ELog log_db INFO (Text "Save result");
           EDb (OpSelectPageIdByKey "Entropy" "en");
           ELog log_db WARNING (Text "This page already exist");
           EDb (OpSelectQueryId "entropy" "en" (page_id p));
           ELog log_db WARNING (Text "Search query already exist");
           ELog log_db INFO (Timed "Result saved in")].
Proof.
  refine (C7_save_result_twice Sample.env "Entropy" Sample.entropy_result
            (Sample.state (Some Sample.fresh_db)) Sample.fresh_db _ _ _).
  - reflexivity.
  - reflexivity.
  - split; intros; cbn; lia.
Defined.

(** ** More of the code on concrete inputs *)

Lemma setter_keeps_the_others_witness :
  let a := WikiSimpleResult_init 0 "Entropy" "Entropy" "en" in
  let b := WikiSimpleResult_init 1 "Enthalpy" "Enthalpy" "en" in
  simple_results_setter PyStr.lower_ascii "Entropy" (Some [a; b]) = Some [b].
Proof.
  intros a b.
  refine (eq_trans (setter_keeps_the_others PyStr.lower_ascii "Entropy" [a; b] _ _) _).
  - apply (bool_decide_unpack _). vm_compute. exact I.
  - vm_compute. reflexivity.
  - vm_compute. reflexivity.
Defined.

Lemma simple_result_link_is_canonical_witness :
  let from_url := WikiSimpleResult_init 0 "Enthalpy"
                    (wiki_page_url "en" "Enthalpy") "ru" in
  sr_raw_link from_url = "Enthalpy"
  ∧ sr_link from_url = wiki_page_url "ru" "Enthalpy"
  ∧ WikiSimpleResult_init 0 "Enthalpy" "Enthalpy" "ru" = from_url.
Proof.
  apply (simple_result_link_is_canonical 0 "Enthalpy" "en" "Enthalpy" "ru");
    reflexivity.
Defined.

Lemma passthrough_key_witness :
  let σ : State ListStore.Store :=
    {| heap := {[ 0%nat := {| mode := mode_default;
                              priority := priority_title;
                              number_of_results := 1;
                              query_treatment := treatment_without;
                              db_search := db_search_yes;
                              db_search_by_url := db_search_by_url_no |} ]};
       db_searcher := None |} in
  outcome (WikiQuery_init Sample.env "laws of motion" "en" 0%nat σ)
  = Ok {| q_raw_query := "laws of motion"; q_lang := "en"; q_search_params := 0%nat;
          q_is_link := Some false; q_query := "laws_of_motion" |}.
Proof.
  intros σ.
  destruct (passthrough_key Sample.env "laws of motion" "en" 0%nat σ) as [Hrun _].
  - reflexivity.
  - vm_compute. reflexivity.
  - rewrite Hrun. vm_compute. reflexivity.
Defined.

Lemma normalized_key_witness :
  WikiQuery_init Sample.env "Entropy formula" "en" 0%nat
    (Sample.state (None : option (WikiDB ListStore.Store)))
  = {| outcome := Ok {| q_raw_query := "Entropy formula"; q_lang := "en";
                        q_search_params := 0%nat; q_is_link := Some false;
                        q_query := "Entropy_formula" |};
       final := Sample.state None;
       trace := [] |}.
Proof.
  refine (eq_trans (normalized_key Sample.env "Entropy formula" "en" 0%nat
                      (Sample.state None) ["Entropy"; "formula"] _ _ _ _) _).
  - reflexivity.
  - vm_compute. reflexivity.
  - vm_compute. reflexivity.
  - apply (bool_decide_unpack _). vm_compute. exact I.
  - vm_compute. reflexivity.
Defined.

Lemma converter_reads_stored_pairs_witness :
  let page := ListStore.page_row 1 Sample.entropy_result in
  simple_results_converter page mode_default
  = Some [ {| sr_oid := 0; sr_title := "Enthalpy"; sr_lang := "en";
              sr_raw_link := "Enthalpy";
              sr_link := wiki_page_url "en" "Enthalpy" |} ]
  ∧ simple_results_converter page mode_fast = None.
Proof.
  intros page.
  apply (converter_reads_stored_pairs page [("Enthalpy", "Enthalpy")]
           [None; None; None; None]).
  - repeat constructor.
  - repeat constructor.
  - reflexivity.
Defined.

Lemma cache_hit_short_circuits_witness :
  let σ := Sample.state (Some SampleMore.filled_db) in
  (∃ res, outcome (search Sample.env "entropy" "en" 0%nat σ) = Ok (Some res)
          ∧ res_key res = "Entropy")
  ∧ requests_of (trace (search Sample.env "entropy" "en" 0%nat σ)) = [].
Proof.
  intros σ.
  edestruct (cache_hit_short_circuits Sample.env "entropy" "en" 0%nat σ
               (Sample.query_of "entropy")) as (Hout & _ & Hreq & _).
  - vm_compute. reflexivity.
  - vm_compute. reflexivity.
  - split; [|exact Hreq].
    eexists. split; [exact Hout|]. vm_compute. reflexivity.
Defined.

Lemma nothing_found_is_not_an_error_witness :
  let σ := Sample.state (None : option (WikiDB ListStore.Store)) in
  outcome (search SampleMore.closed_env "entropy" "en" 0%nat σ) = Ok None.
Proof.
  intros σ.
  edestruct (nothing_found_is_not_an_error SampleMore.closed_env "entropy" "en" 0%nat σ
               (Sample.query_of "entropy")) as (Hout & _).
  - vm_compute. reflexivity.
  - vm_compute. reflexivity.
  - reflexivity.
  - vm_compute. reflexivity.
  - exact Hout.
Defined.

Lemma result_returned_without_write_back_witness :
  let σ := Sample.state (None : option (WikiDB ListStore.Store)) in
  (∃ found, outcome (search Sample.env "Entropy" "en" 0%nat σ) = Ok (Some found))
  ∧ Forall (fun ev => no_insert ev = true)
      (trace (search Sample.env "Entropy" "en" 0%nat σ)).
Proof.
  intros σ.
  edestruct (result_returned_without_write_back Sample.env "Entropy" "en" 0%nat σ
               (Sample.query_of "Entropy")) as (Hout & Hall).
  - vm_compute. reflexivity.
  - vm_compute. reflexivity.
  - reflexivity.
  - vm_compute. reflexivity.
  - left. reflexivity.
  - split; [eexists; exact Hout|exact Hall].
Defined.

Lemma api_search_nothing_usable_witness :
  let σ := Sample.state (None : option (WikiDB ListStore.Store)) in
  outcome (api_search SampleMore.closed_env (Sample.query_of "entropy") σ)
  = Raise (WikiScraperExc WikiResNotReceived)
  ∧ outcome (web_search SampleMore.closed_env (Sample.query_of "entropy") σ) = Ok None.
Proof.
  intros σ.
  destruct (api_search_nothing_usable SampleMore.closed_env (Sample.query_of "entropy") σ)
    as [Hapi Hweb].
  - left. vm_compute. reflexivity.
  - split; [rewrite Hapi; vm_compute; reflexivity|].
    apply Hweb. vm_compute. reflexivity.
Defined.


Lemma cached_row_becomes_result_witness :
  let σ := Sample.state (Some SampleMore.filled_db) in
  ∃ result, outcome (db_search_inner Sample.env (Sample.query_of "entropy") σ)
            = Ok (Some result)
            ∧ res_key result = "Entropy"
            ∧ res_summary result = Sample.entropy_text.
Proof.
  intros σ.
  destruct (cached_row_becomes_result Sample.env (Sample.query_of "entropy") σ
              SampleMore.filled_db (ListStore.page_row 1 Sample.entropy_result))
    as (result & Hout & Hkey & _ & _ & Hsum & _).
  - reflexivity.
  - reflexivity.
  - vm_compute. reflexivity.
  - exists result. split; [exact Hout|]. now rewrite Hkey, Hsum.
Defined.

Lemma link_lookup_by_last_segment_witness :
  let σ := Sample.state (Some SampleMore.filled_db) in
  db_ops_of (trace (db_search_inner Sample.env SampleMore.link_query σ))
  = [OpSelectPageByKey "Entropy" "en"].
Proof.
  intros σ.
  destruct (link_lookup_by_last_segment Sample.env SampleMore.link_query σ
              SampleMore.filled_db "https://en.wikipedia.org/wiki" "Entropy")
    as [Hops _].
  - reflexivity.
  - reflexivity.
  - reflexivity.
  - reflexivity.
  - exact Hops.
Defined.


Lemma result_returned_after_write_back_witness :
  let σ := Sample.state (Some Sample.fresh_db) in
  (∃ found, outcome (search Sample.env "Entropy" "en" 0%nat σ) = Ok (Some found))
  ∧ last (trace (search Sample.env "Entropy" "en" 0%nat σ))
    = Some (ELog log_wiki INFO (Timed "Result got in")).
Proof.
  intros σ.
  edestruct (result_returned_after_write_back Sample.env "Entropy" "en" 0%nat σ
               (Sample.query_of "Entropy")) as (Hout & _ & Hlast).
  - vm_compute. reflexivity.
  - vm_compute. reflexivity.
  - reflexivity.
  - vm_compute. reflexivity.
  - vm_compute. reflexivity.
  - reflexivity.
  - vm_compute. discriminate.
  - vm_compute. reflexivity.
  - split; [eexists; exact Hout|exact Hlast].
Defined.

